(** * TidepoolReport: the retrieval and transformation pipeline

    A shallow embedding of [tidepoolreport.go]: the handler [send], its
    helpers [check], [checkDateRanges], [decodeTidepoolData],
    [CheckTidepoolErrorResponse], [CreatePDF] with [lineOut] and
    [cellOut], and [ShowPDF], the page handlers [home], [render] and
    [DisplayMessageScreen], and the parts of the Go standard library they
    call ([encoding/json], [strconv], [fmt], [time]), followed by the
    properties of the pipeline.

    Go strings are byte sequences: they are modelled by [string], whose
    characters are the 256 values of [ascii].  A [float64] is an IEEE 754
    binary64 number, modelled by [spec_float] at precision 53 and maximal
    exponent 1024.  An [int] is a 64-bit signed integer, modelled by [Z]
    with its range written out where the code can leave it.

    The handler is a computation over an environment (the form, the
    remote service, the failures of the local system and of the response
    writer) and a state (files, requests sent, log, response); it
    returns, exits the process or panics.  A file that cannot be stored
    is left as the failure leaves it.  One request is followed, with a PDF generator that has not
    been used before.  The library functions follow their documented
    behaviour: [json.Unmarshal] checks the syntax of the whole text before
    it stores anything and reports an error for every value that does not
    fit its target; [Time.UnmarshalJSON] reads the RFC 3339 format. *)

From Stdlib Require Import ZArith List String Ascii Bool Lia.
From Stdlib Require Import SpecFloat DecimalString DecimalPos DecimalZ.
Import ListNotations.

Set Warnings "-register-all".

Open Scope string_scope.
Open Scope Z_scope.

(** ** Strings *)

Module GoString.

(** [len(s)] as a natural number. *)
Definition len (s : string) : nat := String.length s.

(** [s[lo:hi]]: the bytes [lo] (included) to [hi] (excluded); the Go
    runtime panics when [hi] exceeds the length or [lo] exceeds [hi]. *)
Definition slice (s : string) (lo hi : nat) : option string :=
  if ((lo <=? hi)%nat && (hi <=? len s)%nat)%bool
  then Some (substring lo (hi - lo) s)
  else None.

(** [s[n:]] for [n <= len(s)], and the empty string past the end. *)
Fixpoint drop (n : nat) (s : string) : string :=
  match n, s with
  | O, _ => s
  | S n', String _ s' => drop n' s'
  | S _, EmptyString => EmptyString
  end.

(** The double quote character. *)
Definition dquote : ascii := ascii_of_nat 34.

(** [s] with every apostrophe replaced by a double quote: JSON texts are
    written with apostrophes below. *)
Fixpoint dq (s : string) : string :=
  match s with
  | EmptyString => EmptyString
  | String c s' => String (if (c =? "'")%char then dquote else c) (dq s')
  end.

Definition is_digit (c : ascii) : bool :=
  let n := nat_of_ascii c in ((48 <=? n)%nat && (n <=? 57)%nat)%bool.

Definition digit_val (c : ascii) : Z := Z.of_nat (nat_of_ascii c) - 48.

(** The value of a run of decimal digits, most significant first. *)
Fixpoint digits_val (acc : Z) (s : string) : Z :=
  match s with
  | EmptyString => acc
  | String c s' => digits_val (10 * acc + digit_val c) s'
  end.

Fixpoint all_digits (s : string) : bool :=
  match s with
  | EmptyString => true
  | String c s' => (is_digit c && all_digits s')%bool
  end.

(** The longest prefix whose characters satisfy [p], and the rest. *)
Fixpoint span (p : ascii -> bool) (s : string) : string * string :=
  match s with
  | EmptyString => (EmptyString, EmptyString)
  | String c s' =>
      if p c then let (a, b) := span p s' in (String c a, b)
      else (EmptyString, s)
  end.

Fixpoint concat_all (l : list string) : string :=
  match l with
  | [] => EmptyString
  | s :: l' => s ++ concat_all l'
  end.

(** [strings.Join]. *)
Fixpoint join (sep : string) (l : list string) : string :=
  match l with
  | [] => EmptyString
  | [s] => s
  | s :: l' => s ++ sep ++ join sep l'
  end.

(** Byte-wise lexicographic order, the order of Go's [<] on strings. *)
Fixpoint ltb (a b : string) : bool :=
  match a, b with
  | _, EmptyString => false
  | EmptyString, String _ _ => true
  | String x a', String y b' =>
      let nx := nat_of_ascii x in
      let ny := nat_of_ascii y in
      if (nx <? ny)%nat then true
      else if (ny <? nx)%nat then false
      else ltb a' b'
  end.

End GoString.

(** ** 64-bit integers and binary64 floats *)

Module GoNum.

Definition int64_min : Z := - 2 ^ 63.
Definition int64_max : Z := 2 ^ 63 - 1.

Definition in_int64 (z : Z) : bool :=
  ((int64_min <=? z) && (z <=? int64_max))%bool.

(** [strconv.Itoa]: the decimal rendering of an integer. *)
Definition Itoa (z : Z) : string := NilZero.string_of_int (Z.to_int z).

Definition float64 : Type := spec_float.

Definition prec : Z := 53.
Definition emax : Z := 1024.

(** The float64 product [x * y], rounded to nearest even. *)
Definition fmul (x y : float64) : float64 := SFmul prec emax x y.

(** The float64 nearest to the integer [z]. *)
Definition of_Z (z : Z) : float64 := binary_normalize prec emax z 0 false.

(** The float64 nearest to the rational [p / q] ([0 < p], [0 < q]), with
    the sign [neg]: the quotient is taken with enough bits to fill the
    mantissa and the remainder decides the rounding. *)
Definition of_ratio (neg : bool) (p q : positive) : float64 :=
  let '(m, e, l) := SFdiv_core_binary prec emax (Zpos p) 0 (Zpos q) 0 in
  binary_round_aux prec emax neg m e l.

(** The integer part of a finite float: the mantissa shifted by the
    exponent, the sign applied afterwards, which drops the fraction
    (rounds toward zero). *)
Definition truncate (f : float64) : option Z :=
  match f with
  | S754_zero _ => Some 0
  | S754_finite s m e =>
      Some (cond_Zopp s
              (match e with
               | Zneg k => Z.shiftr (Zpos m) (Zpos k)
               | _ => Z.shiftl (Zpos m) e
               end))
  | S754_infinity _ | S754_nan => None
  end.

(** The conversion [int(f)] of a float64.  Go leaves the result
    implementation-dependent when the truncated value does not fit the
    integer type (and for infinities and NaN); this is the amd64 target,
    whose conversion instruction then yields the smallest int64. *)
Definition to_int (f : float64) : Z :=
  match truncate f with
  | Some z => if in_int64 z then z else int64_min
  | None => int64_min
  end.

(** The exact value of a finite float as a fraction
    [numerator / denominator] with a positive denominator. *)
Definition fraction (f : float64) : option (Z * Z) :=
  match f with
  | S754_zero _ => Some (0, 1)
  | S754_finite s m e =>
      Some (match e with
            | Zneg k => (cond_Zopp s (Zpos m), 2 ^ Zpos k)
            | _ => (cond_Zopp s (Zpos m * 2 ^ e), 1)
            end)
  | S754_infinity _ | S754_nan => None
  end.

(** Rounding toward zero of the exact value: the quotient of the
    fraction, truncated ([Z.quot]). *)
Definition round_toward_zero (f : float64) : option Z :=
  match fraction f with
  | Some (n, d) => Some (Z.quot n d)
  | None => None
  end.

End GoNum.

(** ** strconv: number literals *)

Module Strconv.
Import GoString GoNum.

(** A number literal of the JSON grammar, split into its parts: an
    optional minus sign, the integer digits (a single zero, or digits that
    do not start with a zero), an optional point followed by digits, an
    optional exponent (e or E, an optional sign, digits). *)
Record numlit := {
  n_neg : bool;               (* a leading minus sign *)
  n_int : string;             (* the digits before the point *)
  n_frac : string;            (* the digits after the point, if any *)
  n_exp : Z;                  (* the decimal exponent, 0 if absent *)
  n_integral : bool           (* neither a fraction nor an exponent *)
}.

Definition scan_sign (s : string) : bool * string :=
  match s with
  | String "-" s' => (true, s')
  | _ => (false, s)
  end.

Definition scan_int (s : string) : option (string * string) :=
  let (d, rest) := span is_digit s in
  match d with
  | EmptyString => None
  | String "0" (String _ _) => None
  | _ => Some (d, rest)
  end.

Definition scan_frac (s : string) : option (string * string) :=
  match s with
  | String "." s' =>
      let (d, rest) := span is_digit s' in
      match d with
      | EmptyString => None
      | _ => Some (d, rest)
      end
  | _ => Some (EmptyString, s)
  end.

Definition scan_exp (s : string) : option (option Z * string) :=
  let digits neg s' :=
    let (d, rest) := span is_digit s' in
    match d with
    | EmptyString => None
    | _ => Some (Some (cond_Zopp neg (digits_val 0 d)), rest)
    end in
  match s with
  | String "e" s' | String "E" s' =>
      match s' with
      | String "+" s'' => digits false s''
      | String "-" s'' => digits true s''
      | _ => digits false s'
      end
  | _ => Some (None, s)
  end.

(** The longest number literal at the head of [s], and what follows. *)
Definition scan_number (s : string) : option (numlit * string) :=
  let (neg, s1) := scan_sign s in
  match scan_int s1 with
  | None => None
  | Some (i, s2) =>
      match scan_frac s2 with
      | None => None
      | Some (f, s3) =>
          match scan_exp s3 with
          | None => None
          | Some (e, s4) =>
              Some ({| n_neg := neg; n_int := i; n_frac := f;
                       n_exp := match e with Some z => z | None => 0 end;
                       n_integral :=
                         match f, e with
                         | EmptyString, None => true
                         | _, _ => false
                         end |}, s4)
          end
      end
  end.

(** The whole of [s] as a number literal. *)
Definition numlit_of_string (s : string) : option numlit :=
  match scan_number s with
  | Some (n, EmptyString) => Some n
  | _ => None
  end.

(** [strconv.ParseInt(s, 10, 64)] on a number literal: a fraction or an
    exponent is a syntax error, a value outside the int64 range a range
    error. *)
Definition ParseInt (n : numlit) : option Z :=
  if n_integral n then
    let z := cond_Zopp (n_neg n) (digits_val 0 (n_int n)) in
    if in_int64 z then Some z else None
  else None.

(** The float64 nearest to [c * 10 ^ k] for [0 <= c], with sign [neg]. *)
Definition of_decimal (neg : bool) (c k : Z) : float64 :=
  match c with
  | Zpos p =>
      match k with
      | Zneg q => of_ratio neg p (10 ^ q)%positive
      | _ => of_ratio neg (Z.to_pos (Zpos p * 10 ^ k)) 1
      end
  | _ => S754_zero neg
  end.

(** [strconv.ParseFloat(s, 64)] on a number literal: the nearest
    float64, and a range error when that is an infinity. *)
Definition ParseFloat (n : numlit) : option float64 :=
  let c := digits_val 0 (n_int n ++ n_frac n) in
  let k := n_exp n - Z.of_nat (len (n_frac n)) in
  match of_decimal (n_neg n) c k with
  | S754_infinity _ | S754_nan => None
  | f => Some f
  end.

(** *** Shortest decimal rendering of a float64 *)

(** The decimal digits of a float and the position of the decimal
    point: the value is [0.d1d2... * 10 ^ dp]. *)
Record decimal := { dg : string; dp : Z }.

Fixpoint strip_zeros_rev (r : list ascii) : list ascii :=
  match r with
  | "0"%char :: r' => strip_zeros_rev r'
  | _ => r
  end.

Definition strip_trailing_zeros (s : string) : string :=
  string_of_list_ascii
    (List.rev (strip_zeros_rev (List.rev (list_ascii_of_string s)))).

(** The largest [p] among [start, start - 1, ...] with
    [10 ^ p <= n / d], searching at most [fuel] steps downwards. *)
Fixpoint floor_log10_down (fuel : nat) (p n d : Z) : Z :=
  match fuel with
  | O => p
  | S fuel' =>
      if (if 0 <=? p then d * 10 ^ p <=? n else d <=? n * 10 ^ (- p))
      then p
      else floor_log10_down fuel' (p - 1) n d
  end.

(** The decimal exponent of [n / d]: [10 ^ p <= n / d < 10 ^ (p + 1)]. *)
Definition floor_log10 (n d : Z) : Z :=
  if d <=? n
  then Z.of_nat (len (Itoa (n / d))) - 1
  else floor_log10_down 400 (-1) n d.

(** The candidate with [nd] digits: the two neighbours
    [c * 10 ^ k] and [(c + 1) * 10 ^ k] of [n / d]; the one that reads
    back as [f], the nearer one when both do. *)
Definition candidate (f : float64) (n d p : Z) (nd : nat) : option (Z * Z) :=
  let k := p - Z.of_nat nd + 1 in
  let N := if 0 <=? k then n else n * 10 ^ (- k) in
  let D := if 0 <=? k then d * 10 ^ k else d in
  let lo := N / D in
  let hi := lo + 1 in
  let reads c := SFeqb (of_decimal false c k) f in
  match reads lo, reads hi with
  | true, true =>
      match Z.compare (2 * N) ((2 * lo + 1) * D) with
      | Lt => Some (lo, k)
      | Gt => Some (hi, k)
      | Eq => Some (if Z.even lo then lo else hi, k)
      end
  | true, false => Some (lo, k)
  | false, true => Some (hi, k)
  | false, false => None
  end.

Fixpoint shortest_from (f : float64) (n d p : Z) (nd fuel : nat) : Z * Z :=
  match fuel with
  | O => (0, 0)
  | S fuel' =>
      match candidate f n d p nd with
      | Some ck => ck
      | None => shortest_from f n d p (S nd) fuel'
      end
  end.

(** The fewest digits that identify the positive float [f] uniquely. *)
Definition shortest (f : float64) : decimal :=
  match fraction f with
  | Some (n, d) =>
      if n =? 0 then {| dg := EmptyString; dp := 0 |}
      else
        let '(c, k) := shortest_from f n d (floor_log10 n d) 1 17 in
        let s := Itoa c in
        {| dg := strip_trailing_zeros s; dp := Z.of_nat (len s) + k |}
  | None => {| dg := EmptyString; dp := 0 |}
  end.

Fixpoint zeros (n : nat) : string :=
  match n with
  | O => EmptyString
  | S n' => String "0" (zeros n')
  end.

(** The [%e] layout: [d.ddde+xx], at least two exponent digits. *)
Definition fmtE (d : decimal) : string :=
  let e := dp d - 1 in
  let mant :=
    match dg d with
    | EmptyString => "0"
    | String c EmptyString => String c EmptyString
    | String c r => String c ("." ++ r)
    end in
  let ea := Itoa (Z.abs e) in
  mant ++ "e" ++ (if e <? 0 then "-" else "+")
       ++ (if Z.abs e <? 10 then "0" ++ ea else ea).

(** The [%f] layout with as many decimals as the digits need. *)
Definition fmtF (d : decimal) : string :=
  let nd := len (dg d) in
  if 0 <? dp d then
    let ip := Z.to_nat (dp d) in
    if (nd <=? ip)%nat then dg d ++ zeros (ip - nd)
    else substring 0 ip (dg d) ++ "." ++ drop ip (dg d)
  else
    match dg d with
    | EmptyString => "0"
    | _ => "0." ++ zeros (Z.to_nat (- dp d)) ++ dg d
    end.

(** [strconv.FormatFloat(f, 'g', -1, 64)], which is also how [fmt]
    prints a float64 under [%v]: the shortest digits, in the [%e] layout
    when the decimal exponent is below -4 or at least 6, and in the [%f]
    layout otherwise. *)
Definition FormatFloat (f : float64) : string :=
  match f with
  | S754_nan => "NaN"
  | S754_infinity false => "+Inf"
  | S754_infinity true => "-Inf"
  | S754_zero s => if s then "-0" else "0"
  | S754_finite s _ _ =>
      let d := shortest (SFabs f) in
      let e := dp d - 1 in
      (if s then "-" else EmptyString)
        ++ (if ((e <? -4) || (6 <=? e))%bool then fmtE d else fmtF d)
  end.

End Strconv.

(** ** encoding/json: syntax *)

Module Json.
Import GoString GoNum Strconv.

(** A JSON text after the syntax check.  A string keeps its literal (the
    bytes between the quotes, escapes included): what it denotes depends
    on the Go type it is stored into. *)
Inductive value : Type :=
| JNull
| JBool (b : bool)
| JNumber (n : numlit)
| JString (raw : string)
| JArray (elems : list value)
| JObject (members : list (string * value)).

Inductive token : Type :=
| TLBrace | TRBrace | TLBrack | TRBrack | TColon | TComma
| TString (raw : string)
| TNumber (n : numlit)
| TTrue | TFalse | TNull.

Definition code (c : ascii) : N := N_of_ascii c.

Definition is_space (c : ascii) : bool :=
  ((code c =? 32) || (code c =? 9) || (code c =? 13) || (code c =? 10))%N%bool.

Definition hex_val (c : ascii) : option N :=
  let n := code c in
  if ((48 <=? n) && (n <=? 57))%N%bool then Some (n - 48)%N
  else if ((97 <=? n) && (n <=? 102))%N%bool then Some (n - 87)%N
  else if ((65 <=? n) && (n <=? 70))%N%bool then Some (n - 55)%N
  else None.

(** The value of the four hexadecimal digits at the head of [s]. *)
Definition hex4 (s : string) : option N :=
  match s with
  | String a (String b (String c (String d _))) =>
      match hex_val a, hex_val b, hex_val c, hex_val d with
      | Some x, Some y, Some z, Some w =>
          Some (((x * 16 + y) * 16 + z) * 16 + w)%N
      | _, _, _, _ => None
      end
  | _ => None
  end.

Definition is_simple_escape (c : ascii) : bool :=
  ((c =? dquote) || (c =? "\") || (c =? "/") || (c =? "b") || (c =? "f")
   || (c =? "n") || (c =? "r") || (c =? "t"))%char%bool.

(** The literal of a string whose opening quote has been read: the bytes
    up to the closing quote, and what follows it.  A control character, an
    unknown escape or a missing closing quote is a syntax error. *)
Fixpoint scan_string (s : string) : option (string * string) :=
  match s with
  | EmptyString => None
  | String c r =>
      if (c =? dquote)%char then Some (EmptyString, r)
      else if (c =? "\")%char then
        match r with
        | String e r1 =>
            if is_simple_escape e then
              match scan_string r1 with
              | Some (lit, rest) => Some (String c (String e lit), rest)
              | None => None
              end
            else if (e =? "u")%char then
              match r1 with
              | String h1 (String h2 (String h3 (String h4 r2))) =>
                  match hex4 r1, scan_string r2 with
                  | Some _, Some (lit, rest) =>
                      Some (String c (String e (String h1 (String h2
                             (String h3 (String h4 lit))))), rest)
                  | _, _ => None
                  end
              | _ => None
              end
            else None
        | EmptyString => None
        end
      else if (code c <? 32)%N then None
      else
        match scan_string r with
        | Some (lit, rest) => Some (String c lit, rest)
        | None => None
        end
  end.

(** [s] without the prefix [p], when it starts with it. *)
Fixpoint strip_prefix (p s : string) : option string :=
  match p, s with
  | EmptyString, _ => Some s
  | String a p', String b s' =>
      if (a =? b)%char then strip_prefix p' s' else None
  | String _ _, EmptyString => None
  end.

(** The tokens of a JSON text; white space separates them.  Every round
    consumes at least one byte, so [fuel] above the length is enough. *)
Fixpoint lex (fuel : nat) (s : string) : option (list token) :=
  match fuel with
  | O => None
  | S fuel' =>
      match s with
      | EmptyString => Some []
      | String c r =>
          let one (t : token) (rest : string) :=
            match lex fuel' rest with
            | Some ts => Some (t :: ts)
            | None => None
            end in
          let word (w : string) (t : token) :=
            match strip_prefix w r with
            | Some rest => one t rest
            | None => None
            end in
          if is_space c then lex fuel' r
          else if (c =? "{")%char then one TLBrace r
          else if (c =? "}")%char then one TRBrace r
          else if (c =? "[")%char then one TLBrack r
          else if (c =? "]")%char then one TRBrack r
          else if (c =? ":")%char then one TColon r
          else if (c =? ",")%char then one TComma r
          else if (c =? dquote)%char then
            match scan_string r with
            | Some (lit, rest) => one (TString lit) rest
            | None => None
            end
          else if (c =? "t")%char then word "rue" TTrue
          else if (c =? "f")%char then word "alse" TFalse
          else if (c =? "n")%char then word "ull" TNull
          else if ((c =? "-")%char || is_digit c)%bool then
            match scan_number s with
            | Some (n, rest) => one (TNumber n) rest
            | None => None
            end
          else None
      end
  end.

(** The containers that are open while the tokens are read: an array with
    the elements read so far (last first), an object between two members,
    an object whose member [key] waits for its value. *)
Inductive frame : Type :=
| FArray (acc : list value)
| FObject (acc : list (string * value))
| FMember (acc : list (string * value)) (key : string).

Inductive expect : Type :=
| EValue          (* a value *)
| EFirstElem      (* after an opening bracket: a value or the closing one *)
| EFirstKey       (* after an opening brace: a key or the closing one *)
| EKey            (* after a comma in an object: a key *)
| EColon          (* after a key *)
| ENext           (* after a value in a container: a comma or the end *)
| EDone (v : value).

(** A complete value goes to the innermost open container, or ends the
    text. *)
Definition deliver (v : value) (st : list frame) : option (list frame * expect) :=
  match st with
  | [] => Some ([], EDone v)
  | FArray acc :: st' => Some (FArray (v :: acc) :: st', ENext)
  | FMember acc k :: st' => Some (FObject ((k, v) :: acc) :: st', ENext)
  | FObject _ :: _ => None
  end.

(** The scanner refuses a text whose containers nest deeper than this. *)
Definition maxNestingDepth : N := 10000.

Definition start_value (t : token) (st : list frame) : option (list frame * expect) :=
  match t with
  | TString raw => deliver (JString raw) st
  | TNumber n => deliver (JNumber n) st
  | TTrue => deliver (JBool true) st
  | TFalse => deliver (JBool false) st
  | TNull => deliver JNull st
  | TLBrack =>
      if (N.of_nat (List.length st) <? maxNestingDepth)%N
      then Some (FArray [] :: st, EFirstElem) else None
  | TLBrace =>
      if (N.of_nat (List.length st) <? maxNestingDepth)%N
      then Some (FObject [] :: st, EFirstKey) else None
  | _ => None
  end.

Definition start_key (t : token) (st : list frame) : option (list frame * expect) :=
  match t, st with
  | TString raw, FObject acc :: st' => Some (FMember acc raw :: st', EColon)
  | _, _ => None
  end.

Definition close_array (st : list frame) : option (list frame * expect) :=
  match st with
  | FArray acc :: st' => deliver (JArray (List.rev acc)) st'
  | _ => None
  end.

Definition close_object (st : list frame) : option (list frame * expect) :=
  match st with
  | FObject acc :: st' => deliver (JObject (List.rev acc)) st'
  | _ => None
  end.

Definition step (st : list frame) (e : expect) (t : token) : option (list frame * expect) :=
  match e with
  | EValue => start_value t st
  | EFirstElem =>
      match t with
      | TRBrack => close_array st
      | _ => start_value t st
      end
  | EFirstKey =>
      match t with
      | TRBrace => close_object st
      | _ => start_key t st
      end
  | EKey => start_key t st
  | EColon =>
      match t with
      | TColon => Some (st, EValue)
      | _ => None
      end
  | ENext =>
      match t, st with
      | TComma, FArray _ :: _ => Some (st, EValue)
      | TComma, FObject _ :: _ => Some (st, EKey)
      | TRBrack, _ => close_array st
      | TRBrace, _ => close_object st
      | _, _ => None
      end
  | EDone _ => None
  end.

Fixpoint run (st : list frame) (e : expect) (ts : list token) : option value :=
  match ts with
  | [] =>
      match e, st with
      | EDone v, [] => Some v
      | _, _ => None
      end
  | t :: ts' =>
      match step st e t with
      | Some (st', e') => run st' e' ts'
      | None => None
      end
  end.

(** The syntax check of [json.Unmarshal] ([checkValid]): one value, white
    space around it, nothing else; [None] is a [SyntaxError]. *)
Definition parse (data : string) : option value :=
  match lex (S (len data)) data with
  | Some ts => run [] EValue ts
  | None => None
  end.

End Json.

(** ** encoding/json: storing a value into a Go type *)

Module Unmarshal.
Import GoString GoNum Strconv Json.

Definition byte (n : N) : ascii := ascii_of_N n.

(** [utf8.EncodeRune]: the UTF-8 bytes of a code point; a surrogate or a
    value past U+10FFFF becomes U+FFFD. *)
Definition encode_rune (r : N) : string :=
  let r := if ((55296 <=? r) && (r <? 57344) || (1114111 <? r))%N%bool
           then 65533%N else r in
  if (r <? 128)%N then String (byte r) EmptyString
  else if (r <? 2048)%N then
    String (byte (192 + r / 64)) (String (byte (128 + r mod 64)) EmptyString)
  else if (r <? 65536)%N then
    String (byte (224 + r / 4096))
      (String (byte (128 + (r / 64) mod 64))
         (String (byte (128 + r mod 64)) EmptyString))
  else
    String (byte (240 + r / 262144))
      (String (byte (128 + (r / 4096) mod 64))
         (String (byte (128 + (r / 64) mod 64))
            (String (byte (128 + r mod 64)) EmptyString))).

Definition between (lo hi : N) (c : ascii) : bool :=
  ((lo <=? code c) && (code c <=? hi))%N%bool.

(** The length of the well-formed UTF-8 sequence at the head of [s]
    (whose first byte is not ASCII), or [None]. *)
Definition utf8_len (s : string) : option nat :=
  match s with
  | String a (String b r) =>
      let cont2 :=
        match r with
        | String c _ => between 128 191 c
        | _ => false
        end in
      let cont3 :=
        match r with
        | String c (String d _) => (between 128 191 c && between 128 191 d)%bool
        | _ => false
        end in
      if between 194 223 a then
        if between 128 191 b then Some 2%nat else None
      else if between 224 224 a then
        if (between 160 191 b && cont2)%bool then Some 3%nat else None
      else if between 237 237 a then
        if (between 128 159 b && cont2)%bool then Some 3%nat else None
      else if between 225 239 a then
        if (between 128 191 b && cont2)%bool then Some 3%nat else None
      else if between 240 240 a then
        if (between 144 191 b && cont3)%bool then Some 4%nat else None
      else if between 241 243 a then
        if (between 128 191 b && cont3)%bool then Some 4%nat else None
      else if between 244 244 a then
        if (between 128 143 b && cont3)%bool then Some 4%nat else None
      else None
  | _ => None
  end.

(** What the escape after a backslash denotes, and how many bytes of [r]
    (the text after the backslash) it takes.  A surrogate escape joins
    the low surrogate escape that follows it; alone it is U+FFFD. *)
Definition unescape (r : string) : string * nat :=
  match r with
  | EmptyString => (EmptyString, 0%nat)
  | String e r1 =>
      if (e =? "u")%char then
        match hex4 r1 with
        | Some rr =>
            if ((55296 <=? rr) && (rr <? 57344))%N%bool then
              match strip_prefix "\u" (drop 4 r1) with
              | Some r2 =>
                  match hex4 r2 with
                  | Some rr1 =>
                      if ((rr <? 56320) && (56320 <=? rr1) && (rr1 <? 57344))%N%bool
                      then (encode_rune ((rr - 55296) * 1024 + (rr1 - 56320) + 65536)%N,
                            11%nat)
                      else (encode_rune 65533, 5%nat)
                  | None => (encode_rune 65533, 5%nat)
                  end
              | None => (encode_rune 65533, 5%nat)
              end
            else (encode_rune rr, 5%nat)
        | None => (EmptyString, 1%nat)
        end
      else
        let b :=
          if (e =? "b")%char then byte 8
          else if (e =? "f")%char then byte 12
          else if (e =? "n")%char then byte 10
          else if (e =? "r")%char then byte 13
          else if (e =? "t")%char then byte 9
          else e in
        (String b EmptyString, 1%nat)
  end.

(** The bytes a string literal denotes ([unquote]): escapes are resolved
    and every byte that is not part of well-formed UTF-8 becomes U+FFFD.
    [skip] counts bytes already accounted for. *)
Fixpoint unquote_from (skip : nat) (s : string) : string :=
  match s with
  | EmptyString => EmptyString
  | String c r =>
      match skip with
      | S k => unquote_from k r
      | O =>
          if (c =? "\")%char then
            let (out, n) := unescape r in out ++ unquote_from n r
          else if (code c <? 128)%N then String c (unquote_from 0 r)
          else
            match utf8_len s with
            | Some n => substring 0 n s ++ unquote_from (n - 1) r
            | None => encode_rune 65533 ++ unquote_from 0 r
            end
      end
  end.

Definition unquote (raw : string) : string := unquote_from 0 raw.

Definition is_upper (c : ascii) : bool := between 65 90 c.
Definition is_lower (c : ascii) : bool := between 97 122 c.

Definition to_lower (c : ascii) : ascii :=
  if is_upper c then byte (code c + 32) else c.

(** [bytes.EqualFold] of a field name made of ASCII characters with a
    key: letters match in either case, and the two letters whose case
    orbit leaves ASCII also match its other member (the Kelvin sign
    U+212A for k, the long s U+017F for s). *)
Fixpoint equal_fold (name key : string) : bool :=
  match name with
  | EmptyString =>
      match key with
      | EmptyString => true
      | _ => false
      end
  | String c name' =>
      match key with
      | EmptyString => false
      | String k key' =>
          if (to_lower c =? to_lower k)%char then equal_fold name' key'
          else if (to_lower c =? "k")%char then
            match strip_prefix (encode_rune 8490) key with
            | Some rest => equal_fold name' rest
            | None => false
            end
          else if (to_lower c =? "s")%char then
            match strip_prefix (encode_rune 383) key with
            | Some rest => equal_fold name' rest
            | None => false
            end
          else false
      end
  end.

(** Storing a JSON value into a Go variable of type [T] that holds [cur]:
    the new content, or [None] when [json.Unmarshal] reports an error
    (the caller then discards the variable). *)
Definition codec (T : Type) : Type := T -> value -> option T.

(** An [int]: a number literal without fraction or exponent, in range.
    [null] leaves any variable that is not a pointer as it is. *)
Definition dec_int : codec Z :=
  fun cur v =>
    match v with
    | JNull => Some cur
    | JNumber n => ParseInt n
    | _ => None
    end.

Definition dec_float64 : codec float64 :=
  fun cur v =>
    match v with
    | JNull => Some cur
    | JNumber n => ParseFloat n
    | _ => None
    end.

Definition dec_string : codec string :=
  fun cur v =>
    match v with
    | JNull => Some cur
    | JString raw => Some (unquote raw)
    | _ => None
    end.

Fixpoint dec_elems {T : Type} (zero : T) (c : codec T) (l : list value) : option (list T) :=
  match l with
  | [] => Some []
  | v :: l' =>
      match c zero v, dec_elems zero c l' with
      | Some x, Some xs => Some (x :: xs)
      | _, _ => None
      end
  end.

(** A slice that is empty before the call: an array gives one element
    per item, each decoded into a zero value; [null] gives the nil slice;
    anything else, an object included, is an [UnmarshalTypeError]. *)
Definition dec_slice {T : Type} (zero : T) (c : codec T) : value -> option (list T) :=
  fun v =>
    match v with
    | JNull => Some []
    | JArray l => dec_elems zero c l
    | _ => None
    end.

(** The field a key selects: the one with exactly that name, else the
    first whose name equals it up to case. *)
Fixpoint find_exact {F : Type} (fields : list (string * F)) (key : string) : option F :=
  match fields with
  | [] => None
  | (name, f) :: fields' =>
      if String.eqb name key then Some f else find_exact fields' key
  end.

Fixpoint find_fold {F : Type} (fields : list (string * F)) (key : string) : option F :=
  match fields with
  | [] => None
  | (name, f) :: fields' =>
      if equal_fold name key then Some f else find_fold fields' key
  end.

Definition find_field {F : Type} (fields : list (string * F)) (key : string) : option F :=
  match find_exact fields key with
  | Some f => Some f
  | None => find_fold fields key
  end.

Fixpoint dec_members {T : Type} (fields : list (string * codec T))
  (cur : T) (ms : list (string * value)) : option T :=
  match ms with
  | [] => Some cur
  | (k, v) :: ms' =>
      match find_field fields (unquote k) with
      | None => dec_members fields cur ms'
      | Some c =>
          match c cur v with
          | Some cur' => dec_members fields cur' ms'
          | None => None
          end
      end
  end.

(** A struct whose fields are decoded by [fields]: the members of an
    object are stored in the order of the text, a later one over an
    earlier one, and keys that name no field are skipped; [null] changes
    nothing; anything else, an array included, is an
    [UnmarshalTypeError]. *)
Definition dec_struct {T : Type} (fields : list (string * codec T)) : codec T :=
  fun cur v =>
    match v with
    | JNull => Some cur
    | JObject ms => dec_members fields cur ms
    | _ => None
    end.

(** A field whose content the program never reads: only the errors of
    its decoding matter. *)
Definition checked {T U : Type} (ok : value -> option U) : codec T :=
  fun cur v =>
    match ok v with
    | Some _ => Some cur
    | None => None
    end.

End Unmarshal.

(** ** interface{} values and fmt *)

Module Fmt.
Import GoString GoNum Strconv Json Unmarshal.

(** What [json.Unmarshal] stores into an [interface{}]: [nil], a [bool],
    a [float64], a [string], a [[]interface{}] or a
    [map[string]interface{}] (its entries kept in the order of their first
    insertion). *)
Inductive any : Type :=
| ANil
| ABool (b : bool)
| AFloat (f : float64)
| AString (s : string)
| ASlice (l : list any)
| AMap (m : list (string * any)).

(** [m[k] = v]. *)
Fixpoint map_set {V : Type} (k : string) (v : V) (m : list (string * V)) : list (string * V) :=
  match m with
  | [] => [(k, v)]
  | (k', v') :: m' =>
      if String.eqb k' k then (k, v) :: m' else (k', v') :: map_set k v m'
  end.

(** [m[k]], [None] for a key that is not in the map. *)
Fixpoint map_get {V : Type} (k : string) (m : list (string * V)) : option V :=
  match m with
  | [] => None
  | (k', v) :: m' => if String.eqb k' k then Some v else map_get k m'
  end.

(** The value stored for a JSON value.  A number outside the float64
    range is an error that leaves [nil]. *)
Fixpoint to_any (v : value) : any :=
  match v with
  | JNull => ANil
  | JBool b => ABool b
  | JNumber n =>
      match ParseFloat n with
      | Some f => AFloat f
      | None => ANil
      end
  | JString raw => AString (unquote raw)
  | JArray l => ASlice (List.map to_any l)
  | JObject ms =>
      AMap (List.fold_left
              (fun m kv => match kv with (k, x) => map_set (unquote k) (to_any x) m end)
              ms [])
  end.

(** [json.Unmarshal(data, &result)] for a nil [result] of type
    [map[string]interface{}]: the map afterwards, [None] for the nil map.
    After a syntax error, or for a text that is not an object, the map
    stays nil. *)
Definition unmarshal_map (data : string) : option (list (string * any)) :=
  match parse data with
  | Some (JObject ms) =>
      Some (List.fold_left
              (fun m kv => match kv with (k, x) => map_set (unquote k) (to_any x) m end)
              ms [])
  | _ => None
  end.

(** [result[k]] for a map that may be nil: [nil] when the key is absent. *)
Definition index_map (result : option (list (string * any))) (k : string) : any :=
  match result with
  | Some m =>
      match map_get k m with
      | Some v => v
      | None => ANil
      end
  | None => ANil
  end.

Fixpoint insert_sorted {V : Type} (kv : string * V) (m : list (string * V)) : list (string * V) :=
  match m with
  | [] => [kv]
  | kv' :: m' =>
      if ltb (fst kv) (fst kv') then kv :: m else kv' :: insert_sorted kv m'
  end.

Definition sort_keys {V : Type} (m : list (string * V)) : list (string * V) :=
  List.fold_right insert_sorted [] m.

(** [fmt.Sprintf("%v", x)]: [<nil>] for nil, a string as it is, a float in
    its shortest form, a slice between brackets, a map as [map[...]] with
    its keys in increasing order. *)
Fixpoint Sprint (x : any) : string :=
  match x with
  | ANil => "<nil>"
  | ABool b => if b then "true" else "false"
  | AFloat f => FormatFloat f
  | AString s => s
  | ASlice l => "[" ++ join " " (List.map Sprint l) ++ "]"
  | AMap m =>
      "map["
        ++ join " " (List.map (fun kv => match kv with (k, v) => k ++ ":" ++ v end)
                       (sort_keys
                          (List.map (fun kv => match kv with (k, v) => (k, Sprint v) end) m)))
        ++ "]"
  end.

End Fmt.

(** ** time *)

Module GoTime.
Import GoString GoNum.

(** The number at [s[lo:hi]] when all its characters are digits and it
    lies between [min] and [max]. *)
Definition parse_uint (s : string) (lo hi : nat) (min max : Z) : option Z :=
  match slice s lo hi with
  | Some d =>
      if all_digits d then
        let x := digits_val 0 d in
        if ((min <=? x) && (x <=? max))%bool then Some x else None
      else None
  | None => None
  end.

Definition is_leap (year : Z) : bool :=
  ((year mod 4 =? 0) && (negb (year mod 100 =? 0) || (year mod 400 =? 0)))%bool.

Definition days_in (month year : Z) : Z :=
  if month =? 2 then (if is_leap year then 29 else 28)
  else if ((month =? 4) || (month =? 6) || (month =? 9) || (month =? 11))%bool then 30
  else 31.

Definition char_at (s : string) (i : nat) (c : ascii) : bool :=
  match String.get i s with
  | Some x => (x =? c)%char
  | None => false
  end.

(** The zone at the end of a timestamp: [Z], or a sign, two digits of
    hours, a colon and two digits of minutes. *)
Definition zone_ok (s : string) : bool :=
  if String.eqb s "Z" then true
  else if (len s =? 6)%nat then
    match parse_uint s 1 3 0 23, parse_uint s 4 6 0 59 with
    | Some _, Some _ =>
        ((char_at s 0 "-" || char_at s 0 "+") && char_at s 3 ":")%bool
    | _, _ => false
    end
  else false.

(** The fraction of a second, if there is one (a point and at least one
    digit), is skipped. *)
Definition skip_fraction (s : string) : string :=
  match s with
  | String "." (String d r) =>
      if is_digit d then snd (span is_digit r) else s
  | _ => s
  end.

(** A timestamp in the RFC 3339 format, which is what [Time.UnmarshalJSON]
    is documented to read: [2006-01-02T15:04:05], an optional fraction, a
    zone. *)
Definition rfc3339 (s : string) : bool :=
  if (len s <? 19)%nat then false
  else
    match parse_uint s 0 4 0 9999, parse_uint s 5 7 1 12 with
    | Some year, Some month =>
        match parse_uint s 8 10 1 (days_in month year),
              parse_uint s 11 13 0 23,
              parse_uint s 14 16 0 59,
              parse_uint s 17 19 0 59 with
        | Some _, Some _, Some _, Some _ =>
            (char_at s 4 "-" && char_at s 7 "-" && char_at s 10 "T"
             && char_at s 13 ":" && char_at s 16 ":"
             && zone_ok (skip_fraction (drop 19 s)))%bool
        | _, _, _, _ => false
        end
    | _, _ => false
    end.

(** [Time.UnmarshalJSON]: [null] is accepted and changes nothing, a string
    literal is read as it stands in the text (escapes are not resolved),
    any other value is an error.  The instant itself is not kept: the
    program never reads it. *)
Definition UnmarshalJSON (v : Json.value) : option unit :=
  match v with
  | Json.JNull => Some tt
  | Json.JString raw => if rfc3339 raw then Some tt else None
  | _ => None
  end.

End GoTime.

(** ** The program *)

Module TidepoolReport.
Import GoString GoNum Strconv Json Unmarshal Fmt.

(** *** Data *)

(** A Go [error], identified with its message. *)
Definition error : Type := string.

(** The error object Tidepool answers with. *)
Record tpError : Type := {
  Status : Z;
  Id : string;
  Code : string;
  Message : string
}.

(** An element of [tpMeasurement] with the fields the program reads or
    the feed description singles out; the other nineteen fields of the Go
    struct are decoded (an ill-typed one is an error, see [entry_fields])
    and never read. *)
Record tpMeasurement_elem : Type := {
  Devicetime : string;
  Type_ : string;
  Units : string;
  Value : float64
}.

Definition tpMeasurement : Type := list tpMeasurement_elem.

(** What goes to the PDF generator: date, time and value. *)
Record Smbg : Type := {
  smbgDate : string;
  smbgTime : string;
  smbgValue : string
}.

Definition zero_tpError : tpError :=
  {| Status := 0; Id := EmptyString; Code := EmptyString; Message := EmptyString |}.

Definition zero_elem : tpMeasurement_elem :=
  {| Devicetime := EmptyString; Type_ := EmptyString; Units := EmptyString;
     Value := S754_zero false |}.

(** *** The JSON layout of the two types *)

(** [tpError] has no field tags: a key selects the field of that name. *)
Definition tpError_fields : list (string * codec tpError) :=
  [ ("Status", fun cur v =>
       option_map (fun x => {| Status := x; Id := Id cur; Code := Code cur;
                               Message := Message cur |}) (dec_int (Status cur) v));
    ("Id", fun cur v =>
       option_map (fun x => {| Status := Status cur; Id := x; Code := Code cur;
                               Message := Message cur |}) (dec_string (Id cur) v));
    ("Code", fun cur v =>
       option_map (fun x => {| Status := Status cur; Id := Id cur; Code := x;
                               Message := Message cur |}) (dec_string (Code cur) v));
    ("Message", fun cur v =>
       option_map (fun x => {| Status := Status cur; Id := Id cur; Code := Code cur;
                               Message := x |}) (dec_string (Message cur) v)) ].

Definition ok_int : value -> option Z := dec_int 0.
Definition ok_string : value -> option string := dec_string EmptyString.

(** [Payload], [Annotations], [Private] and [Client]. *)
Definition ok_Payload : value -> option unit :=
  dec_struct [("logIndices", checked (dec_slice 0 dec_int))] tt.

Definition ok_Annotations : value -> option unit :=
  dec_struct [("code", checked ok_string)] tt.

Definition ok_Private : value -> option unit :=
  dec_struct [("os", checked ok_string)] tt.

Definition ok_Client : value -> option unit :=
  dec_struct [("name", checked ok_string);
              ("private", checked ok_Private);
              ("version", checked ok_string)] tt.

(** The fields of an element of [tpMeasurement], under the names of their
    [json] tags, in the order of the declaration. *)
Definition entry_fields : list (string * codec tpMeasurement_elem) :=
  [ ("conversionOffset", checked ok_int);
    ("deviceId", checked ok_string);
    ("deviceTime", fun cur v =>
       option_map (fun x => {| Devicetime := x; Type_ := Type_ cur;
                               Units := Units cur; Value := Value cur |})
                  (dec_string (Devicetime cur) v));
    ("guid", checked ok_string);
    ("id", checked ok_string);
    ("payload", checked ok_Payload);
    ("time", checked GoTime.UnmarshalJSON);
    ("timezoneOffset", checked ok_int);
    ("type", fun cur v =>
       option_map (fun x => {| Devicetime := Devicetime cur; Type_ := x;
                               Units := Units cur; Value := Value cur |})
                  (dec_string (Type_ cur) v));
    ("units", fun cur v =>
       option_map (fun x => {| Devicetime := Devicetime cur; Type_ := Type_ cur;
                               Units := x; Value := Value cur |})
                  (dec_string (Units cur) v));
    ("uploadId", checked ok_string);
    ("value", fun cur v =>
       option_map (fun x => {| Devicetime := Devicetime cur; Type_ := Type_ cur;
                               Units := Units cur; Value := x |})
                  (dec_float64 (Value cur) v));
    ("annotations", checked (dec_slice tt (fun _ => ok_Annotations)));
    ("byUser", checked ok_string);
    ("client", checked ok_Client);
    ("computerTime", checked ok_string);
    ("deviceManufacturers", checked (dec_slice EmptyString dec_string));
    ("deviceModel", checked ok_string);
    ("deviceSerialNumber", checked ok_string);
    ("deviceTags", checked (dec_slice EmptyString dec_string));
    ("timeProcessing", checked ok_string);
    ("timezone", checked ok_string);
    ("version", checked ok_string) ].

(** [json.Unmarshal(file, &result)] for [result := tpMeasurement{}]:
    [None] when it returns an error. *)
Definition unmarshal_tpMeasurement (file : string) : option tpMeasurement :=
  match parse file with
  | Some v => dec_slice zero_elem (dec_struct entry_fields) v
  | None => None
  end.

(** [json.Unmarshal(file, &tpe)] for a zero [tpe]. *)
Definition unmarshal_tpError (file : string) : option tpError :=
  match parse file with
  | Some v => dec_struct tpError_fields zero_tpError v
  | None => None
  end.

(** *** The world around the handler *)

(** A request as [send] builds it. *)
Record Request : Type := {
  Method : string;
  URL : string;
  BasicAuth : option (string * string);
  ReqHeader : list (string * string)
}.

(** A response: the status code, the status line ([resp.Status]), the
    headers under their canonical names, and what reading the body to its
    end gives. *)
Record Response : Type := {
  StatusCode : Z;
  Status_ : string;
  Header : list (string * string);
  Body : error + string
}.

(** The content of a file: bytes, or a PDF document described by its
    rows (the title band, the column headers and the page footers that
    gofpdf adds are the same for every document), or the first [n] bytes
    of such a document, which a write that failed has left. *)
Inductive content : Type :=
| Bytes (data : string)
| PdfDocument (rows : list Smbg)
| PdfPrefix (n : nat) (rows : list Smbg).

(** What the handler hands to its [http.ResponseWriter]. *)
Inductive output : Type :=
| ErrorPage (tpe : tpError)      (* ErrorMessageScreen.html executed on [tpe] *)
| Sent (c : content)             (* the bytes of a file, in one call of Write *)
| Printed (msg : string).        (* fmt.Fprintf(w, "%s", err) *)

(** What the handler cannot decide: the parsed form of the incoming
    request, whether [http.NewRequest] accepts a method and URL, what the
    remote service answers, and the failures of the local file system, of
    the template engine and of the response writer.  Storing a file opens
    it, which creates or truncates it, and then writes: when storing
    fails, [WriteFile_kept] tells how far it got, [None] when the file
    could not be opened, else the number of bytes that reached the file.
    [Write_error] is the error of [w.Write] on the bytes of a file. *)
Record Env : Type := {
  Form : list (string * string);
  NewRequest_error : string -> string -> option error;
  Do : Request -> error + Response;
  WriteFile_error : string -> option error;
  WriteFile_kept : string -> option nat;
  ParseFiles_error : string -> option error;
  Execute_error : option error;
  Write_error : content -> option error
}.

(** What the handler changes: the files of the working directory, the
    requests sent, the lines printed (by [log] or on the standard output),
    and the response under construction. *)
Record State : Type := {
  files : list (string * content);
  sent : list Request;
  logged : list string;
  written : list output;
  content_type : option string
}.

Definition initial : State :=
  {| files := []; sent := []; logged := []; written := []; content_type := None |}.

(** A run-time panic of the Go runtime. *)
Inductive panic : Type :=
| SliceBounds (hi length : nat)      (* slice bounds out of range [:hi] with length *)
| NilDereference.

(** How a call ends: it returns, the process exits ([os.Exit(1)], also
    through [log.Fatal]), or it panics. *)
Inductive outcome (A : Type) : Type :=
| Returned (a : A)
| Exited
| Panicked (p : panic).

Arguments Returned {A} a.
Arguments Exited {A}.
Arguments Panicked {A} p.

Definition M (A : Type) : Type := Env -> State -> outcome A * State.

Definition ret {A : Type} (a : A) : M A := fun _ st => (Returned a, st).

Definition bind {A B : Type} (m : M A) (k : A -> M B) : M B :=
  fun env st =>
    match m env st with
    | (Returned a, st') => k a env st'
    | (Exited, st') => (Exited, st')
    | (Panicked p, st') => (Panicked p, st')
    end.

Declare Scope go_scope.
Delimit Scope go_scope with go.
Notation "x <- m ;; k" := (bind m (fun x => k))
  (at level 100, m at next level, right associativity) : go_scope.
Notation "m ;; k" := (bind m (fun _ => k))
  (at level 100, right associativity) : go_scope.
Open Scope go_scope.

Definition ask {A : Type} (f : Env -> A) : M A := fun env st => (Returned (f env), st).

Definition throw {A : Type} (p : panic) : M A := fun _ st => (Panicked p, st).

Definition Println (msg : string) : M unit :=
  fun _ st =>
    (Returned tt,
     {| files := files st; sent := sent st; logged := logged st ++ [msg];
        written := written st; content_type := content_type st |}).

(** [log.Fatal(msg, e)]: the line is logged and the process exits. *)
Definition Fatal {A : Type} (msg : string) : M A :=
  fun _ st =>
    (Exited,
     {| files := files st; sent := sent st; logged := logged st ++ [msg];
        written := written st; content_type := content_type st |}).

(** [r.PostFormValue(key)]: the first value of the key, or the empty
    string. *)
Definition PostFormValue (key : string) : M string :=
  ask (fun env => match map_get key (Form env) with
                  | Some v => v
                  | None => EmptyString
                  end).

(** [http.CanonicalHeaderKey] on a name made of letters and hyphens: the
    first letter and those after a hyphen in upper case, the others in
    lower case. *)
Fixpoint canonical (upper : bool) (s : string) : string :=
  match s with
  | EmptyString => EmptyString
  | String c s' =>
      String (if upper then (if is_lower c then byte (code c - 32) else c)
              else to_lower c)
             (canonical (c =? "-")%char s')
  end.

(** [h.Get(key)]: the first value under the canonical name, or the empty
    string. *)
Definition Header_Get (h : list (string * string)) (key : string) : string :=
  match map_get (canonical true key) h with
  | Some v => v
  | None => EmptyString
  end.

(** [h.Set(key, value)]. *)
Definition Header_Set (h : list (string * string)) (key v : string) : list (string * string) :=
  map_set (canonical true key) v h.

(** [http.DefaultClient.Do(req)]. *)
Definition http_Do (req : Request) : M (error + Response) :=
  fun env st =>
    (Returned (Do env req),
     {| files := files st; sent := sent st ++ [req]; logged := logged st;
        written := written st; content_type := content_type st |}).

(** The first [n] bytes of a content, all of it when it has no more. *)
Definition prefix (n : nat) (c : content) : content :=
  match c with
  | Bytes data => Bytes (substring 0 n data)
  | PdfDocument rows => PdfPrefix n rows
  | PdfPrefix m rows => PdfPrefix (Nat.min n m) rows
  end.

(** [ioutil.WriteFile(name, data, perm)]: the file is opened, which
    creates or truncates it, the data are written and the file is closed;
    the first error is returned.  After an error the file is as the
    failure has left it: untouched when it could not be opened, else with
    the bytes that were written.  [os.Create] followed by a write, as in
    [OutputFileAndClose], behaves in the same way. *)
Definition WriteFile (name : string) (c : content) : M (option error) :=
  fun env st =>
    match WriteFile_error env name with
    | Some e =>
        (Returned (Some e),
         match WriteFile_kept env name with
         | Some n =>
             {| files := map_set name (prefix n c) (files st); sent := sent st;
                logged := logged st; written := written st;
                content_type := content_type st |}
         | None => st
         end)
    | None =>
        (Returned None,
         {| files := map_set name c (files st); sent := sent st; logged := logged st;
            written := written st; content_type := content_type st |})
    end.

(** [ioutil.ReadFile(name)]. *)
Definition ReadFile (name : string) : M (error + content) :=
  fun _ st =>
    (Returned match map_get name (files st) with
              | Some c => inr c
              | None => inl ("open " ++ name ++ ": no such file or directory")
              end, st).

Definition write (o : output) : M unit :=
  fun _ st =>
    (Returned tt,
     {| files := files st; sent := sent st; logged := logged st;
        written := written st ++ [o]; content_type := content_type st |}).

Definition set_content_type (v : string) : M unit :=
  fun _ st =>
    (Returned tt,
     {| files := files st; sent := sent st; logged := logged st;
        written := written st; content_type := Some v |}).

(** The bytes of a file as [json.Unmarshal] gets them; a PDF document
    starts with a percent sign and is no JSON text. *)
Definition bytes_of (c : content) : string :=
  match c with
  | Bytes data => data
  | PdfDocument _ => "%PDF"
  | PdfPrefix n _ => substring 0 n "%PDF"
  end.

(** A content of no bytes. *)
Definition is_empty (c : content) : bool :=
  match c with
  | Bytes data => String.eqb data EmptyString
  | PdfDocument _ => false
  | PdfPrefix n _ => Nat.eqb n 0
  end.

(** *** The functions of the program *)

(** Simple error checking: a non-nil error is fatal. *)
Definition check (e : option error) (msg : string) : M unit :=
  match e with
  | Some err => Fatal (msg ++ err)
  | None => ret tt
  end.

(** [x, err := f(); check(err, msg)] followed by a use of [x]: with an
    error [x] is nil, and using it would panic if [check] came back. *)
Definition checked_value {A : Type} (r : error + A) (msg : string) : M A :=
  match r with
  | inr x => check None msg ;; ret x
  | inl e => check (Some e) msg ;; throw NilDereference
  end.

Definition datetail : string := "T01:00:00.000Z".

(** The query string for the optional start and end dates. *)
Definition checkDateRanges (sdate edate : string) : string :=
  let qs := EmptyString in
  if (String.eqb sdate EmptyString && String.eqb edate EmptyString)%bool then qs
  else
    let qs := if negb (String.eqb sdate EmptyString)
              then qs ++ "&startDate=" ++ sdate ++ datetail else qs in
    let qs := if negb (String.eqb edate EmptyString)
              then qs ++ "&endDate=" ++ edate ++ datetail else qs in
    qs.

(** The loop of [decodeTidepoolData] over the decoded records: [smbgs]
    is the slice built so far. *)
Fixpoint scan (result : tpMeasurement) (smbgs : list Smbg) : panic + list Smbg :=
  match result with
  | [] => inr smbgs
  | r :: rest =>
      if negb (String.eqb (Type_ r) "smbg") then scan rest smbgs
      else
        let measdt := Devicetime r in
        match slice measdt 0 10 with
        | None => inl (SliceBounds 10 (len measdt))
        | Some measDate =>
            match slice measdt 11 19 with
            | None => inl (SliceBounds 19 (len measdt))
            | Some measTime =>
                let measvals := Itoa (to_int (fmul (Value r) (of_Z 18))) in
                let psmbg := {| smbgDate := measDate; smbgTime := measTime;
                                smbgValue := measvals |} in
                scan rest (smbgs ++ [psmbg])
            end
        end
  end.

(** Extract the result fields into a slice of [Smbg]. *)
Definition decodeTidepoolData (filename : string) : M (option error * list Smbg) :=
  r <- ReadFile filename ;;
  file <- checked_value r "Error loading result json file" ;;
  match unmarshal_tpMeasurement (bytes_of file) with
  | None => ret (Some "Tidepool appears to have returned an error response", [])
  | Some result =>
      match scan result [] with
      | inr smbgs => ret (None, smbgs)
      | inl p => throw p
      end
  end.

(** Decode the body as an error response and show the error page. *)
Definition CheckTidepoolErrorResponse (filename : string) : M error :=
  r <- ReadFile filename ;;
  file <- checked_value r "Error loading result json file" ;;
  match unmarshal_tpError (bytes_of file) with
  | None => ret "Unable to decode assumed Tidepool error response."
  | Some tpe =>
      e <- ask (fun env => ParseFiles_error env "templates/ErrorMessageScreen.html") ;;
      check e "Failed to parse the error message template." ;;
      write (ErrorPage tpe) ;;
      e <- ask Execute_error ;;
      check e "Failed to execute the error response template" ;;
      ret "Displayed the Tidepool Error Page."
  end.

(** *** The calls of CreatePDF *)

Module Pdf.
(** The float64 of a decimal constant of the program. *)
Definition f64 (lit : string) : float64 :=
  match numlit_of_string lit with
  | Some n =>
      match ParseFloat n with
      | Some f => f
      | None => S754_nan
      end
  | None => S754_nan
  end.

(** A drawing call on the gofpdf generator [pdf], the package-level
    variable that all requests share. *)
Inductive draw : Type :=
| SetY (y : float64)
| SetFont (family style : string) (size : float64)
| Cell (w h : float64) (txt : string)
| CellFormat (w h : float64) (txt border : string) (ln : Z) (align : string)
    (fill : bool) (link : Z) (linkStr : string)
| Ln (h : float64).

(** A call of [CreatePDF] on the generator: the two callbacks it installs
    (the footer depends on the number of the page, [pdf.PageNo()]), the
    calls that set the document up, the drawing calls, and the output. *)
Inductive call : Type :=
| SetHeaderFunc (body : list draw)
| SetFooterFunc (body : Z -> list draw)
| AliasNbPages (alias : string)
| AddPage
| Draw (d : draw)
| OutputFileAndClose (name : string).

(** Standardize the cell format. *)
Definition cellOut (s : string) : list draw :=
  [CellFormat (f64 "1.7") (f64 "0.3") s "1" 0 "C" false 0 EmptyString].

(** Output a result line of cells to the pdf. *)
Definition lineOut (s1 s2 s3 : string) : list draw :=
  [Cell (f64 "1.35") (f64 "0") EmptyString]
    ++ cellOut s1 ++ cellOut s2 ++ cellOut s3
    ++ [Ln (f64 "0.3")].

(** The page header function. *)
Definition header : list draw :=
  [ SetY (f64 "0.2");
    SetFont "Arial" "B" (f64 "15");
    CellFormat (f64 "0") (f64 "0.4") "Glucose Values" EmptyString 0 "C" false 0 EmptyString;
    Ln (f64 "0.5") ]
    ++ lineOut "Date" "Time" "Glucose mg/dl".

(** The page footer function, on the page [pageNo]. *)
Definition footer (pageNo : Z) : list draw :=
  [ SetY (f64 "-0.5");
    SetFont "Arial" "I" (f64 "8");
    CellFormat (f64 "0") (f64 "0.4") ("Page " ++ Itoa pageNo ++ " /{nb}") EmptyString 0 "C"
      false 0 EmptyString ].

(** The loop over the measurements. *)
Fixpoint lines (smbgs : list Smbg) : list draw :=
  match smbgs with
  | [] => []
  | r :: rest => lineOut (smbgDate r) (smbgTime r) (smbgValue r) ++ lines rest
  end.

(** The calls of [CreatePDF], in their order. *)
Definition CreatePDF_calls (smbgs : list Smbg) : list call :=
  [ SetHeaderFunc header;
    SetFooterFunc footer;
    AliasNbPages EmptyString;
    AddPage;
    Draw (SetFont "Arial" EmptyString (f64 "12")) ]
    ++ List.map Draw (lines smbgs)
    ++ [OutputFileAndClose "tidepool.pdf"].

(** The texts of the bordered cells among drawing calls, in their order. *)
Fixpoint table_texts (ds : list draw) : list string :=
  match ds with
  | [] => []
  | CellFormat _ _ txt "1" _ _ _ _ _ :: ds' => txt :: table_texts ds'
  | _ :: ds' => table_texts ds'
  end.

(** The drawing calls made on the document itself, outside the callbacks. *)
Fixpoint drawn (cs : list call) : list draw :=
  match cs with
  | [] => []
  | Draw d :: cs' => d :: drawn cs'
  | _ :: cs' => drawn cs'
  end.

(** The line breaks among drawing calls. *)
Fixpoint line_breaks (ds : list draw) : nat :=
  match ds with
  | [] => O
  | Ln _ :: ds' => S (line_breaks ds')
  | _ :: ds' => line_breaks ds'
  end.

(** The rows that a sequence of cell texts spells, three texts a row. *)
Fixpoint rows_of (texts : list string) : list Smbg :=
  match texts with
  | d :: t :: v :: texts' =>
      {| smbgDate := d; smbgTime := t; smbgValue := v |} :: rows_of texts'
  | _ => []
  end.

End Pdf.

(** The document that calls on the generator have drawn: the rows of its
    table. *)
Definition document (made : list Pdf.call) : content :=
  PdfDocument (Pdf.rows_of (Pdf.table_texts (Pdf.drawn made))).

(** The calls on the generator carried out one after the other, after
    the calls [made]; the generator is taken as the start of the program
    leaves it.  [OutputFileAndClose] stores the document drawn so far, and
    its error stays in the generator. *)
Fixpoint generate (made todo : list Pdf.call) : M unit :=
  match todo with
  | [] => ret tt
  | Pdf.OutputFileAndClose name :: rest =>
      WriteFile name (document made) ;;
      generate (made ++ [Pdf.OutputFileAndClose name]) rest
  | c :: rest => generate (made ++ [c]) rest
  end.

(** Create the PDF of the readings and store it; the error of the file
    operation is dropped. *)
Definition CreatePDF (smbgs : list Smbg) : M (option error) :=
  generate [] (Pdf.CreatePDF_calls smbgs) ;;
  ret None.

(** [b.WriteTo(w)] for the buffer [b] over the bytes of a file: an empty
    buffer is not written at all; else the bytes go to [w.Write] in one
    call, and its error is returned.  The response writer keeps the
    contract of [io.Writer]: it takes no more bytes than it is given, and
    all of them unless it returns an error. *)
Definition WriteTo (c : content) : M (option error) :=
  if is_empty c then ret None
  else
    write (Sent c) ;;
    ask (fun env => Write_error env c).

(** Render the PDF to the browser. *)
Definition ShowPDF (filename : string) : M unit :=
  r <- ReadFile filename ;;
  match r with
  | inl e => Fatal e
  | inr streamPDFbytes =>
      set_content_type "application/pdf" ;;
      e <- WriteTo streamPDFbytes ;;
      match e with
      | Some err => write (Printed err)
      | None => ret tt
      end
  end.

Definition login_url : string := "https://int-api.tidepool.org/auth/login".

(** Run the Tidepool API and generate the PDF of the results. *)
Definition send : M unit :=
  e <- ask (fun env => NewRequest_error env "POST" login_url) ;;
  check e "Error creating the auth request" ;;
  useremail <- PostFormValue "useremail" ;;
  password <- PostFormValue "password" ;;
  let req := {| Method := "POST"; URL := login_url;
                BasicAuth := Some (useremail, password); ReqHeader := [] |} in
  r <- http_Do req ;;
  resp <- checked_value r "Error sending the auth request" ;;
  (if negb (StatusCode resp =? 200)
   then check None ("Authorization Call: Bad request response" ++ Status_ resp)
   else ret tt) ;;
  let token := Header_Get (Header resp) "x-tidepool-session-token" in
  bytes <- checked_value (Body resp) "Error reading the auth response body" ;;
  let result := unmarshal_map bytes in
  let userid := Sprint (index_map result "userid") in
  datatype <- PostFormValue "datatype" ;;
  let url := "https://int-api.tidepool.org/data/" ++ userid ++ "?type=" ++ datatype in
  startdate <- PostFormValue "startdate" ;;
  enddate <- PostFormValue "enddate" ;;
  let queryString := checkDateRanges startdate enddate in
  let url := if negb (String.eqb queryString EmptyString) then url ++ queryString else url in
  e <- ask (fun env => NewRequest_error env "GET" url) ;;
  check e "Error creating data request" ;;
  let req := {| Method := "GET"; URL := url; BasicAuth := None;
                ReqHeader := Header_Set (Header_Set [] "x-tidepool-session-token" token)
                                        "content-type" "application/json" |} in
  r <- http_Do req ;;
  resp <- checked_value r "Error executing data request" ;;
  (if negb (StatusCode resp =? 200)
   then check None ("Data API call: Unexpected response status =  " ++ Status_ resp)
   else ret tt) ;;
  data <- checked_value (Body resp) "Error getting the data file from response body." ;;
  e <- WriteFile "tidepool.json" (Bytes data) ;;
  check e "Error saving the result data file" ;;
  es <- decodeTidepoolData "tidepool.json" ;;
  match es with
  | (Some _, _) =>
      CheckTidepoolErrorResponse "tidepool.json" ;;
      ret tt
  | (None, s) =>
      (if (List.length s =? 0)%nat
       then Println "No results were returned from Tidepool."
       else ret tt) ;;
      CreatePDF s ;;
      ShowPDF "tidepool.pdf"
  end.

(** *** Reading a run *)

(** The records the loop keeps. *)
Definition is_smbg (m : tpMeasurement_elem) : bool := String.eqb (Type_ m) "smbg".

(** What one turn of the loop makes of a kept record [m]: [r] has the two
    slices of the device time and the converted value. *)
Definition produced (m : tpMeasurement_elem) (r : Smbg) : Prop :=
  slice (Devicetime m) 0 10 = Some (smbgDate r)
  /\ slice (Devicetime m) 11 19 = Some (smbgTime r)
  /\ smbgValue r = Itoa (to_int (fmul (Value m) (of_Z 18))).

(** The value of a key of the form. *)
Definition form_value (env : Env) (key : string) : string :=
  match map_get key (Form env) with
  | Some v => v
  | None => EmptyString
  end.

(** The request [send] logs in with. *)
Definition login_request (env : Env) : Request :=
  {| Method := "POST"; URL := login_url;
     BasicAuth := Some (form_value env "useremail", form_value env "password");
     ReqHeader := [] |}.

(** The account identifier [send] draws from the body of the login
    response. *)
Definition account_id (lbody : string) : string :=
  Sprint (index_map (unmarshal_map lbody) "userid").

(** The URL of the data request. *)
Definition data_url (env : Env) (lbody : string) : string :=
  let url := "https://int-api.tidepool.org/data/" ++ account_id lbody
               ++ "?type=" ++ form_value env "datatype" in
  let queryString :=
    checkDateRanges (form_value env "startdate") (form_value env "enddate") in
  if negb (String.eqb queryString EmptyString) then url ++ queryString else url.

(** The data request after the login response [lresp] with body [lbody]. *)
Definition data_request (env : Env) (lresp : Response) (lbody : string) : Request :=
  {| Method := "GET"; URL := data_url env lbody; BasicAuth := None;
     ReqHeader :=
       Header_Set
         (Header_Set [] "x-tidepool-session-token"
            (Header_Get (Header lresp) "x-tidepool-session-token"))
         "content-type" "application/json" |}.

(** The environment lets both exchanges happen: the requests are created
    and answered, with [lresp] and [dresp], whose bodies [lbody] and
    [data] are read to their end, and the payload can be stored.  Nothing
    is asked of the two status codes. *)
Definition fetched (env : Env) (lresp : Response) (lbody : string)
  (dresp : Response) (data : string) : Prop :=
  NewRequest_error env "POST" login_url = None
  /\ Do env (login_request env) = inr lresp
  /\ Body lresp = inr lbody
  /\ NewRequest_error env "GET" (data_url env lbody) = None
  /\ Do env (data_request env lresp lbody) = inr dresp
  /\ Body dresp = inr data
  /\ WriteFile_error env "tidepool.json" = None.

(** The state once the payload is stored. *)
Definition after_fetch (env : Env) (lresp : Response) (lbody data : string)
  (st : State) : State :=
  {| files := map_set "tidepool.json" (Bytes data) (files st);
     sent := (sent st ++ [login_request env]) ++ [data_request env lresp lbody];
     logged := logged st;
     written := written st;
     content_type := content_type st |}.

(** The end of [send], from the call of [decodeTidepoolData] on. *)
Definition respond : M unit :=
  es <- decodeTidepoolData "tidepool.json" ;;
  match es with
  | (Some _, _) =>
      CheckTidepoolErrorResponse "tidepool.json" ;;
      ret tt
  | (None, s) =>
      (if (List.length s =? 0)%nat
       then Println "No results were returned from Tidepool."
       else ret tt) ;;
      CreatePDF s ;;
      ShowPDF "tidepool.pdf"
  end.

(** The end of [send], from the answer [r] to the data request on. *)
Definition receive (r : error + Response) : M unit :=
  resp <- checked_value r "Error executing data request" ;;
  (if negb (StatusCode resp =? 200)
   then check None ("Data API call: Unexpected response status =  " ++ Status_ resp)
   else ret tt) ;;
  data <- checked_value (Body resp) "Error getting the data file from response body." ;;
  e <- WriteFile "tidepool.json" (Bytes data) ;;
  check e "Error saving the result data file" ;;
  respond.

(** The state once the data request is sent. *)
Definition after_login (env : Env) (lresp : Response) (lbody : string)
  (st : State) : State :=
  {| files := files st;
     sent := (sent st ++ [login_request env]) ++ [data_request env lresp lbody];
     logged := logged st;
     written := written st;
     content_type := content_type st |}.

(** The state with other files. *)
Definition holding (st : State) (fs : list (string * content)) : State :=
  {| files := fs; sent := sent st; logged := logged st; written := written st;
     content_type := content_type st |}.

(** The files after an attempt to store [c] under [name]. *)
Definition stored (env : Env) (name : string) (c : content)
  (fs : list (string * content)) : list (string * content) :=
  match WriteFile_error env name with
  | None => map_set name c fs
  | Some _ =>
      match WriteFile_kept env name with
      | Some n => map_set name (prefix n c) fs
      | None => fs
      end
  end.

(** What [ShowPDF] hands to the response for a file of content [c]:
    nothing for an empty file, else the bytes, followed by the error of
    writing them when that failed. *)
Definition delivery (env : Env) (c : content) : list output :=
  if is_empty c then []
  else Sent c :: match Write_error env c with
                 | Some e => [Printed e]
                 | None => []
                 end.

(** The value of the last member of an object under the key [key]. *)
Fixpoint member (key : string) (ms : list (string * value)) : option value :=
  match ms with
  | [] => None
  | (k, v) :: ms' =>
      match member key ms' with
      | Some x => Some x
      | None => if String.eqb (unquote k) key then Some v else None
      end
  end.

(** The error object as the description of the service reads it off the
    members of a JSON object, over [cur]: the status, the id, the code and
    the message are the values of the members of these names; a field
    without a member stays as it is in [cur]. *)
Definition ServiceError_from (cur : tpError) (ms : list (string * value)) : tpError :=
  {| Status := match member "status" ms with
               | Some (JNumber n) => match ParseInt n with
                                     | Some s => s
                                     | None => 0
                                     end
               | Some _ => 0
               | None => Status cur
               end;
     Id := match member "id" ms with
           | Some (JString raw) => unquote raw
           | Some _ => EmptyString
           | None => Id cur
           end;
     Code := match member "code" ms with
             | Some (JString raw) => unquote raw
             | Some _ => EmptyString
             | None => Code cur
             end;
     Message := match member "message" ms with
                | Some (JString raw) => unquote raw
                | Some _ => EmptyString
                | None => Message cur
                end |}.

Definition ServiceError_of (ms : list (string * value)) : tpError :=
  ServiceError_from zero_tpError ms.

(** A member as the description of the service has it: the status with
    an integer in the range of [int], the id, the code and the message
    with a string, or a key that selects no field of [tpError]. *)
Definition expected_member (kv : string * value) : bool :=
  let k := unquote (fst kv) in
  if String.eqb k "status" then
    match snd kv with
    | JNumber n => match ParseInt n with
                   | Some _ => true
                   | None => false
                   end
    | _ => false
    end
  else if (String.eqb k "id" || String.eqb k "code" || String.eqb k "message")%bool then
    match snd kv with
    | JString _ => true
    | _ => false
    end
  else
    match find_field tpError_fields k with
    | None => true
    | Some _ => false
    end.

(** The body is a JSON object with a member whose key is [userid]. *)
Definition has_userid (body : string) : bool :=
  match parse body with
  | Some (JObject ms) =>
      existsb (fun kv => String.eqb (unquote (fst kv)) "userid") ms
  | _ => false
  end.

(** A computation that leaves the list of requests sent as it is. *)
Definition keeps_sent {A : Type} (m : M A) : Prop :=
  forall env st, sent (snd (m env st)) = sent st.

(** A run leaves a trace of an error when it does not return, logs a
    line, or writes to the response. *)
Definition reported (st : State) (r : outcome unit * State) : Prop :=
  fst r <> Returned tt
  \/ logged (snd r) <> logged st
  \/ written (snd r) <> written st.

End TidepoolReport.

(** ** What a run is compared with *)

Module Observations.
Import GoString GoNum Strconv Json Unmarshal Fmt TidepoolReport.

(** Two records that agree on the three fields the loop reads. *)
Definition same_reading (m m' : tpMeasurement_elem) : Prop :=
  Type_ m = Type_ m' /\ Devicetime m = Devicetime m' /\ Value m = Value m'.

(** The state after one more printed line. *)
Definition with_line (st : State) (msg : string) : State :=
  {| files := files st; sent := sent st; logged := logged st ++ [msg];
     written := written st; content_type := content_type st |}.

(** The state after one more request. *)
Definition with_request (st : State) (req : Request) : State :=
  {| files := files st; sent := sent st ++ [req]; logged := logged st;
     written := written st; content_type := content_type st |}.

(** The state after one more output on the response. *)
Definition with_output (st : State) (o : output) : State :=
  {| files := files st; sent := sent st; logged := logged st;
     written := written st ++ [o]; content_type := content_type st |}.

(** The state after a file is stored. *)
Definition with_file (st : State) (name : string) (c : content) : State :=
  {| files := map_set name c (files st); sent := sent st; logged := logged st;
     written := written st; content_type := content_type st |}.

(** The error of [ioutil.ReadFile] on a file that does not exist. *)
Definition no_such_file (name : string) : error :=
  "open " ++ name ++ ": no such file or directory".

(** The files other than the two the handler works with are the same in
    both states. *)
Definition same_other_files (st st' : State) : Prop :=
  forall name,
    name <> "tidepool.json" -> name <> "tidepool.pdf" ->
    map_get name (files st') = map_get name (files st).

(** A computation that writes nothing to the response. *)
Definition writes_nothing {A : Type} (m : M A) : Prop :=
  forall env st, written (snd (m env st)) = written st.

(** A computation that hands to the response nothing, one error page, or
    one document, followed by the error of writing it when that failed. *)
Definition writes_page_or_document {A : Type} (m : M A) : Prop :=
  forall env st,
    written (snd (m env st)) = written st
    \/ (exists tpe, written (snd (m env st)) = (written st ++ [ErrorPage tpe])%list)
    \/ (exists c,
           Write_error env c = None
           /\ written (snd (m env st)) = (written st ++ [Sent c])%list)
    \/ (exists c e,
           Write_error env c = Some e
           /\ written (snd (m env st)) = (written st ++ [Sent c; Printed e])%list).

(** A computation that leaves the files other than the two of the
    handler alone. *)
Definition keeps_other_files {A : Type} (m : M A) : Prop :=
  forall env st, same_other_files st (snd (m env st)).

(** A computation that never uses a nil result. *)
Definition never_nil {A : Type} (m : M A) : Prop :=
  forall env st, fst (m env st) <> Panicked NilDereference.

End Observations.

(** * Sample inputs *)

Module Samples.
Import GoString GoNum Strconv Json Unmarshal Fmt TidepoolReport.

(** The float64 a number literal denotes. *)
Definition float_of (lit : string) : float64 :=
  match numlit_of_string lit with
  | Some n =>
      match ParseFloat n with
      | Some f => f
      | None => S754_nan
      end
  | None => S754_nan
  end.

Definition reading (ty dt v : string) : tpMeasurement_elem :=
  {| Devicetime := dt; Type_ := ty; Units := "mmol/L"; Value := float_of v |}.

(** Two finger sticks around a record of another type. *)
Definition feed : tpMeasurement :=
  [ reading "smbg" "2021-03-17T08:33:00" "5.5";
    reading "cbg" "2021-03-17T08:35:00" "7.1";
    reading "smbg" "2021-03-18T09:00:01" "-0.1" ].

Definition feed_readings : list Smbg :=
  [ {| smbgDate := "2021-03-17"; smbgTime := "08:33:00"; smbgValue := "99" |};
    {| smbgDate := "2021-03-18"; smbgTime := "09:00:01"; smbgValue := "-1" |} ].

(** A finger stick whose value, once multiplied by 18, is past the
    largest int64. *)
Definition huge : tpMeasurement_elem := reading "smbg" "2021-03-17T08:33:00" "1e19".

(** A finger stick whose device time has a date only. *)
Definition dateless : tpMeasurement_elem := reading "smbg" "2021-03-17" "5.5".

(** The form of a request for finger sticks since the first of January. *)
Definition form : list (string * string) :=
  [ ("useremail", "user@example.org"); ("password", "secret");
    ("startdate", "2021-01-01"); ("enddate", EmptyString); ("datatype", "smbg") ].

Definition response (code : Z) (status : string) (header : list (string * string))
  (body : string) : Response :=
  {| StatusCode := code; Status_ := status; Header := header; Body := inr body |}.

(** An environment without local failures, whose service answers the
    login with [login] and the data request with [data]. *)
Definition service (login data : Response) : Env :=
  {| Form := form;
     NewRequest_error := fun _ _ => None;
     Do := fun req => if String.eqb (Method req) "POST" then inr login else inr data;
     WriteFile_error := fun _ => None;
     WriteFile_kept := fun _ => None;
     ParseFiles_error := fun _ => None;
     Execute_error := None;
     Write_error := fun _ => None |}.

Definition logged_in : Response :=
  response 200 "200 OK" [("X-Tidepool-Session-Token", "token-1")]
    (dq "{'userid':'5d7a8b'}").

Definition forbidden : Response :=
  response 403 "403 Forbidden" [] EmptyString.

Definition no_userid : Response :=
  response 200 "200 OK" [("X-Tidepool-Session-Token", "token-1")]
    (dq "{'username':'user@example.org'}").

Definition error_object : string :=
  dq "{'status':403,'id':'x','code':'invalid','message':'bad creds'}".

Definition bad_creds : tpError :=
  {| Status := 403; Id := "x"; Code := "invalid"; Message := "bad creds" |}.

(** The same object with its status as a string. *)
Definition ill_typed_object : string :=
  dq "{'status':'403','id':'x','code':'invalid','message':'bad creds'}".

(** The same object with its members in another order, one of them twice,
    and a member that [tpError] has no field for. *)
Definition shuffled_object : string :=
  dq "{'message':'x','trace':[1,2],'code':'invalid','status':403,'id':'x','message':'bad creds'}".

End Samples.

(** * The pages *)

Module Pages.
Import GoString GoNum Strconv Json Unmarshal Fmt TidepoolReport.

(** What a page handler writes to its [http.ResponseWriter]: a template
    executed on a value, or the reply of [http.Error]. *)
Inductive reply : Type :=
| Page (template : string) (data : any)
| HttpError (msg : string) (code : Z).

(** What a page handler changes: the lines printed and the response. *)
Record PState : Type := {
  lines : list string;
  shown : list reply
}.

Definition P (A : Type) : Type := Env -> PState -> outcome A * PState.

Definition pret {A : Type} (a : A) : P A := fun _ st => (Returned a, st).

Definition pbind {A B : Type} (m : P A) (k : A -> P B) : P B :=
  fun env st =>
    match m env st with
    | (Returned a, st') => k a env st'
    | (Exited, st') => (Exited, st')
    | (Panicked p, st') => (Panicked p, st')
    end.

Declare Scope page_scope.
Delimit Scope page_scope with page.
Notation "x <- m ;; k" := (pbind m (fun x => k))
  (at level 100, m at next level, right associativity) : page_scope.
Notation "m ;; k" := (pbind m (fun _ => k))
  (at level 100, right associativity) : page_scope.

Definition print (msg : string) : P unit :=
  fun _ st => (Returned tt, {| lines := lines st ++ [msg]; shown := shown st |}).

Definition fatal {A : Type} (msg : string) : P A :=
  fun _ st => (Exited, {| lines := lines st ++ [msg]; shown := shown st |}).

Definition nil_dereference {A : Type} : P A :=
  fun _ st => (Panicked NilDereference, st).

Definition reply_with (r : reply) : P unit :=
  fun _ st => (Returned tt, {| lines := lines st; shown := shown st ++ [r] |}).

(** [check] on the state of a page handler. *)
Definition pcheck (e : option error) (msg : string) : P unit :=
  match e with
  | Some err => fatal (msg ++ err)
  | None => pret tt
  end.

(** [template.ParseFiles(filename)]: the template, here its file name, or
    nil together with the error. *)
Definition ParseFiles (filename : string) : P (option string * option error) :=
  fun env st =>
    (Returned match ParseFiles_error env filename with
              | Some e => (None, Some e)
              | None => (Some filename, None)
              end, st).

(** [tmpl.Execute(w, data)]: a nil template makes the call panic; else
    the page is written, as far as the execution gets, and the error of
    the execution is returned. *)
Definition Execute (tmpl : option string) (data : any) : P (option error) :=
  match tmpl with
  | None => nil_dereference
  | Some name =>
      (reply_with (Page name data) ;;
       fun env st => (Returned (Execute_error env), st))%page
  end.

(** Render the home screen with options form. *)
Definition home : P unit :=
  (te <- ParseFiles "templates/TidepoolMain.html" ;;
   pcheck (snd te) "Can't parse main template." ;;
   Execute (fst te) ANil ;;
   pret tt)%page.

(** Load and render the HTML to the browser. *)
Definition render (filename : string) (data : any) : P unit :=
  (te <- ParseFiles filename ;;
   match snd te with
   | Some err =>
       print err ;;
       reply_with (HttpError "Sorry, something went wrong" 500)
   | None => pret tt
   end ;;
   err <- Execute (fst te) data ;;
   match err with
   | Some e =>
       print e ;;
       reply_with (HttpError "Sorry, something went wrong" 500)
   | None => pret tt
   end)%page.

(** General purpose messager. *)
Definition DisplayMessageScreen (msg : string) : P unit :=
  (te <- ParseFiles "templates/ErrorMessageScreen.html" ;;
   pcheck (snd te) "Failed to parse the error message template." ;;
   err <- Execute (fst te) (AString msg) ;;
   pcheck err "Failed to execute the error  template")%page.

End Pages.

(** * Further sample inputs *)

Module Cases.
Import GoString GoNum Strconv Json Unmarshal Fmt TidepoolReport.

(** A service that cannot be reached. *)
Definition unreachable : Env :=
  {| Form := Samples.form;
     NewRequest_error := fun _ _ => None;
     Do := fun _ => inl "dial tcp: connection refused";
     WriteFile_error := fun _ => None;
     WriteFile_kept := fun _ => None;
     ParseFiles_error := fun _ => None;
     Execute_error := None;
     Write_error := fun _ => None |}.

(** A service that answers the login and then cannot be reached. *)
Definition cut_off : Env :=
  {| Form := Samples.form;
     NewRequest_error := fun _ _ => None;
     Do := fun req => if String.eqb (Method req) "POST" then inr Samples.logged_in
                      else inl "dial tcp: connection refused";
     WriteFile_error := fun _ => None;
     WriteFile_kept := fun _ => None;
     ParseFiles_error := fun _ => None;
     Execute_error := None;
     Write_error := fun _ => None |}.

(** The body of a feed with two finger sticks around another record. *)
Definition feed_text : string :=
  dq ("[{'type':'smbg','deviceTime':'2021-03-17T08:33:00','units':'mmol/L','value':5.5},"
      ++ "{'type':'cbg','deviceTime':'2021-03-17T08:35:00','units':'mmol/L','value':7.1},"
      ++ "{'type':'smbg','deviceTime':'2021-03-18T09:00:01','units':'mmol/L','value':-0.1}]").

Definition feed_response : Response := Samples.response 200 "200 OK" [] feed_text.

(** A working service in a directory where the PDF cannot be stored. *)
Definition no_pdf : Env :=
  {| Form := Samples.form;
     NewRequest_error := fun _ _ => None;
     Do := fun req => if String.eqb (Method req) "POST" then inr Samples.logged_in
                      else inr feed_response;
     WriteFile_error := fun name => if String.eqb name "tidepool.pdf"
                                    then Some "open tidepool.pdf: permission denied"
                                    else None;
     WriteFile_kept := fun _ => None;
     ParseFiles_error := fun _ => None;
     Execute_error := None;
     Write_error := fun _ => None |}.

(** A working service in a directory where the PDF is opened and then
    cannot be written beyond its first bytes. *)
Definition pdf_cut : Env :=
  {| Form := Samples.form;
     NewRequest_error := fun _ _ => None;
     Do := fun req => if String.eqb (Method req) "POST" then inr Samples.logged_in
                      else inr feed_response;
     WriteFile_error := fun name => if String.eqb name "tidepool.pdf"
                                    then Some "write tidepool.pdf: no space left on device"
                                    else None;
     WriteFile_kept := fun _ => Some 4096%nat;
     ParseFiles_error := fun _ => None;
     Execute_error := None;
     Write_error := fun _ => None |}.

(** A working service in a directory where the payload is opened and then
    cannot be written beyond its first bytes. *)
Definition disk_full : Env :=
  {| Form := Samples.form;
     NewRequest_error := fun _ _ => None;
     Do := fun req => if String.eqb (Method req) "POST" then inr Samples.logged_in
                      else inr feed_response;
     WriteFile_error := fun _ => Some "write tidepool.json: no space left on device";
     WriteFile_kept := fun _ => Some 16%nat;
     ParseFiles_error := fun _ => None;
     Execute_error := None;
     Write_error := fun _ => None |}.

(** A working service before a browser that has gone away. *)
Definition gone_away : Env :=
  {| Form := Samples.form;
     NewRequest_error := fun _ _ => None;
     Do := fun req => if String.eqb (Method req) "POST" then inr Samples.logged_in
                      else inr feed_response;
     WriteFile_error := fun _ => None;
     WriteFile_kept := fun _ => None;
     ParseFiles_error := fun _ => None;
     Execute_error := None;
     Write_error := fun _ => Some "write tcp 127.0.0.1:3000: broken pipe" |}.

(** The state a previous request has left: its payload and its document. *)
Definition left_over : State :=
  {| files := [ ("tidepool.json", Bytes "[]");
                ("tidepool.pdf",
                 PdfDocument [ {| smbgDate := "2020-12-24"; smbgTime := "18:00:00";
                                  smbgValue := "120" |} ]) ];
     sent := []; logged := []; written := []; content_type := None |}.

(** A working service in a directory without the templates. *)
Definition no_templates : Env :=
  {| Form := Samples.form;
     NewRequest_error := fun _ _ => None;
     Do := fun req => if String.eqb (Method req) "POST" then inr Samples.logged_in
                      else inr feed_response;
     WriteFile_error := fun _ => None;
     WriteFile_kept := fun _ => None;
     ParseFiles_error := fun name => Some ("open " ++ name ++ ": no such file or directory");
     Execute_error := None;
     Write_error := fun _ => None |}.

Definition blank : Pages.PState := {| Pages.lines := []; Pages.shown := [] |}.

End Cases.

(** * Properties *)

Import GoString GoNum Strconv Json Unmarshal Fmt TidepoolReport.

(** ** Strings and slices *)

Lemma substring_length (s : string) (n m : nat) :
  (n + m <= len s)%nat -> len (substring n m s) = m.
Proof.
  unfold len. revert n m.
  induction s as [|c s IH]; intros n m H; simpl in *.
  - assert (n = 0%nat) by lia. assert (m = 0%nat) by lia. subst. reflexivity.
  - destruct n as [|n].
    + destruct m as [|m]; simpl; [reflexivity|].
      f_equal. apply IH. lia.
    + apply IH. lia.
Qed.

Lemma slice_some (s : string) (lo hi : nat) :
  (lo <= hi)%nat -> (hi <= len s)%nat -> slice s lo hi = Some (substring lo (hi - lo) s).
Proof.
  intros H1 H2. unfold slice.
  apply Nat.leb_le in H1. apply Nat.leb_le in H2.
  rewrite H1, H2. reflexivity.
Qed.

Lemma slice_none (s : string) (lo hi : nat) :
  (len s < hi)%nat -> slice s lo hi = None.
Proof.
  intros H. unfold slice.
  apply Nat.leb_gt in H. rewrite H, andb_false_r. reflexivity.
Qed.

Lemma slice_inv (s x : string) (lo hi : nat) :
  slice s lo hi = Some x ->
  (lo <= hi)%nat /\ (hi <= len s)%nat /\ x = substring lo (hi - lo) s.
Proof.
  unfold slice. intros H.
  destruct (lo <=? hi)%nat eqn:E1; simpl in H; [|discriminate].
  destruct (hi <=? len s)%nat eqn:E2; [|discriminate].
  apply Nat.leb_le in E1. apply Nat.leb_le in E2.
  injection H as <-. auto.
Qed.

(** A slice has the bytes of its range, and only those. *)
Lemma slice_bytes (s x : string) (lo hi : nat) :
  slice s lo hi = Some x ->
  len x = (hi - lo)%nat
  /\ forall i, (i < hi - lo)%nat -> String.get i x = String.get (i + lo) s.
Proof.
  intros H. apply slice_inv in H. destruct H as (H1 & H2 & ->). split.
  - apply substring_length. lia.
  - intros i Hi. apply substring_correct1. exact Hi.
Qed.

Lemma append_nil_l (s : string) : EmptyString ++ s = s.
Proof. reflexivity. Qed.

Lemma append_nil_r (s : string) : s ++ EmptyString = s.
Proof.
  induction s as [|c s IH]; simpl; [reflexivity|]. rewrite IH. reflexivity.
Qed.

(** ** The loop of decodeTidepoolData *)

Lemma scan_skip (m : tpMeasurement_elem) (rest : tpMeasurement) (acc : list Smbg) :
  is_smbg m = false -> scan (m :: rest) acc = scan rest acc.
Proof.
  unfold is_smbg. intros H. simpl. rewrite H. reflexivity.
Qed.

(** The slice built so far is only extended: a run from [acc] is the run
    from the empty slice, with [acc] in front. *)
Lemma scan_acc (ms : tpMeasurement) :
  forall acc,
    scan ms acc = match scan ms [] with
                  | inr out => inr (acc ++ out)%list
                  | inl p => inl p
                  end.
Proof.
  induction ms as [|m ms IH]; intros acc; simpl.
  - rewrite app_nil_r. reflexivity.
  - destruct (negb (Type_ m =? "smbg")%string).
    + apply IH.
    + destruct (slice (Devicetime m) 0 10) as [d|]; [|reflexivity].
      destruct (slice (Devicetime m) 11 19) as [t|]; [|reflexivity].
      rewrite IH. rewrite (IH [_]).
      destruct (scan ms []) as [p|out]; [reflexivity|].
      rewrite <- app_assoc. reflexivity.
Qed.

Lemma scan_cons_smbg (m : tpMeasurement_elem) (ms : tpMeasurement) (out : list Smbg) :
  is_smbg m = true ->
  scan (m :: ms) [] = inr out ->
  exists r out', out = r :: out' /\ produced m r /\ scan ms [] = inr out'.
Proof.
  unfold is_smbg, produced. intros Hm H. simpl in H. rewrite Hm in H. simpl in H.
  destruct (slice (Devicetime m) 0 10) as [d|]; [|discriminate].
  destruct (slice (Devicetime m) 11 19) as [t|]; [|discriminate].
  rewrite scan_acc in H.
  destruct (scan ms []) as [p|out']; [discriminate|].
  injection H as <-.
  eexists; exists out'. simpl. repeat split; reflexivity.
Qed.

(** The output is, in order, what the loop makes of every kept record. *)
Lemma scan_produced (ms : tpMeasurement) :
  forall out, scan ms [] = inr out -> Forall2 produced (filter is_smbg ms) out.
Proof.
  induction ms as [|m ms IH]; intros out H.
  - simpl in H. injection H as <-. constructor.
  - simpl. destruct (is_smbg m) eqn:Hm.
    + destruct (scan_cons_smbg m ms out Hm H) as (r & out' & -> & Hr & H').
      constructor; auto.
    + rewrite scan_skip in H by exact Hm. auto.
Qed.

Lemma produced_single (m : tpMeasurement_elem) (r : Smbg) :
  is_smbg m = true -> produced m r -> scan [m] [] = inr [r].
Proof.
  unfold is_smbg, produced. intros Hm (Hd & Ht & Hv). simpl.
  rewrite Hm, Hd, Ht. simpl. destruct r as [d t v]. simpl in *. subst v. reflexivity.
Qed.

Lemma Forall2_impl_In {A B : Type} (P Q : A -> B -> Prop) (l : list A) (l' : list B) :
  (forall a b, In a l -> P a b -> Q a b) -> Forall2 P l l' -> Forall2 Q l l'.
Proof.
  intros H F. induction F as [|a b l l' Hab F IH]; constructor.
  - apply H; [left; reflexivity|exact Hab].
  - apply IH. intros a' b' Hin. apply H. right. exact Hin.
Qed.

Lemma filter_length_le {A : Type} (f : A -> bool) (l : list A) :
  (List.length (filter f l) <= List.length l)%nat.
Proof.
  induction l as [|a l IH]; simpl; [lia|].
  destruct (f a); simpl; lia.
Qed.

(** ** The conversion of the value *)

(** Shifting the mantissa and negating afterwards is rounding the exact
    value toward zero. *)
Lemma truncate_round_toward_zero (f : float64) : truncate f = round_toward_zero f.
Proof.
  unfold truncate, round_toward_zero, fraction.
  destruct f as [s|s| |s m e]; try reflexivity.
  f_equal.
  destruct e as [|e|e].
  - rewrite Z.quot_1_r. rewrite Z.shiftl_0_r, Z.pow_0_r, Z.mul_1_r. reflexivity.
  - rewrite Z.quot_1_r. rewrite Z.shiftl_mul_pow2 by lia. reflexivity.
  - assert (Hp : 0 < 2 ^ Z.pos e) by (apply Z.pow_pos_nonneg; lia).
    rewrite Z.shiftr_div_pow2 by lia.
    destruct s; simpl cond_Zopp.
    + change (Z.neg m) with (- Z.pos m).
      rewrite Z.quot_opp_l by lia.
      rewrite Z.quot_div_nonneg by lia. reflexivity.
    + rewrite Z.quot_div_nonneg by lia. reflexivity.
Qed.

Lemma to_int_in_range (f : float64) (z : Z) :
  round_toward_zero f = Some z -> in_int64 z = true -> to_int f = z.
Proof.
  intros H R. unfold to_int. rewrite truncate_round_toward_zero, H, R. reflexivity.
Qed.

(** The result of the conversion is always an int64. *)
Lemma to_int_int64 (f : float64) : in_int64 (to_int f) = true.
Proof.
  unfold to_int. destruct (truncate f) as [z|]; [|reflexivity].
  destruct (in_int64 z) eqn:E; [exact E|reflexivity].
Qed.

(** Two integers with the same decimal rendering are equal. *)
Lemma Itoa_inj (z z' : Z) : Itoa z = Itoa z' -> z = z'.
Proof.
  unfold Itoa. intros H.
  assert (N : forall x, Z.to_int x <> Decimal.Pos Decimal.Nil
                        /\ Z.to_int x <> Decimal.Neg Decimal.Nil).
  { intros [|q|q]; simpl; split; try discriminate;
      intros E; injection E as E; exact (Unsigned.to_uint_nonnil q E). }
  apply DecimalZ.to_int_inj.
  assert (E : Some (Z.to_int z) = Some (Z.to_int z')).
  { rewrite <- (NilZero.isi (Z.to_int z)) by apply N.
    rewrite <- (NilZero.isi (Z.to_int z')) by apply N.
    rewrite H. reflexivity. }
  injection E as E. exact E.
Qed.

(** ** The claims about the loop *)

(** C5. For every sequence of raw measurements, the output of the
    extraction is at most as long as the input; its elements are, in the
    order of the input, what the loop makes of the input elements whose
    type is smbg; an element of another type is dropped without an error;
    and the empty input gives the empty output, not an error. *)
Theorem extract_keeps_smbg_in_order :
  (forall ms out,
      scan ms [] = inr out ->
      (List.length out <= List.length ms)%nat
      /\ Forall2 (fun m r => In m ms /\ Type_ m = "smbg" /\ scan [m] [] = inr [r])
                 (filter is_smbg ms) out)
  /\ (forall m rest acc, Type_ m <> "smbg" -> scan (m :: rest) acc = scan rest acc)
  /\ scan [] [] = inr [].
Proof.
  split; [|split].
  - intros ms out H. pose proof (scan_produced ms out H) as F. split.
    + rewrite <- (Forall2_length F). apply filter_length_le.
    + revert F. apply Forall2_impl_In. intros m r Hin Hp.
      apply filter_In in Hin. destruct Hin as [Hin Hm].
      split; [exact Hin|]. split.
      * apply String.eqb_eq. exact Hm.
      * apply produced_single; assumption.
  - intros m rest acc Hne. apply scan_skip. unfold is_smbg.
    apply String.eqb_neq. exact Hne.
  - reflexivity.
Qed.

Lemma extract_keeps_smbg_in_order_witness :
  (List.length Samples.feed_readings <= List.length Samples.feed)%nat
  /\ Forall2 (fun m r => In m Samples.feed /\ Type_ m = "smbg" /\ scan [m] [] = inr [r])
             (filter is_smbg Samples.feed) Samples.feed_readings.
Proof.
  apply (proj1 extract_keeps_smbg_in_order Samples.feed Samples.feed_readings).
  vm_compute. reflexivity.
Defined.

(** C7. For every kept measurement the date is the characters 0 to 9 and
    the time the characters 11 to 18 of the device time, taken as they
    are (nothing else of the record enters them); the device time
    2021-03-17T08:33:00 gives the date 2021-03-17 and the time 08:33:00. *)
Theorem date_and_time_are_slices :
  (forall ms out,
      scan ms [] = inr out ->
      Forall2 (fun m r =>
                 len (smbgDate r) = 10%nat
                 /\ len (smbgTime r) = 8%nat
                 /\ (forall i, (i < 10)%nat ->
                                String.get i (smbgDate r) = String.get i (Devicetime m))
                 /\ (forall i, (i < 8)%nat ->
                                String.get i (smbgTime r) = String.get (i + 11) (Devicetime m)))
              (filter is_smbg ms) out)
  /\ (forall m,
        Type_ m = "smbg" ->
        Devicetime m = "2021-03-17T08:33:00" ->
        exists v, scan [m] [] = inr [{| smbgDate := "2021-03-17";
                                        smbgTime := "08:33:00";
                                        smbgValue := v |}]).
Proof.
  split.
  - intros ms out H. pose proof (scan_produced ms out H) as F.
    revert F. apply Forall2_impl_In. intros m r _ (Hd & Ht & _).
    apply slice_bytes in Hd. apply slice_bytes in Ht.
    destruct Hd as [Ld Gd]. destruct Ht as [Lt Gt].
    repeat split.
    + exact Ld.
    + exact Lt.
    + intros i Hi. rewrite Gd by (simpl; lia). rewrite Nat.add_0_r. reflexivity.
    + intros i Hi. apply Gt. simpl. lia.
  - intros m Hty Hdt. eexists. simpl. rewrite Hty, Hdt. simpl. reflexivity.
Qed.

Lemma date_and_time_are_slices_witness :
  Forall2 (fun m r =>
             len (smbgDate r) = 10%nat
             /\ len (smbgTime r) = 8%nat
             /\ (forall i, (i < 10)%nat ->
                            String.get i (smbgDate r) = String.get i (Devicetime m))
             /\ (forall i, (i < 8)%nat ->
                            String.get i (smbgTime r) = String.get (i + 11) (Devicetime m)))
          (filter is_smbg Samples.feed) Samples.feed_readings.
Proof.
  apply (proj1 date_and_time_are_slices Samples.feed Samples.feed_readings).
  vm_compute. reflexivity.
Defined.

(** C9. The extraction returns exactly on the inputs whose smbg elements
    all have a device time of at least 19 bytes: under that condition it
    returns a slice, and an input with an smbg element whose device time
    is shorter makes one of the two slice expressions panic with bounds
    out of range. *)
Theorem extract_total_iff_long_device_times :
  (forall ms,
      (forall m, In m ms -> Type_ m = "smbg" -> (19 <= len (Devicetime m))%nat) ->
      exists out, scan ms [] = inr out)
  /\ (forall ms m,
        In m ms -> Type_ m = "smbg" -> (len (Devicetime m) < 19)%nat ->
        exists hi n, scan ms [] = inl (SliceBounds hi n) /\ (n < hi <= 19)%nat).
Proof.
  split.
  - induction ms as [|a ms IH]; intros H.
    + exists []. reflexivity.
    + destruct IH as [out Hout]; [intros m Hin; apply H; right; exact Hin|].
      simpl. destruct (Type_ a =? "smbg")%string eqn:Ha; simpl.
      * apply String.eqb_eq in Ha.
        pose proof (H a (or_introl eq_refl) Ha) as L.
        rewrite (slice_some (Devicetime a) 0 10) by lia.
        rewrite (slice_some (Devicetime a) 11 19) by lia.
        rewrite scan_acc, Hout. eexists. reflexivity.
      * exists out. exact Hout.
  - induction ms as [|a ms IH]; intros m Hin Hty Hlen; [destruct Hin|].
    simpl. destruct (Type_ a =? "smbg")%string eqn:Ha; simpl.
    + destruct (slice (Devicetime a) 0 10) as [d|] eqn:Hd.
      * destruct (slice (Devicetime a) 11 19) as [t|] eqn:Ht.
        -- destruct Hin as [<-|Hin].
           ++ apply slice_inv in Ht. lia.
           ++ rewrite scan_acc.
              destruct (IH m Hin Hty Hlen) as (hi & n & -> & Hb).
              exists hi, n. split; [reflexivity|exact Hb].
        -- exists 19%nat, (len (Devicetime a)). split; [reflexivity|].
           destruct (Nat.lt_ge_cases (len (Devicetime a)) 19) as [L|L]; [lia|].
           rewrite slice_some in Ht by lia. discriminate.
      * exists 10%nat, (len (Devicetime a)). split; [reflexivity|].
        destruct (Nat.lt_ge_cases (len (Devicetime a)) 10) as [L|L]; [lia|].
        rewrite slice_some in Hd by lia. discriminate.
    + destruct Hin as [<-|Hin].
      * apply String.eqb_neq in Ha. contradiction.
      * apply (IH m Hin Hty Hlen).
Qed.

Lemma extract_total_iff_long_device_times_witness :
  (exists out, scan Samples.feed [] = inr out)
  /\ (exists hi n,
         scan [Samples.dateless] [] = inl (SliceBounds hi n) /\ (n < hi <= 19)%nat).
Proof.
  split.
  - apply (proj1 extract_total_iff_long_device_times Samples.feed).
    intros m [<-|[<-|[<-|[]]]] _; vm_compute; lia.
  - apply (proj2 extract_total_iff_long_device_times [Samples.dateless] Samples.dateless).
    + left. reflexivity.
    + reflexivity.
    + vm_compute. lia.
Defined.

(** C6 (as amended). For every kept measurement whose product with 18,
    taken in float64 arithmetic, has an integer part within the int64
    range, the displayed value is that product rounded toward zero, in
    decimal: 5.5 gives 99, and -0.1 gives -1 (truncation, where rounding
    to nearest would give -2). *)
Theorem value_is_truncated_product :
  (forall ms out,
      scan ms [] = inr out ->
      Forall2 (fun m r =>
                 forall z,
                   round_toward_zero (fmul (Value m) (of_Z 18)) = Some z ->
                   in_int64 z = true ->
                   smbgValue r = Itoa z)
              (filter is_smbg ms) out)
  /\ (forall m r,
        scan [m] [] = inr [r] -> Type_ m = "smbg" -> Value m = Samples.float_of "5.5" ->
        smbgValue r = "99")
  /\ (forall m r,
        scan [m] [] = inr [r] -> Type_ m = "smbg" -> Value m = Samples.float_of "-0.1" ->
        smbgValue r = "-1").
Proof.
  assert (One : forall m r, scan [m] [] = inr [r] -> Type_ m = "smbg" ->
                            smbgValue r = Itoa (to_int (fmul (Value m) (of_Z 18)))).
  { intros m r H Hty. apply scan_produced in H. simpl in H.
    unfold is_smbg in H. rewrite Hty in H. simpl in H.
    inversion H as [|? ? ? ? (_ & _ & Hv) _]; subst. exact Hv. }
  split; [|split].
  - intros ms out H. pose proof (scan_produced ms out H) as F.
    revert F. apply Forall2_impl_In. intros m r _ (_ & _ & Hv) z Hz Hr.
    rewrite Hv. rewrite (to_int_in_range _ z Hz Hr). reflexivity.
  - intros m r H Hty Hv. rewrite (One m r H Hty), Hv. vm_compute. reflexivity.
  - intros m r H Hty Hv. rewrite (One m r H Hty), Hv. vm_compute. reflexivity.
Qed.

Lemma value_is_truncated_product_witness :
  Forall2 (fun m r =>
             forall z,
               round_toward_zero (fmul (Value m) (of_Z 18)) = Some z ->
               in_int64 z = true ->
               smbgValue r = Itoa z)
          (filter is_smbg Samples.feed) Samples.feed_readings.
Proof.
  apply (proj1 value_is_truncated_product Samples.feed Samples.feed_readings).
  vm_compute. reflexivity.
Defined.

(** C6 as stated fails on a value that a feed can carry: 1e19 times 18 is
    exactly 180000000000000000000, past the largest int64, and the
    displayed value is the smallest int64 instead. *)
Lemma value_conversion_leaves_int64 :
  unmarshal_tpMeasurement
    (dq "[{'type':'smbg','deviceTime':'2021-03-17T08:33:00','units':'mmol/L','value':1e19}]")
  = Some [Samples.huge]
  /\ scan [Samples.huge] []
     = inr [{| smbgDate := "2021-03-17"; smbgTime := "08:33:00";
               smbgValue := "-9223372036854775808" |}]
  /\ round_toward_zero (fmul (Value Samples.huge) (of_Z 18)) = Some 180000000000000000000
  /\ Itoa 180000000000000000000 <> "-9223372036854775808".
Proof.
  repeat split; try (vm_compute; reflexivity).
  vm_compute. discriminate.
Qed.

(** Whatever int64 another target gives for the conversion out of range,
    its rendering is not the rounded product either. *)
Lemma no_int64_renders_huge_product (z : Z) :
  in_int64 z = true -> Itoa z <> Itoa 180000000000000000000.
Proof.
  intros R E. apply Itoa_inj in E. subst z. vm_compute in R. discriminate.
Qed.

(** ** The query string *)

(** C8. For every pair of optional bounds (an absent bound is the empty
    string), each present bound gives its own parameter, the date followed
    by T01:00:00.000Z, the start before the end; the start 2021-01-01
    alone gives exactly its parameter and no endDate; no bound gives the
    empty string. *)
Theorem checkDateRanges_renders_present_bounds :
  (forall sdate edate,
      checkDateRanges sdate edate
      = (if String.eqb sdate EmptyString then EmptyString
         else "&startDate=" ++ sdate ++ "T01:00:00.000Z")
          ++ (if String.eqb edate EmptyString then EmptyString
              else "&endDate=" ++ edate ++ "T01:00:00.000Z"))
  /\ checkDateRanges "2021-01-01" EmptyString = "&startDate=2021-01-01T01:00:00.000Z"
  /\ checkDateRanges "2021-01-01" "2021-02-01"
     = "&startDate=2021-01-01T01:00:00.000Z&endDate=2021-02-01T01:00:00.000Z"
  /\ checkDateRanges EmptyString EmptyString = EmptyString.
Proof.
  split; [|repeat split; reflexivity].
  intros sdate edate. unfold checkDateRanges, datetail.
  destruct (String.eqb sdate EmptyString) eqn:Es;
    destruct (String.eqb edate EmptyString) eqn:Ee;
    cbn [andb negb]; rewrite ?append_nil_l, ?append_nil_r; reflexivity.
Qed.

(** ** The handler *)

(** Once the login exchange has happened, whatever its status code, and
    the data request is accepted, [send] sends it and goes on with the
    answer. *)
Lemma bind_returned {A B : Type} (m : M A) (k : A -> M B) (env : Env)
  (st st' : State) (a : A) :
  m env st = (Returned a, st') -> bind m k env st = k a env st'.
Proof. intros H. unfold bind. rewrite H. reflexivity. Qed.

(** The test of a status code changes nothing: on a status other than
    200 [check] gets a nil error. *)
Lemma status_test_returns (c : bool) (msg : string) (env : Env) (st : State) :
  (if c then check None msg else ret tt) env st = (Returned tt, st).
Proof. destruct c; reflexivity. Qed.

Lemma checked_value_returns {A : Type} (x : A) (msg : string) (env : Env) (st : State) :
  checked_value (inr x) msg env st = (Returned x, st).
Proof. reflexivity. Qed.

Lemma send_logged_in (env : Env) (lresp : Response) (lbody : string) (st : State) :
  NewRequest_error env "POST" login_url = None ->
  Do env (login_request env) = inr lresp ->
  Body lresp = inr lbody ->
  NewRequest_error env "GET" (data_url env lbody) = None ->
  send env st
  = receive (Do env (data_request env lresp lbody)) env (after_login env lresp lbody st).
Proof.
  intros N1 D1 B1 N2. unfold send.
  rewrite (bind_returned _ _ env st st None) by (unfold ask; rewrite N1; reflexivity).
  rewrite (bind_returned _ _ env st st tt) by reflexivity.
  rewrite (bind_returned _ _ env st st (form_value env "useremail")) by reflexivity.
  rewrite (bind_returned _ _ env st st (form_value env "password")) by reflexivity.
  fold (login_request env).
  set (st1 := {| files := files st; sent := sent st ++ [login_request env];
                 logged := logged st; written := written st;
                 content_type := content_type st |}).
  rewrite (bind_returned _ _ env st st1 (inr lresp))
    by (unfold http_Do; rewrite D1; reflexivity).
  rewrite (bind_returned _ _ env st1 st1 lresp) by apply checked_value_returns.
  rewrite (bind_returned _ _ env st1 st1 tt) by apply status_test_returns.
  rewrite B1.
  rewrite (bind_returned _ _ env st1 st1 lbody) by apply checked_value_returns.
  rewrite (bind_returned _ _ env st1 st1 (form_value env "datatype")) by reflexivity.
  rewrite (bind_returned _ _ env st1 st1 (form_value env "startdate")) by reflexivity.
  rewrite (bind_returned _ _ env st1 st1 (form_value env "enddate")) by reflexivity.
  fold (account_id lbody). fold (data_url env lbody).
  rewrite (bind_returned _ _ env st1 st1 None) by (unfold ask; rewrite N2; reflexivity).
  rewrite (bind_returned _ _ env st1 st1 tt) by reflexivity.
  fold (data_request env lresp lbody).
  rewrite (bind_returned _ _ env st1 (after_login env lresp lbody st)
             (Do env (data_request env lresp lbody))) by reflexivity.
  reflexivity.
Qed.

(** Once the data exchange has happened as well, whatever its status
    code, [send] stores the payload and goes on to decode it. *)
Lemma receive_fetched (env : Env) (dresp : Response) (data : string) (st : State) :
  Body dresp = inr data ->
  WriteFile_error env "tidepool.json" = None ->
  receive (inr dresp) env st
  = respond env {| files := map_set "tidepool.json" (Bytes data) (files st);
                   sent := sent st; logged := logged st; written := written st;
                   content_type := content_type st |}.
Proof.
  intros B2 W. unfold receive.
  rewrite (bind_returned _ _ env st st dresp) by apply checked_value_returns.
  rewrite (bind_returned _ _ env st st tt) by apply status_test_returns.
  rewrite B2.
  rewrite (bind_returned _ _ env st st data) by apply checked_value_returns.
  rewrite (bind_returned _ _ env st _ None) by (unfold WriteFile; rewrite W; reflexivity).
  rewrite (bind_returned _ _ env _ _ tt) by reflexivity.
  reflexivity.
Qed.

Lemma send_fetched (env : Env) (lresp : Response) (lbody : string)
  (dresp : Response) (data : string) (st : State) :
  fetched env lresp lbody dresp data ->
  send env st = respond env (after_fetch env lresp lbody data st).
Proof.
  intros (N1 & D1 & B1 & N2 & D2 & B2 & W).
  rewrite (send_logged_in env lresp lbody st N1 D1 B1 N2), D2.
  rewrite (receive_fetched env dresp data _ B2 W). reflexivity.
Qed.

Lemma map_get_set_same {V : Type} (k : string) (v : V) (m : list (string * V)) :
  map_get k (map_set k v m) = Some v.
Proof.
  induction m as [|[k' v'] m IH]; simpl.
  - rewrite String.eqb_refl. reflexivity.
  - destruct (String.eqb k' k) eqn:E; simpl.
    + rewrite String.eqb_refl. reflexivity.
    + rewrite E. exact IH.
Qed.

Lemma map_get_set_other {V : Type} (k k' : string) (v : V) (m : list (string * V)) :
  k <> k' -> map_get k' (map_set k v m) = map_get k' m.
Proof.
  intros Hne. induction m as [|[k0 v0] m IH]; simpl.
  - apply String.eqb_neq in Hne. rewrite Hne. reflexivity.
  - destruct (String.eqb k0 k) eqn:E; simpl.
    + apply String.eqb_eq in E. subst k0.
      apply String.eqb_neq in Hne. rewrite Hne. reflexivity.
    + destruct (String.eqb k0 k'); [reflexivity|exact IH].
Qed.

(** What [decodeTidepoolData] does with a file that exists. *)
Lemma decodeTidepoolData_run (env : Env) (st : State) (name : string) (c : content) :
  map_get name (files st) = Some c ->
  decodeTidepoolData name env st
  = match unmarshal_tpMeasurement (bytes_of c) with
    | None =>
        (Returned (Some "Tidepool appears to have returned an error response", []), st)
    | Some ms =>
        match scan ms [] with
        | inr out => (Returned (None, out), st)
        | inl p => (Panicked p, st)
        end
    end.
Proof.
  intros H. unfold decodeTidepoolData, bind, ReadFile. rewrite H.
  unfold checked_value, check, bind, ret.
  destruct (unmarshal_tpMeasurement (bytes_of c)) as [ms|]; [|reflexivity].
  destruct (scan ms []); reflexivity.
Qed.

(** What [CheckTidepoolErrorResponse] does with a file that exists. *)
Lemma CheckTidepoolErrorResponse_run (env : Env) (st : State) (name : string) (c : content) :
  map_get name (files st) = Some c ->
  CheckTidepoolErrorResponse name env st
  = match unmarshal_tpError (bytes_of c) with
    | None => (Returned "Unable to decode assumed Tidepool error response.", st)
    | Some tpe =>
        match ParseFiles_error env "templates/ErrorMessageScreen.html" with
        | Some e =>
            (Exited,
             {| files := files st; sent := sent st;
                logged := logged st ++ ["Failed to parse the error message template." ++ e];
                written := written st; content_type := content_type st |})
        | None =>
            match Execute_error env with
            | Some e =>
                (Exited,
                 {| files := files st; sent := sent st;
                    logged := logged st
                                ++ ["Failed to execute the error response template" ++ e];
                    written := written st ++ [ErrorPage tpe];
                    content_type := content_type st |})
            | None =>
                (Returned "Displayed the Tidepool Error Page.",
                 {| files := files st; sent := sent st; logged := logged st;
                    written := written st ++ [ErrorPage tpe];
                    content_type := content_type st |})
            end
        end
    end.
Proof.
  intros H. unfold CheckTidepoolErrorResponse, bind, ReadFile. rewrite H.
  unfold checked_value, check, bind, ret, ask, write, Fatal.
  destruct (unmarshal_tpError (bytes_of c)) as [tpe|]; [|reflexivity].
  destruct (ParseFiles_error env _); [reflexivity|].
  destruct (Execute_error env); reflexivity.
Qed.

(** The document of [CreatePDF]: its calls draw the rows of the readings,
    and these are what its last call stores. *)
Lemma drawn_Draw (ds : list Pdf.draw) : Pdf.drawn (List.map Pdf.Draw ds) = ds.
Proof. induction ds as [|d ds IH]; simpl; [reflexivity|]. rewrite IH. reflexivity. Qed.

Lemma table_texts_lines (smbgs : list Smbg) :
  Pdf.table_texts (Pdf.lines smbgs)
  = flat_map (fun r => [smbgDate r; smbgTime r; smbgValue r]) smbgs.
Proof.
  induction smbgs as [|r rest IH]; simpl; [reflexivity|]. rewrite IH. reflexivity.
Qed.

Lemma rows_of_flat_map (smbgs : list Smbg) :
  Pdf.rows_of (flat_map (fun r => [smbgDate r; smbgTime r; smbgValue r]) smbgs) = smbgs.
Proof.
  induction smbgs as [|[d t v] rest IH]; simpl; [reflexivity|]. rewrite IH. reflexivity.
Qed.

Lemma generate_draws (ds : list Pdf.draw) :
  forall made rest,
    generate made (List.map Pdf.Draw ds ++ rest)
    = generate (made ++ List.map Pdf.Draw ds) rest.
Proof.
  induction ds as [|d ds IH]; intros made rest.
  - simpl. rewrite app_nil_r. reflexivity.
  - cbn [List.map app generate]. rewrite IH, <- app_assoc. reflexivity.
Qed.

Lemma CreatePDF_run (smbgs : list Smbg) :
  CreatePDF smbgs
  = ((WriteFile "tidepool.pdf" (PdfDocument smbgs) ;; ret tt) ;; ret None).
Proof.
  unfold CreatePDF, Pdf.CreatePDF_calls. cbn [app generate].
  rewrite generate_draws. cbn [generate].
  assert (E : document ([ Pdf.SetHeaderFunc Pdf.header; Pdf.SetFooterFunc Pdf.footer;
                          Pdf.AliasNbPages EmptyString; Pdf.AddPage;
                          Pdf.Draw (Pdf.SetFont "Arial" EmptyString (Pdf.f64 "12")) ]
                          ++ List.map Pdf.Draw (Pdf.lines smbgs))
             = PdfDocument smbgs).
  { unfold document. cbn [app Pdf.drawn Pdf.table_texts].
    rewrite drawn_Draw, table_texts_lines, rows_of_flat_map. reflexivity. }
  cbn [app] in *. rewrite E. reflexivity.
Qed.

(** [WriteFile] returns the error of the environment and leaves the files
    as [stored] tells. *)
Lemma WriteFile_run (name : string) (c : content) (env : Env) (st : State) :
  WriteFile name c env st
  = (Returned (WriteFile_error env name), holding st (stored env name c (files st))).
Proof.
  unfold WriteFile, stored, holding.
  destruct (WriteFile_error env name); [|reflexivity].
  destruct (WriteFile_kept env name); [reflexivity|]. destruct st; reflexivity.
Qed.

Lemma CreatePDF_stores (smbgs : list Smbg) (env : Env) (st : State) :
  CreatePDF smbgs env st
  = (Returned None,
     holding st (stored env "tidepool.pdf" (PdfDocument smbgs) (files st))).
Proof.
  rewrite CreatePDF_run. unfold bind. rewrite WriteFile_run. reflexivity.
Qed.

(** [ShowPDF] on a file that exists, and on one that does not. *)
Lemma ShowPDF_run (name : string) (c : content) (env : Env) (st : State) :
  map_get name (files st) = Some c ->
  ShowPDF name env st
  = (Returned tt,
     {| files := files st; sent := sent st; logged := logged st;
        written := written st ++ delivery env c;
        content_type := Some "application/pdf" |}).
Proof.
  intros F. unfold ShowPDF, ReadFile, bind. rewrite F.
  unfold set_content_type, WriteTo, delivery.
  destruct (is_empty c).
  - unfold ret. cbn [files sent logged written content_type].
    rewrite app_nil_r. reflexivity.
  - unfold bind, write, ask, ret. cbn [files sent logged written content_type].
    destruct (Write_error env c); cbn [files sent logged written content_type].
    + rewrite <- app_assoc. reflexivity.
    + reflexivity.
Qed.

Lemma ShowPDF_missing (name : string) (env : Env) (st : State) :
  map_get name (files st) = None ->
  ShowPDF name env st
  = (Exited,
     {| files := files st; sent := sent st;
        logged := logged st ++ ["open " ++ name ++ ": no such file or directory"];
        written := written st; content_type := content_type st |}).
Proof. intros F. unfold ShowPDF, ReadFile, bind. rewrite F. reflexivity. Qed.

(** When the payload does not decode as measurements, the end of [send]
    is the call of [CheckTidepoolErrorResponse], whose result is dropped. *)
Lemma respond_not_measurements (env : Env) (st : State) (c : content) :
  map_get "tidepool.json" (files st) = Some c ->
  unmarshal_tpMeasurement (bytes_of c) = None ->
  respond env st
  = match CheckTidepoolErrorResponse "tidepool.json" env st with
    | (Returned _, st') => (Returned tt, st')
    | (Exited, st') => (Exited, st')
    | (Panicked p, st') => (Panicked p, st')
    end.
Proof.
  intros H U. unfold respond. unfold bind at 1.
  rewrite (decodeTidepoolData_run env st _ c H), U.
  unfold bind, ret.
  destruct (CheckTidepoolErrorResponse "tidepool.json" env st) as [[e| |p] st']; reflexivity.
Qed.

(** The end of [send] on a payload that decodes and converts: the
    document is stored, as far as that goes, and [ShowPDF] is called. *)
Lemma respond_document (env : Env) (st : State) (c : content)
  (ms : tpMeasurement) (out : list Smbg) :
  map_get "tidepool.json" (files st) = Some c ->
  unmarshal_tpMeasurement (bytes_of c) = Some ms ->
  scan ms [] = inr out ->
  respond env st
  = ShowPDF "tidepool.pdf" env
      {| files := stored env "tidepool.pdf" (PdfDocument out) (files st);
         sent := sent st;
         logged := match out with
                   | [] => logged st ++ ["No results were returned from Tidepool."]
                   | _ :: _ => logged st
                   end;
         written := written st;
         content_type := content_type st |}.
Proof.
  intros F U S. unfold respond.
  rewrite (bind_returned _ _ env st st (None, out))
    by (rewrite (decodeTidepoolData_run env st _ c F), U, S; reflexivity).
  cbv zeta.
  destruct out as [|r out].
  - rewrite (bind_returned _ _ env st _ tt) by reflexivity.
    unfold bind at 1. rewrite CreatePDF_stores. reflexivity.
  - rewrite (bind_returned _ _ env st st tt) by reflexivity.
    unfold bind at 1. rewrite CreatePDF_stores. destruct st; reflexivity.
Qed.

(** When the payload decodes as measurements, nothing but a document is
    handed to the response, with the error of writing it when that
    failed. *)
Lemma respond_measurements (env : Env) (st : State) (c : content) (ms : tpMeasurement) :
  map_get "tidepool.json" (files st) = Some c ->
  unmarshal_tpMeasurement (bytes_of c) = Some ms ->
  written (snd (respond env st)) = written st
  \/ (exists d, written (snd (respond env st)) = (written st ++ [Sent d])%list)
  \/ (exists d e, written (snd (respond env st)) = (written st ++ [Sent d; Printed e])%list).
Proof.
  intros H U. destruct (scan ms []) as [p|out] eqn:S.
  - left. unfold respond. unfold bind at 1.
    rewrite (decodeTidepoolData_run env st _ c H), U, S. reflexivity.
  - rewrite (respond_document env st c ms out H U S).
    match goal with
    | |- context [ShowPDF ?name env ?st1] =>
        destruct (map_get name (files st1)) as [d|] eqn:F;
          [rewrite (ShowPDF_run name d env st1 F)
          |rewrite (ShowPDF_missing name env st1 F)]
    end; cbn [snd written]; [|left; reflexivity].
    unfold delivery. destruct (is_empty d).
    + left. apply app_nil_r.
    + destruct (Write_error env d) as [e|]; eauto.
Qed.

(** Nothing after the data request touches the list of requests sent. *)

Create HintDb keeps.

Lemma keeps_ret {A : Type} (a : A) : keeps_sent (ret a).
Proof. intros env st. reflexivity. Qed.

Lemma keeps_bind {A B : Type} (m : M A) (k : A -> M B) :
  keeps_sent m -> (forall a, keeps_sent (k a)) -> keeps_sent (bind m k).
Proof.
  intros Hm Hk env st. unfold bind.
  pose proof (Hm env st) as E.
  destruct (m env st) as [[a| |p] st']; simpl in *.
  - rewrite (Hk a env st'). exact E.
  - exact E.
  - exact E.
Qed.

Lemma keeps_ask {A : Type} (f : Env -> A) : keeps_sent (ask f).
Proof. intros env st. reflexivity. Qed.

Lemma keeps_throw {A : Type} (p : panic) : keeps_sent (@throw A p).
Proof. intros env st. reflexivity. Qed.

Lemma keeps_Fatal {A : Type} (msg : string) : keeps_sent (@Fatal A msg).
Proof. intros env st. reflexivity. Qed.

Lemma keeps_Println (msg : string) : keeps_sent (Println msg).
Proof. intros env st. reflexivity. Qed.

Lemma keeps_WriteFile (name : string) (c : content) : keeps_sent (WriteFile name c).
Proof.
  intros env st. rewrite WriteFile_run. reflexivity.
Qed.

Lemma keeps_ReadFile (name : string) : keeps_sent (ReadFile name).
Proof. intros env st. reflexivity. Qed.

Lemma keeps_write (o : output) : keeps_sent (write o).
Proof. intros env st. reflexivity. Qed.

Lemma keeps_set_content_type (v : string) : keeps_sent (set_content_type v).
Proof. intros env st. reflexivity. Qed.

Lemma keeps_check (e : option error) (msg : string) : keeps_sent (check e msg).
Proof. destruct e; [apply keeps_Fatal|apply keeps_ret]. Qed.

#[local] Hint Resolve keeps_ret keeps_ask keeps_throw keeps_Fatal keeps_Println
  keeps_WriteFile keeps_ReadFile keeps_write keeps_set_content_type keeps_check : keeps.

Ltac keeps :=
  repeat first
    [ progress (intros)
    | solve [auto with keeps]
    | apply keeps_bind
    | match goal with
      | |- keeps_sent (match ?x with _ => _ end) => destruct x
      end ].

Lemma keeps_checked_value {A : Type} (r : error + A) (msg : string) :
  keeps_sent (checked_value r msg).
Proof. unfold checked_value. keeps. Qed.

#[local] Hint Resolve keeps_checked_value : keeps.

Lemma keeps_decodeTidepoolData (name : string) : keeps_sent (decodeTidepoolData name).
Proof. unfold decodeTidepoolData. keeps. Qed.

Lemma keeps_CheckTidepoolErrorResponse (name : string) :
  keeps_sent (CheckTidepoolErrorResponse name).
Proof. unfold CheckTidepoolErrorResponse. keeps. Qed.

Lemma keeps_CreatePDF (smbgs : list Smbg) : keeps_sent (CreatePDF smbgs).
Proof. rewrite CreatePDF_run. keeps. Qed.

Lemma keeps_ShowPDF (name : string) : keeps_sent (ShowPDF name).
Proof. unfold ShowPDF, WriteTo. keeps. Qed.

#[local] Hint Resolve keeps_decodeTidepoolData keeps_CheckTidepoolErrorResponse
  keeps_CreatePDF keeps_ShowPDF : keeps.

Lemma keeps_respond : keeps_sent respond.
Proof. unfold respond. keeps. Qed.

#[local] Hint Resolve keeps_respond : keeps.

Lemma keeps_receive (r : error + Response) : keeps_sent (receive r).
Proof. unfold receive. keeps. Qed.

(** ** The claims about the handler *)

(** C1 does not hold on the code: on a login response with status 403
    [check] is called with a nil error and does nothing, so that [send]
    reads the (absent) token and the body, and sends the data request. *)
Theorem login_403_is_not_a_failure :
  send (Samples.service Samples.forbidden
          (Samples.response 200 "200 OK" [] Samples.error_object)) initial
  = (Returned tt,
     {| files := [("tidepool.json", Bytes Samples.error_object)];
        sent :=
          [ {| Method := "POST"; URL := "https://int-api.tidepool.org/auth/login";
               BasicAuth := Some ("user@example.org", "secret"); ReqHeader := [] |};
            {| Method := "GET";
               URL := "https://int-api.tidepool.org/data/<nil>?type=smbg&startDate=2021-01-01T01:00:00.000Z";
               BasicAuth := None;
               ReqHeader := [ ("X-Tidepool-Session-Token", EmptyString);
                              ("Content-Type", "application/json") ] |} ];
        logged := [];
        written := [ErrorPage Samples.bad_creds];
        content_type := None |}).
Proof. vm_compute. reflexivity. Qed.

(** C2 does not hold on the code: on a data response with status 500
    [check] is called with a nil error and does nothing, so that the body
    is stored, decoded and rendered as a success payload. *)
Theorem data_500_is_not_a_failure :
  send (Samples.service Samples.logged_in
          (Samples.response 500 "500 Internal Server Error" [] "[]")) initial
  = (Returned tt,
     {| files := [("tidepool.json", Bytes "[]"); ("tidepool.pdf", PdfDocument [])];
        sent :=
          [ {| Method := "POST"; URL := "https://int-api.tidepool.org/auth/login";
               BasicAuth := Some ("user@example.org", "secret"); ReqHeader := [] |};
            {| Method := "GET";
               URL := "https://int-api.tidepool.org/data/5d7a8b?type=smbg&startDate=2021-01-01T01:00:00.000Z";
               BasicAuth := None;
               ReqHeader := [ ("X-Tidepool-Session-Token", "token-1");
                              ("Content-Type", "application/json") ] |} ];
        logged := ["No results were returned from Tidepool."];
        written := [Sent (PdfDocument [])];
        content_type := Some "application/pdf" |}).
Proof. vm_compute. reflexivity. Qed.

Lemma after_fetch_file (env : Env) (lresp : Response) (lbody data : string) (st : State) :
  map_get "tidepool.json" (files (after_fetch env lresp lbody data st)) = Some (Bytes data).
Proof. apply map_get_set_same. Qed.

(** The members of an error object, one at a time. *)
Lemma dec_status (k : string) (v : value) (ms : list (string * value)) (cur : tpError) :
  unquote k = "status" ->
  dec_members tpError_fields cur ((k, v) :: ms)
  = match dec_int (Status cur) v with
    | Some x =>
        dec_members tpError_fields
          {| Status := x; Id := Id cur; Code := Code cur; Message := Message cur |} ms
    | None => None
    end.
Proof.
  intros E. cbn [dec_members]. rewrite E.
  change (find_field tpError_fields "status") with (find_exact tpError_fields "Status").
  cbn [find_exact tpError_fields String.eqb Ascii.eqb Bool.eqb].
  destruct (dec_int (Status cur) v); reflexivity.
Qed.

Lemma dec_id (k : string) (v : value) (ms : list (string * value)) (cur : tpError) :
  unquote k = "id" ->
  dec_members tpError_fields cur ((k, v) :: ms)
  = match dec_string (Id cur) v with
    | Some x =>
        dec_members tpError_fields
          {| Status := Status cur; Id := x; Code := Code cur; Message := Message cur |} ms
    | None => None
    end.
Proof.
  intros E. cbn [dec_members]. rewrite E.
  change (find_field tpError_fields "id") with (find_exact tpError_fields "Id").
  cbn [find_exact tpError_fields String.eqb Ascii.eqb Bool.eqb].
  destruct (dec_string (Id cur) v); reflexivity.
Qed.

Lemma dec_code (k : string) (v : value) (ms : list (string * value)) (cur : tpError) :
  unquote k = "code" ->
  dec_members tpError_fields cur ((k, v) :: ms)
  = match dec_string (Code cur) v with
    | Some x =>
        dec_members tpError_fields
          {| Status := Status cur; Id := Id cur; Code := x; Message := Message cur |} ms
    | None => None
    end.
Proof.
  intros E. cbn [dec_members]. rewrite E.
  change (find_field tpError_fields "code") with (find_exact tpError_fields "Code").
  cbn [find_exact tpError_fields String.eqb Ascii.eqb Bool.eqb].
  destruct (dec_string (Code cur) v); reflexivity.
Qed.

Lemma dec_message (k : string) (v : value) (ms : list (string * value)) (cur : tpError) :
  unquote k = "message" ->
  dec_members tpError_fields cur ((k, v) :: ms)
  = match dec_string (Message cur) v with
    | Some x =>
        dec_members tpError_fields
          {| Status := Status cur; Id := Id cur; Code := Code cur; Message := x |} ms
    | None => None
    end.
Proof.
  intros E. cbn [dec_members]. rewrite E.
  change (find_field tpError_fields "message") with (find_exact tpError_fields "Message").
  cbn [find_exact tpError_fields String.eqb Ascii.eqb Bool.eqb].
  destruct (dec_string (Message cur) v); reflexivity.
Qed.

Lemma member_cons (key k : string) (v : value) (ms : list (string * value)) :
  member key ((k, v) :: ms)
  = match member key ms with
    | Some x => Some x
    | None => if String.eqb (unquote k) key then Some v else None
    end.
Proof. reflexivity. Qed.

Ltac by_member :=
  rewrite ?member_cons;
  repeat match goal with
         | E : String.eqb (unquote ?k) _ = _ |- _ => rewrite E
         | E : unquote ?k = _ |- _ => rewrite E
         end;
  cbn [String.eqb Ascii.eqb Bool.eqb Status Id Code Message];
  match goal with
  | |- context [member ?key ?ms] => destruct (member key ms) as [x|]; reflexivity
  | |- _ => reflexivity
  end.

(** Members as the description has them are decoded one over the other:
    every field ends with the value of its last member. *)
Lemma dec_members_expected (ms : list (string * value)) :
  forall cur,
    forallb expected_member ms = true ->
    dec_members tpError_fields cur ms = Some (ServiceError_from cur ms).
Proof.
  induction ms as [|[k v] ms IH]; intros cur H.
  - destruct cur; reflexivity.
  - cbn [forallb] in H. apply andb_true_iff in H. destruct H as [Hk H].
    unfold expected_member in Hk. cbn [fst snd] in Hk. cbv zeta in Hk.
    destruct (String.eqb (unquote k) "status") eqn:E1.
    { apply String.eqb_eq in E1. rewrite (dec_status k v ms cur E1).
      destruct v as [| | n | | |]; try discriminate Hk.
      cbn [dec_int]. destruct (ParseInt n) as [s|] eqn:P; [|discriminate Hk].
      rewrite (IH _ H). unfold ServiceError_from. f_equal. f_equal.
      - rewrite member_cons, E1. cbn [String.eqb Ascii.eqb Bool.eqb Status].
        destruct (member "status" ms) as [x|]; [reflexivity|]. rewrite P. reflexivity.
      - by_member.
      - by_member.
      - by_member. }
    destruct (String.eqb (unquote k) "id") eqn:E2.
    { apply String.eqb_eq in E2. rewrite (dec_id k v ms cur E2).
      cbn [orb] in Hk. destruct v as [| | | raw | |]; try discriminate Hk.
      cbn [dec_string]. rewrite (IH _ H). unfold ServiceError_from. f_equal. f_equal;
        by_member. }
    destruct (String.eqb (unquote k) "code") eqn:E3.
    { apply String.eqb_eq in E3. rewrite (dec_code k v ms cur E3).
      cbn [orb] in Hk. destruct v as [| | | raw | |]; try discriminate Hk.
      cbn [dec_string]. rewrite (IH _ H). unfold ServiceError_from. f_equal. f_equal;
        by_member. }
    destruct (String.eqb (unquote k) "message") eqn:E4.
    { apply String.eqb_eq in E4. rewrite (dec_message k v ms cur E4).
      cbn [orb] in Hk. destruct v as [| | | raw | |]; try discriminate Hk.
      cbn [dec_string]. rewrite (IH _ H). unfold ServiceError_from. f_equal. f_equal;
        by_member. }
    cbn [orb] in Hk. cbn [dec_members].
    destruct (find_field tpError_fields (unquote k)); [discriminate Hk|].
    rewrite (IH _ H). unfold ServiceError_from. f_equal. f_equal; by_member.
Qed.

(** C3 (as amended). The payload is first decoded as measurements, and
    [CheckTidepoolErrorResponse] is reached only when that fails: a
    payload that decodes as measurements never leads to an error page,
    whatever the second decoder would make of it.  A payload that is a
    JSON object never decodes as measurements, so that no document is
    stored or sent for it, of zero rows or more; the error page is shown
    exactly when the object decodes as an error object, with the decoded
    values; otherwise [send] returns with nothing written and nothing
    logged.  An object whose members are a status with an integer, an id,
    a code and a message with a string, in any order, missing, repeated
    or among members that select no field, decodes to the values of the
    last status, id, code and message. *)
Theorem object_payload_is_classified :
  forall env lresp lbody dresp data st,
    fetched env lresp lbody dresp data ->
    (forall ms,
        unmarshal_tpMeasurement data = Some ms ->
        written (snd (send env st)) = written st
        \/ (exists d, written (snd (send env st)) = (written st ++ [Sent d])%list)
        \/ (exists d e,
               written (snd (send env st)) = (written st ++ [Sent d; Printed e])%list))
    /\ (forall members,
          parse data = Some (JObject members) ->
          unmarshal_tpMeasurement data = None
          /\ files (snd (send env st)) = files (after_fetch env lresp lbody data st)
          /\ (written (snd (send env st)) = written st
              \/ exists tpe,
                  unmarshal_tpError data = Some tpe
                  /\ written (snd (send env st)) = (written st ++ [ErrorPage tpe])%list)
          /\ (forall tpe,
                unmarshal_tpError data = Some tpe ->
                ParseFiles_error env "templates/ErrorMessageScreen.html" = None ->
                Execute_error env = None ->
                send env st
                = (Returned tt,
                   {| files := files (after_fetch env lresp lbody data st);
                      sent := sent (after_fetch env lresp lbody data st);
                      logged := logged st;
                      written := written st ++ [ErrorPage tpe];
                      content_type := content_type st |}))
          /\ (unmarshal_tpError data = None ->
              send env st = (Returned tt, after_fetch env lresp lbody data st))
          /\ (forallb expected_member members = true ->
              unmarshal_tpError data = Some (ServiceError_of members))).
Proof.
  intros env lresp lbody dresp data st F.
  rewrite (send_fetched env lresp lbody dresp data st F).
  pose proof (after_fetch_file env lresp lbody data st) as File.
  set (st1 := after_fetch env lresp lbody data st) in *.
  split.
  - intros ms U. apply (respond_measurements env st1 (Bytes data) ms File U).
  - intros members P.
    assert (Obj : unmarshal_tpMeasurement data = None).
    { unfold unmarshal_tpMeasurement. rewrite P. reflexivity. }
    split; [exact Obj|].
    rewrite (respond_not_measurements env st1 (Bytes data) File Obj).
    rewrite (CheckTidepoolErrorResponse_run env st1 _ (Bytes data) File).
    cbn [bytes_of].
    split; [|split; [|split; [|split]]].
    + destruct (unmarshal_tpError data) as [tpe|]; [|reflexivity].
      destruct (ParseFiles_error env _); [reflexivity|].
      destruct (Execute_error env); reflexivity.
    + destruct (unmarshal_tpError data) as [tpe|]; [|left; reflexivity].
      destruct (ParseFiles_error env _); [left; reflexivity|].
      destruct (Execute_error env); right; exists tpe; split; reflexivity.
    + intros tpe U Ht He. rewrite U, Ht, He. reflexivity.
    + intros U. rewrite U. destruct st; reflexivity.
    + intros W. unfold unmarshal_tpError. rewrite P. cbn [dec_struct].
      apply dec_members_expected. exact W.
Qed.

Lemma object_payload_is_classified_witness :
  (written (snd (send (Samples.service Samples.logged_in
                        (Samples.response 200 "200 OK" [] "null")) initial))
   = written initial
   \/ (exists d,
          written (snd (send (Samples.service Samples.logged_in
                                (Samples.response 200 "200 OK" [] "null")) initial))
          = (written initial ++ [Sent d])%list)
   \/ (exists d e,
          written (snd (send (Samples.service Samples.logged_in
                                (Samples.response 200 "200 OK" [] "null")) initial))
          = (written initial ++ [Sent d; Printed e])%list))
  /\ unmarshal_tpError "null" = Some zero_tpError
  /\ send (Samples.service Samples.logged_in
             (Samples.response 200 "200 OK" [] Samples.shuffled_object)) initial
     = (Returned tt,
        {| files := files (after_fetch
                             (Samples.service Samples.logged_in
                                (Samples.response 200 "200 OK" [] Samples.shuffled_object))
                             Samples.logged_in (dq "{'userid':'5d7a8b'}")
                             Samples.shuffled_object initial);
           sent := sent (after_fetch
                           (Samples.service Samples.logged_in
                              (Samples.response 200 "200 OK" [] Samples.shuffled_object))
                           Samples.logged_in (dq "{'userid':'5d7a8b'}")
                           Samples.shuffled_object initial);
           logged := logged initial;
           written := written initial ++ [ErrorPage Samples.bad_creds];
           content_type := content_type initial |}).
Proof.
  split; [|split].
  - refine (proj1 (object_payload_is_classified
                     (Samples.service Samples.logged_in
                        (Samples.response 200 "200 OK" [] "null"))
                     Samples.logged_in (dq "{'userid':'5d7a8b'}")
                     (Samples.response 200 "200 OK" [] "null") "null" initial _) [] _).
    + repeat split; reflexivity.
    + vm_compute. reflexivity.
  - vm_compute. reflexivity.
  - destruct (object_payload_is_classified
                (Samples.service Samples.logged_in
                   (Samples.response 200 "200 OK" [] Samples.shuffled_object))
                Samples.logged_in (dq "{'userid':'5d7a8b'}")
                (Samples.response 200 "200 OK" [] Samples.shuffled_object)
                Samples.shuffled_object initial) as [_ Obj].
    + repeat split; reflexivity.
    + destruct (Obj (match parse Samples.shuffled_object with
                     | Some (JObject members) => members
                     | _ => []
                     end)) as (_ & _ & _ & Page & _ & Dec).
      * vm_compute. reflexivity.
      * apply (Page Samples.bad_creds).
        -- rewrite Dec; [vm_compute; reflexivity|vm_compute; reflexivity].
        -- reflexivity.
        -- reflexivity.
Defined.

(** The claim as it stands fails on an object whose status is a string:
    the payload decodes neither way, and [send] returns without an error
    page, with nothing written and nothing logged. *)
Lemma ill_typed_object_is_no_failure :
  send (Samples.service Samples.logged_in
          (Samples.response 200 "200 OK" [] Samples.ill_typed_object)) initial
  = (Returned tt,
     {| files := [("tidepool.json", Bytes Samples.ill_typed_object)];
        sent :=
          [ {| Method := "POST"; URL := "https://int-api.tidepool.org/auth/login";
               BasicAuth := Some ("user@example.org", "secret"); ReqHeader := [] |};
            {| Method := "GET";
               URL := "https://int-api.tidepool.org/data/5d7a8b?type=smbg&startDate=2021-01-01T01:00:00.000Z";
               BasicAuth := None;
               ReqHeader := [ ("X-Tidepool-Session-Token", "token-1");
                              ("Content-Type", "application/json") ] |} ];
        logged := [];
        written := [];
        content_type := None |}).
Proof. vm_compute. reflexivity. Qed.

(** C4 (as amended). For bytes that decode neither as measurements nor
    as an error object, [decodeTidepoolData] returns its error and
    [CheckTidepoolErrorResponse] returns to [send] an error of its own,
    without showing a page, an error it returns for no payload that
    decodes as an error object; [send] drops that error and returns with
    nothing written to the response and nothing logged. *)
Theorem malformed_payload_is_returned_to_send :
  forall env lresp lbody dresp data st,
    fetched env lresp lbody dresp data ->
    unmarshal_tpMeasurement data = None ->
    unmarshal_tpError data = None ->
    decodeTidepoolData "tidepool.json" env (after_fetch env lresp lbody data st)
    = (Returned (Some "Tidepool appears to have returned an error response", []),
       after_fetch env lresp lbody data st)
    /\ CheckTidepoolErrorResponse "tidepool.json" env (after_fetch env lresp lbody data st)
       = (Returned "Unable to decode assumed Tidepool error response.",
          after_fetch env lresp lbody data st)
    /\ (forall env' st' c,
          map_get "tidepool.json" (files st') = Some c ->
          fst (CheckTidepoolErrorResponse "tidepool.json" env' st')
          = Returned "Unable to decode assumed Tidepool error response." ->
          unmarshal_tpError (bytes_of c) = None)
    /\ send env st = (Returned tt, after_fetch env lresp lbody data st).
Proof.
  intros env lresp lbody dresp data st F U1 U2.
  pose proof (after_fetch_file env lresp lbody data st) as File.
  set (st1 := after_fetch env lresp lbody data st) in *.
  assert (C : CheckTidepoolErrorResponse "tidepool.json" env st1
              = (Returned "Unable to decode assumed Tidepool error response.", st1)).
  { rewrite (CheckTidepoolErrorResponse_run env st1 _ (Bytes data) File).
    simpl bytes_of. rewrite U2. reflexivity. }
  split; [|split; [|split]].
  - rewrite (decodeTidepoolData_run env st1 _ (Bytes data) File).
    simpl bytes_of. rewrite U1. reflexivity.
  - exact C.
  - intros env' st' c Hc E.
    rewrite (CheckTidepoolErrorResponse_run env' st' _ c Hc) in E.
    destruct (unmarshal_tpError (bytes_of c)); [|reflexivity].
    destruct (ParseFiles_error env' _); [discriminate|].
    destruct (Execute_error env'); discriminate.
  - rewrite (send_fetched env lresp lbody dresp data st F). fold st1.
    rewrite (respond_not_measurements env st1 (Bytes data) File U1), C. reflexivity.
Qed.

Lemma malformed_payload_is_returned_to_send_witness :
  send (Samples.service Samples.logged_in (Samples.response 200 "200 OK" [] "not json"))
    initial
  = (Returned tt,
     after_fetch (Samples.service Samples.logged_in
                    (Samples.response 200 "200 OK" [] "not json"))
       Samples.logged_in (dq "{'userid':'5d7a8b'}") "not json" initial).
Proof.
  refine (proj2 (proj2 (proj2 (malformed_payload_is_returned_to_send
                                 (Samples.service Samples.logged_in
                                    (Samples.response 200 "200 OK" [] "not json"))
                                 Samples.logged_in (dq "{'userid':'5d7a8b'}")
                                 (Samples.response 200 "200 OK" [] "not json")
                                 "not json" initial _ _ _)))).
  - repeat split; reflexivity.
  - vm_compute. reflexivity.
  - vm_compute. reflexivity.
Defined.

(** C4 as stated fails: on the payload [not json] the run of [send] ends
    like a successful one, it logs nothing and writes nothing, so that
    the parse error is reported to nobody beyond [send]. *)
Lemma malformed_payload_leaves_no_trace :
  ~ reported initial
      (send (Samples.service Samples.logged_in
               (Samples.response 200 "200 OK" [] "not json")) initial).
Proof.
  unfold reported. intros [H|[H|H]]; apply H; vm_compute; reflexivity.
Qed.

Lemma string_append_assoc (a b c : string) : (a ++ b) ++ c = a ++ b ++ c.
Proof.
  induction a as [|x a IH]; simpl; [reflexivity|]. rewrite IH. reflexivity.
Qed.

(** A map built from members none of which has the key lacks the key. *)
Lemma fold_members_no_key (key : string) (ms : list (string * value)) :
  forall m,
    map_get key m = None ->
    existsb (fun kv => String.eqb (unquote (fst kv)) key) ms = false ->
    map_get key
      (List.fold_left
         (fun m kv => match kv with (k, x) => map_set (unquote k) (to_any x) m end)
         ms m) = None.
Proof.
  induction ms as [|[k x] ms IH]; intros m Hm He; simpl in *.
  - exact Hm.
  - apply orb_false_iff in He. destruct He as [Hk He].
    apply IH; [|exact He].
    rewrite map_get_set_other; [exact Hm|].
    apply String.eqb_neq. exact Hk.
Qed.

Lemma account_id_nil (body : string) : has_userid body = false -> account_id body = "<nil>".
Proof.
  unfold has_userid, account_id, unmarshal_map. intros H.
  destruct (parse body) as [[| | | | |ms]|]; try reflexivity.
  simpl index_map. rewrite (fold_members_no_key "userid" ms [] eq_refl H). reflexivity.
Qed.

Lemma data_url_shape (env : Env) (lbody : string) :
  data_url env lbody
  = "https://int-api.tidepool.org/data/" ++ account_id lbody ++ "?type="
      ++ form_value env "datatype"
      ++ checkDateRanges (form_value env "startdate") (form_value env "enddate").
Proof.
  unfold data_url.
  destruct (String.eqb (checkDateRanges _ _) EmptyString) eqn:E; simpl negb; cbv iota.
  - apply String.eqb_eq in E. rewrite E, append_nil_r. reflexivity.
  - rewrite !string_append_assoc. reflexivity.
Qed.

(** C10. When the body of the login response is not a JSON object with a
    userid member (it is no JSON text, or no object, or an object without
    that key), [send] goes on: the account identifier is the string
    <nil>, the URL of the data request has it as the last segment of its
    path, and that request is sent as soon as [http.NewRequest] accepts
    the URL. *)
Theorem missing_userid_becomes_nil :
  forall env lresp lbody st,
    NewRequest_error env "POST" login_url = None ->
    Do env (login_request env) = inr lresp ->
    Body lresp = inr lbody ->
    has_userid lbody = false ->
    account_id lbody = "<nil>"
    /\ data_url env lbody
       = "https://int-api.tidepool.org/data/<nil>?type=" ++ form_value env "datatype"
           ++ checkDateRanges (form_value env "startdate") (form_value env "enddate")
    /\ (NewRequest_error env "GET" (data_url env lbody) = None ->
        sent (snd (send env st))
        = ((sent st ++ [login_request env]) ++ [data_request env lresp lbody])%list).
Proof.
  intros env lresp lbody st N1 D1 B1 H.
  pose proof (account_id_nil lbody H) as A.
  split; [exact A|]. split.
  - rewrite data_url_shape, A. reflexivity.
  - intros N2. rewrite (send_logged_in env lresp lbody st N1 D1 B1 N2).
    rewrite keeps_receive. reflexivity.
Qed.

Lemma missing_userid_becomes_nil_witness :
  account_id (dq "{'username':'user@example.org'}") = "<nil>"
  /\ data_url (Samples.service Samples.no_userid (Samples.response 200 "200 OK" [] "[]"))
       (dq "{'username':'user@example.org'}")
     = "https://int-api.tidepool.org/data/<nil>?type=" ++ "smbg"
         ++ checkDateRanges "2021-01-01" EmptyString
  /\ (NewRequest_error (Samples.service Samples.no_userid
                          (Samples.response 200 "200 OK" [] "[]")) "GET"
        (data_url (Samples.service Samples.no_userid
                     (Samples.response 200 "200 OK" [] "[]"))
           (dq "{'username':'user@example.org'}")) = None ->
      sent (snd (send (Samples.service Samples.no_userid
                         (Samples.response 200 "200 OK" [] "[]")) initial))
      = (([] ++ [login_request (Samples.service Samples.no_userid
                                  (Samples.response 200 "200 OK" [] "[]"))])
           ++ [data_request (Samples.service Samples.no_userid
                               (Samples.response 200 "200 OK" [] "[]"))
                 Samples.no_userid (dq "{'username':'user@example.org'}")])%list).
Proof.
  apply (missing_userid_becomes_nil
           (Samples.service Samples.no_userid (Samples.response 200 "200 OK" [] "[]"))
           Samples.no_userid (dq "{'username':'user@example.org'}") initial).
  - reflexivity.
  - reflexivity.
  - reflexivity.
  - vm_compute. reflexivity.
Defined.

(** * Further properties *)

Import Observations.

(** ** The loop of decodeTidepoolData, continued *)

Lemma scan_app_acc (a b : tpMeasurement) :
  forall acc,
    scan (a ++ b)%list acc = match scan a acc with
                        | inr out => scan b out
                        | inl p => inl p
                        end.
Proof.
  induction a as [|m a IH]; intros acc; simpl.
  - reflexivity.
  - destruct (negb (Type_ m =? "smbg")%string); [apply IH|].
    destruct (slice (Devicetime m) 0 10) as [d|]; [|reflexivity].
    destruct (slice (Devicetime m) 11 19) as [t|]; [|reflexivity].
    apply IH.
Qed.

(** X1. The extraction of two feeds put end to end is the extraction of
    the first followed by that of the second; a panic in the first feed,
    else in the second, is the panic of the whole. *)
Theorem extract_of_concatenation (a b : tpMeasurement) :
  scan (a ++ b)%list [] = match scan a [] with
                     | inr out1 =>
                         match scan b [] with
                         | inr out2 => inr (out1 ++ out2)%list
                         | inl p => inl p
                         end
                     | inl p => inl p
                     end.
Proof.
  rewrite scan_app_acc.
  destruct (scan a []) as [p|out1]; [reflexivity|].
  apply scan_acc.
Qed.

(** X2. The loop reads the type, the device time and the value of a
    record and nothing else: two feeds whose records agree on these three
    fields, whatever their units, give the same readings or the same
    panic. *)
Theorem extract_ignores_units (ms ms' : tpMeasurement) :
  Forall2 same_reading ms ms' -> forall acc, scan ms acc = scan ms' acc.
Proof.
  induction 1 as [|m m' ms ms' (Ht & Hd & Hv) F IH]; intros acc; simpl.
  - reflexivity.
  - rewrite Ht, Hd, Hv.
    destruct (negb (Type_ m' =? "smbg")%string); [apply IH|].
    destruct (slice (Devicetime m') 0 10) as [d|]; [|reflexivity].
    destruct (slice (Devicetime m') 11 19) as [t|]; [|reflexivity].
    apply IH.
Qed.

Lemma extract_ignores_units_witness :
  scan [Samples.reading "smbg" "2021-03-17T08:33:00" "5.5"] []
  = scan [ {| Devicetime := "2021-03-17T08:33:00"; Type_ := "smbg";
              Units := "mg/dL"; Value := Samples.float_of "5.5" |} ] [].
Proof.
  apply extract_ignores_units.
  repeat constructor.
Defined.

(** X3. Whatever the raw values are, every displayed value is the decimal
    rendering of a 64-bit integer. *)
Theorem displayed_values_are_int64 (ms : tpMeasurement) (out : list Smbg) :
  scan ms [] = inr out ->
  Forall (fun r => exists z, in_int64 z = true /\ smbgValue r = Itoa z) out.
Proof.
  intros H. apply scan_produced in H.
  induction H as [|m r l l' (_ & _ & Hv) F IH]; constructor.
  - exists (to_int (fmul (Value m) (of_Z 18))). split; [apply to_int_int64|exact Hv].
  - exact IH.
Qed.

Lemma displayed_values_are_int64_witness :
  Forall (fun r => exists z, in_int64 z = true /\ smbgValue r = Itoa z)
    [ {| smbgDate := "2021-03-17"; smbgTime := "08:33:00";
         smbgValue := "-9223372036854775808" |} ].
Proof.
  apply (displayed_values_are_int64 [Samples.huge]).
  vm_compute. reflexivity.
Defined.

(** The loop panics only on slice bounds. *)
Lemma scan_panic_is_slice_bounds (ms : tpMeasurement) :
  forall acc p, scan ms acc = inl p -> exists hi n, p = SliceBounds hi n.
Proof.
  induction ms as [|m ms IH]; intros acc p H; simpl in H; [discriminate|].
  destruct (negb (Type_ m =? "smbg")%string); [exact (IH _ _ H)|].
  destruct (slice (Devicetime m) 0 10) as [d|].
  - destruct (slice (Devicetime m) 11 19) as [t|].
    + exact (IH _ _ H).
    + injection H as <-. eauto.
  - injection H as <-. eauto.
Qed.

(** ** decodeTidepoolData and CheckTidepoolErrorResponse as a whole *)

(** X4. [decodeTidepoolData] reads one file and changes nothing: it
    returns the readings when the file decodes as measurements that all
    can be converted; it returns its error, with a nil slice, when the
    file does not decode; it panics, on slice bounds only, when a device
    time is too short; and it ends the process, with one line logged, when
    the file does not exist. *)
Theorem decodeTidepoolData_outcomes (name : string) (env : Env) (st : State) :
  match decodeTidepoolData name env st with
  | (Returned (None, s), st') =>
      st' = st
      /\ exists c ms, map_get name (files st) = Some c
                      /\ unmarshal_tpMeasurement (bytes_of c) = Some ms
                      /\ scan ms [] = inr s
  | (Returned (Some e, s), st') =>
      st' = st /\ s = []
      /\ e = "Tidepool appears to have returned an error response"
      /\ exists c, map_get name (files st) = Some c
                   /\ unmarshal_tpMeasurement (bytes_of c) = None
  | (Panicked p, st') =>
      st' = st
      /\ exists c ms hi n, map_get name (files st) = Some c
                           /\ unmarshal_tpMeasurement (bytes_of c) = Some ms
                           /\ scan ms [] = inl p
                           /\ p = SliceBounds hi n
  | (Exited, st') =>
      map_get name (files st) = None
      /\ st' = with_line st ("Error loading result json file" ++ no_such_file name)
  end.
Proof.
  destruct (map_get name (files st)) as [c|] eqn:F.
  - rewrite (decodeTidepoolData_run env st name c F).
    destruct (unmarshal_tpMeasurement (bytes_of c)) as [ms|] eqn:U.
    + destruct (scan ms []) as [p|out] eqn:S.
      * split; [reflexivity|].
        destruct (scan_panic_is_slice_bounds ms [] p S) as (hi & n & ->).
        exists c, ms, hi, n. auto.
      * split; [reflexivity|]. exists c, ms. auto.
    + repeat split. exists c. auto.
  - unfold decodeTidepoolData, bind, ReadFile. rewrite F.
    split; reflexivity.
Qed.

(** X5. [CheckTidepoolErrorResponse] tells its caller what it did: it
    returns the error that says the page was displayed exactly when it
    has written the page of the decoded error object, and the error that
    says it was unable to decode when it has changed nothing; a missing
    file or template ends the process before anything is written, and a
    failing execution after the page has been started. *)
Theorem CheckTidepoolErrorResponse_outcomes (name : string) (env : Env) (st : State) :
  match CheckTidepoolErrorResponse name env st with
  | (Returned e, st') =>
      (e = "Displayed the Tidepool Error Page."
       /\ exists c tpe, map_get name (files st) = Some c
                        /\ unmarshal_tpError (bytes_of c) = Some tpe
                        /\ st' = with_output st (ErrorPage tpe))
      \/ (e = "Unable to decode assumed Tidepool error response."
          /\ st' = st
          /\ exists c, map_get name (files st) = Some c
                       /\ unmarshal_tpError (bytes_of c) = None)
  | (Exited, st') =>
      (map_get name (files st) = None
       /\ st' = with_line st ("Error loading result json file" ++ no_such_file name))
      \/ (exists e, ParseFiles_error env "templates/ErrorMessageScreen.html" = Some e
                    /\ st' = with_line st ("Failed to parse the error message template." ++ e))
      \/ (exists e c tpe,
             Execute_error env = Some e
             /\ map_get name (files st) = Some c
             /\ unmarshal_tpError (bytes_of c) = Some tpe
             /\ st' = with_line (with_output st (ErrorPage tpe))
                        ("Failed to execute the error response template" ++ e))
  | (Panicked _, _) => False
  end.
Proof.
  destruct (map_get name (files st)) as [c|] eqn:F.
  - rewrite (CheckTidepoolErrorResponse_run env st name c F).
    destruct (unmarshal_tpError (bytes_of c)) as [tpe|] eqn:U.
    + destruct (ParseFiles_error env _) as [e|] eqn:P.
      * right. left. exists e. auto.
      * destruct (Execute_error env) as [e|] eqn:X.
        -- right. right. exists e, c, tpe. auto.
        -- left. split; [reflexivity|]. exists c, tpe. auto.
    + right. repeat split. exists c. auto.
  - unfold CheckTidepoolErrorResponse, bind, ReadFile. rewrite F.
    left. split; reflexivity.
Qed.

(** ** The failures of the environment *)

Lemma bind_exited {A B : Type} (m : M A) (k : A -> M B) (env : Env) (st st' : State) :
  m env st = (Exited, st') -> bind m k env st = (Exited, st').
Proof. intros H. unfold bind. rewrite H. reflexivity. Qed.

Lemma checked_value_exits {A : Type} (e : error) (msg : string) (env : Env) (st : State) :
  @checked_value A (inl e) msg env st = (Exited, with_line st (msg ++ e)).
Proof. reflexivity. Qed.

Lemma check_exits (e : error) (msg : string) (env : Env) (st : State) :
  check (Some e) msg env st = (Exited, with_line st (msg ++ e)).
Proof. reflexivity. Qed.

(** The run of [send] up to the creation of the data request. *)
Lemma send_login_stage (env : Env) (st : State) :
  send env st
  = match NewRequest_error env "POST" login_url with
    | Some e => (Exited, with_line st ("Error creating the auth request" ++ e))
    | None =>
        let st1 := with_request st (login_request env) in
        match Do env (login_request env) with
        | inl e => (Exited, with_line st1 ("Error sending the auth request" ++ e))
        | inr lresp =>
            match Body lresp with
            | inl e => (Exited, with_line st1 ("Error reading the auth response body" ++ e))
            | inr lbody =>
                match NewRequest_error env "GET" (data_url env lbody) with
                | Some e => (Exited, with_line st1 ("Error creating data request" ++ e))
                | None =>
                    receive (Do env (data_request env lresp lbody)) env
                      (after_login env lresp lbody st)
                end
            end
        end
    end.
Proof.
  destruct (NewRequest_error env "POST" login_url) as [e|] eqn:N1.
  { unfold send.
    rewrite (bind_returned _ _ env st st (Some e)) by (unfold ask; rewrite N1; reflexivity).
    rewrite (bind_exited _ _ env st _ (check_exits e _ env st)). reflexivity. }
  cbv zeta.
  destruct (Do env (login_request env)) as [e|lresp] eqn:D1.
  { unfold send.
    rewrite (bind_returned _ _ env st st None) by (unfold ask; rewrite N1; reflexivity).
    rewrite (bind_returned _ _ env st st tt) by reflexivity.
    rewrite (bind_returned _ _ env st st (form_value env "useremail")) by reflexivity.
    rewrite (bind_returned _ _ env st st (form_value env "password")) by reflexivity.
    fold (login_request env).
    rewrite (bind_returned _ _ env st (with_request st (login_request env)) (inl e))
      by (unfold http_Do; rewrite D1; reflexivity).
    rewrite (bind_exited _ _ env _ _ (checked_value_exits e _ env _)). reflexivity. }
  destruct (Body lresp) as [e|lbody] eqn:B1.
  { unfold send.
    rewrite (bind_returned _ _ env st st None) by (unfold ask; rewrite N1; reflexivity).
    rewrite (bind_returned _ _ env st st tt) by reflexivity.
    rewrite (bind_returned _ _ env st st (form_value env "useremail")) by reflexivity.
    rewrite (bind_returned _ _ env st st (form_value env "password")) by reflexivity.
    fold (login_request env).
    set (st1 := with_request st (login_request env)).
    rewrite (bind_returned _ _ env st st1 (inr lresp))
      by (unfold http_Do; rewrite D1; reflexivity).
    rewrite (bind_returned _ _ env st1 st1 lresp) by apply checked_value_returns.
    rewrite (bind_returned _ _ env st1 st1 tt) by apply status_test_returns.
    rewrite B1.
    rewrite (bind_exited _ _ env _ _ (checked_value_exits e _ env _)). reflexivity. }
  destruct (NewRequest_error env "GET" (data_url env lbody)) as [e|] eqn:N2.
  { unfold send.
    rewrite (bind_returned _ _ env st st None) by (unfold ask; rewrite N1; reflexivity).
    rewrite (bind_returned _ _ env st st tt) by reflexivity.
    rewrite (bind_returned _ _ env st st (form_value env "useremail")) by reflexivity.
    rewrite (bind_returned _ _ env st st (form_value env "password")) by reflexivity.
    fold (login_request env).
    set (st1 := with_request st (login_request env)).
    rewrite (bind_returned _ _ env st st1 (inr lresp))
      by (unfold http_Do; rewrite D1; reflexivity).
    rewrite (bind_returned _ _ env st1 st1 lresp) by apply checked_value_returns.
    rewrite (bind_returned _ _ env st1 st1 tt) by apply status_test_returns.
    rewrite B1.
    rewrite (bind_returned _ _ env st1 st1 lbody) by apply checked_value_returns.
    rewrite (bind_returned _ _ env st1 st1 (form_value env "datatype")) by reflexivity.
    rewrite (bind_returned _ _ env st1 st1 (form_value env "startdate")) by reflexivity.
    rewrite (bind_returned _ _ env st1 st1 (form_value env "enddate")) by reflexivity.
    fold (account_id lbody). fold (data_url env lbody).
    rewrite (bind_returned _ _ env st1 st1 (Some e)) by (unfold ask; rewrite N2; reflexivity).
    rewrite (bind_exited _ _ env _ _ (check_exits e _ env _)). reflexivity. }
  apply send_logged_in; assumption.
Qed.

(** The run of the end of [send] up to the decoding of the payload. *)
Lemma receive_stage (r : error + Response) (env : Env) (st : State) :
  receive r env st
  = match r with
    | inl e => (Exited, with_line st ("Error executing data request" ++ e))
    | inr dresp =>
        match Body dresp with
        | inl e =>
            (Exited,
             with_line st ("Error getting the data file from response body." ++ e))
        | inr data =>
            match WriteFile_error env "tidepool.json" with
            | Some e =>
                (Exited,
                 with_line (holding st (stored env "tidepool.json" (Bytes data) (files st)))
                   ("Error saving the result data file" ++ e))
            | None => respond env (with_file st "tidepool.json" (Bytes data))
            end
        end
    end.
Proof.
  destruct r as [e|dresp].
  { unfold receive.
    rewrite (bind_exited _ _ env _ _ (checked_value_exits e _ env _)). reflexivity. }
  destruct (Body dresp) as [e|data] eqn:B2.
  { unfold receive.
    rewrite (bind_returned _ _ env st st dresp) by apply checked_value_returns.
    rewrite (bind_returned _ _ env st st tt) by apply status_test_returns.
    rewrite B2.
    rewrite (bind_exited _ _ env _ _ (checked_value_exits e _ env _)). reflexivity. }
  destruct (WriteFile_error env "tidepool.json") as [e|] eqn:W.
  { unfold receive.
    rewrite (bind_returned _ _ env st st dresp) by apply checked_value_returns.
    rewrite (bind_returned _ _ env st st tt) by apply status_test_returns.
    rewrite B2.
    rewrite (bind_returned _ _ env st st data) by apply checked_value_returns.
    rewrite (bind_returned _ _ env st
               (holding st (stored env "tidepool.json" (Bytes data) (files st))) (Some e))
      by (rewrite WriteFile_run, W; reflexivity).
    rewrite (bind_exited _ _ env _ _ (check_exits e _ env _)). reflexivity. }
  apply receive_fetched; assumption.
Qed.

(** X6. Every failure of the environment up to the storing of the
    payload ends the process at once: the line logged is the message of
    the step followed by the error, nothing is written to the response,
    and no request is sent after the failure.  No file is changed, but for
    tidepool.json when storing it fails after the file was opened: the
    file, created or truncated, then holds the bytes that were written. *)
Theorem environment_failures_end_the_process (env : Env) (st : State) :
  (forall e,
      NewRequest_error env "POST" login_url = Some e ->
      send env st = (Exited, with_line st ("Error creating the auth request" ++ e)))
  /\ (forall e,
        NewRequest_error env "POST" login_url = None ->
        Do env (login_request env) = inl e ->
        send env st
        = (Exited, with_line (with_request st (login_request env))
                     ("Error sending the auth request" ++ e)))
  /\ (forall lresp e,
        NewRequest_error env "POST" login_url = None ->
        Do env (login_request env) = inr lresp ->
        Body lresp = inl e ->
        send env st
        = (Exited, with_line (with_request st (login_request env))
                     ("Error reading the auth response body" ++ e)))
  /\ (forall lresp lbody e,
        NewRequest_error env "POST" login_url = None ->
        Do env (login_request env) = inr lresp ->
        Body lresp = inr lbody ->
        NewRequest_error env "GET" (data_url env lbody) = Some e ->
        send env st
        = (Exited, with_line (with_request st (login_request env))
                     ("Error creating data request" ++ e)))
  /\ (forall lresp lbody,
        NewRequest_error env "POST" login_url = None ->
        Do env (login_request env) = inr lresp ->
        Body lresp = inr lbody ->
        NewRequest_error env "GET" (data_url env lbody) = None ->
        (forall e,
            Do env (data_request env lresp lbody) = inl e ->
            send env st
            = (Exited, with_line (after_login env lresp lbody st)
                         ("Error executing data request" ++ e)))
        /\ (forall dresp e,
              Do env (data_request env lresp lbody) = inr dresp ->
              Body dresp = inl e ->
              send env st
              = (Exited, with_line (after_login env lresp lbody st)
                           ("Error getting the data file from response body." ++ e)))
        /\ (forall dresp data e,
              Do env (data_request env lresp lbody) = inr dresp ->
              Body dresp = inr data ->
              WriteFile_error env "tidepool.json" = Some e ->
              send env st
              = (Exited,
                 with_line
                   (match WriteFile_kept env "tidepool.json" with
                    | Some n =>
                        with_file (after_login env lresp lbody st) "tidepool.json"
                          (Bytes (substring 0 n data))
                    | None => after_login env lresp lbody st
                    end)
                   ("Error saving the result data file" ++ e)))).
Proof.
  split; [|split; [|split; [|split]]].
  - intros e N1. rewrite send_login_stage, N1. reflexivity.
  - intros e N1 D1. rewrite send_login_stage, N1, D1. reflexivity.
  - intros lresp e N1 D1 B1. rewrite send_login_stage, N1, D1, B1. reflexivity.
  - intros lresp lbody e N1 D1 B1 N2.
    rewrite send_login_stage, N1, D1, B1, N2. reflexivity.
  - intros lresp lbody N1 D1 B1 N2.
    rewrite send_login_stage, N1, D1, B1, N2. split; [|split].
    + intros e D2. rewrite D2, receive_stage. reflexivity.
    + intros dresp e D2 B2. rewrite D2, receive_stage, B2. reflexivity.
    + intros dresp data e D2 B2 W. rewrite D2, receive_stage, B2, W.
      unfold holding, stored. rewrite W.
      destruct (WriteFile_kept env "tidepool.json"); reflexivity.
Qed.

Lemma environment_failures_end_the_process_witness :
  send Cases.unreachable initial
  = (Exited,
     with_line (with_request initial (login_request Cases.unreachable))
       ("Error sending the auth request" ++ "dial tcp: connection refused"))
  /\ send Cases.disk_full initial
     = (Exited,
        with_line
          (with_file
             (after_login Cases.disk_full Samples.logged_in (dq "{'userid':'5d7a8b'}")
                initial)
             "tidepool.json" (Bytes (substring 0 16 Cases.feed_text)))
          ("Error saving the result data file"
             ++ "write tidepool.json: no space left on device")).
Proof.
  split.
  - apply (proj1 (proj2 (environment_failures_end_the_process Cases.unreachable initial))).
    + reflexivity.
    + reflexivity.
  - refine (proj2 (proj2
                     (proj2 (proj2 (proj2 (proj2 (environment_failures_end_the_process
                                                    Cases.disk_full initial))))
                        Samples.logged_in (dq "{'userid':'5d7a8b'}") _ _ _ _))
              Cases.feed_response Cases.feed_text
              "write tidepool.json: no space left on device" _ _ _).
    + reflexivity.
    + reflexivity.
    + reflexivity.
    + reflexivity.
    + reflexivity.
    + reflexivity.
    + reflexivity.
Defined.

(** X7. [send] sends at most two requests: first the login request, a
    POST to the login URL with the credentials of the form; then, once
    the login response and its body are there, one GET to the data URL,
    which carries the token header of the login response (empty when the
    header is absent) and the content type, and no credentials. *)
Theorem send_sends_login_then_data (env : Env) (st : State) :
  (sent (snd (send env st)) = sent st
   \/ sent (snd (send env st)) = (sent st ++ [login_request env])%list
   \/ exists lresp lbody,
       Do env (login_request env) = inr lresp
       /\ Body lresp = inr lbody
       /\ sent (snd (send env st))
          = (sent st ++ [login_request env; data_request env lresp lbody])%list)
  /\ login_request env
     = {| Method := "POST"; URL := "https://int-api.tidepool.org/auth/login";
          BasicAuth := Some (form_value env "useremail", form_value env "password");
          ReqHeader := [] |}
  /\ (forall lresp lbody,
        data_request env lresp lbody
        = {| Method := "GET";
             URL := "https://int-api.tidepool.org/data/" ++ account_id lbody ++ "?type="
                      ++ form_value env "datatype"
                      ++ checkDateRanges (form_value env "startdate")
                           (form_value env "enddate");
             BasicAuth := None;
             ReqHeader :=
               [ ("X-Tidepool-Session-Token",
                  match map_get "X-Tidepool-Session-Token" (Header lresp) with
                  | Some v => v
                  | None => EmptyString
                  end);
                 ("Content-Type", "application/json") ] |}).
Proof.
  split; [|split].
  - rewrite send_login_stage.
    destruct (NewRequest_error env "POST" login_url); [left; reflexivity|].
    cbv zeta.
    destruct (Do env (login_request env)) as [e|lresp] eqn:D1;
      [right; left; reflexivity|].
    destruct (Body lresp) as [e|lbody] eqn:B1; [right; left; reflexivity|].
    destruct (NewRequest_error env "GET" (data_url env lbody));
      [right; left; reflexivity|].
    right. right. exists lresp, lbody.
    split; [reflexivity|]. split; [exact B1|].
    rewrite keeps_receive. simpl. rewrite <- app_assoc. reflexivity.
  - reflexivity.
  - intros lresp lbody. unfold data_request. rewrite data_url_shape. reflexivity.
Qed.

(** ** What the handler leaves alone *)

Create HintDb nothing.
Create HintDb others.
Create HintDb nonil.

Lemma nothing_ret {A : Type} (a : A) : writes_nothing (ret a).
Proof. intros env st. reflexivity. Qed.

Lemma nothing_bind {A B : Type} (m : M A) (k : A -> M B) :
  writes_nothing m -> (forall a, writes_nothing (k a)) -> writes_nothing (bind m k).
Proof.
  intros Hm Hk env st. unfold bind.
  pose proof (Hm env st) as E.
  destruct (m env st) as [[a| |p] st']; simpl in *; [|exact E|exact E].
  rewrite (Hk a env st'). exact E.
Qed.

Lemma nothing_ask {A : Type} (f : Env -> A) : writes_nothing (ask f).
Proof. intros env st. reflexivity. Qed.

Lemma nothing_throw {A : Type} (p : panic) : writes_nothing (@throw A p).
Proof. intros env st. reflexivity. Qed.

Lemma nothing_Fatal {A : Type} (msg : string) : writes_nothing (@Fatal A msg).
Proof. intros env st. reflexivity. Qed.

Lemma nothing_Println (msg : string) : writes_nothing (Println msg).
Proof. intros env st. reflexivity. Qed.

Lemma nothing_WriteFile (name : string) (c : content) : writes_nothing (WriteFile name c).
Proof.
  intros env st. rewrite WriteFile_run. reflexivity.
Qed.

Lemma nothing_ReadFile (name : string) : writes_nothing (ReadFile name).
Proof. intros env st. reflexivity. Qed.

Lemma nothing_http_Do (req : Request) : writes_nothing (http_Do req).
Proof. intros env st. reflexivity. Qed.

Lemma nothing_set_content_type (v : string) : writes_nothing (set_content_type v).
Proof. intros env st. reflexivity. Qed.

Lemma nothing_PostFormValue (key : string) : writes_nothing (PostFormValue key).
Proof. intros env st. reflexivity. Qed.

Lemma nothing_check (e : option error) (msg : string) : writes_nothing (check e msg).
Proof. destruct e; [apply nothing_Fatal|apply nothing_ret]. Qed.

#[local] Hint Resolve nothing_ret nothing_ask nothing_throw nothing_Fatal nothing_Println
  nothing_WriteFile nothing_ReadFile nothing_http_Do nothing_set_content_type
  nothing_PostFormValue nothing_check : nothing.

Ltac nothing :=
  repeat first
    [ progress (intros)
    | solve [auto with nothing]
    | apply nothing_bind
    | match goal with
      | |- writes_nothing (match ?x with _ => _ end) => destruct x
      end ].

Lemma nothing_checked_value {A : Type} (r : error + A) (msg : string) :
  writes_nothing (checked_value r msg).
Proof. unfold checked_value. nothing. Qed.

#[local] Hint Resolve nothing_checked_value : nothing.

Lemma nothing_decodeTidepoolData (name : string) : writes_nothing (decodeTidepoolData name).
Proof. unfold decodeTidepoolData. nothing. Qed.

Lemma nothing_CreatePDF (smbgs : list Smbg) : writes_nothing (CreatePDF smbgs).
Proof. rewrite CreatePDF_run. nothing. Qed.

#[local] Hint Resolve nothing_decodeTidepoolData nothing_CreatePDF : nothing.

Lemma once_of_nothing {A : Type} (m : M A) : writes_nothing m -> writes_page_or_document m.
Proof. intros H env st. left. apply H. Qed.

Lemma once_page (tpe : tpError) : writes_page_or_document (write (ErrorPage tpe)).
Proof. intros env st. right. left. exists tpe. reflexivity. Qed.

(** Nothing, then a page or a document. *)
Lemma once_bind_l {A B : Type} (m : M A) (k : A -> M B) :
  writes_nothing m -> (forall a, writes_page_or_document (k a)) ->
  writes_page_or_document (bind m k).
Proof.
  intros Hm Hk env st. unfold bind.
  pose proof (Hm env st) as E.
  destruct (m env st) as [[a| |p] st']; simpl in *; [|left; exact E|left; exact E].
  destruct (Hk a env st') as [W|[[tpe W]|[[c [N W]]|[c [e [N W]]]]]]; rewrite W, E.
  - left. reflexivity.
  - right. left. exists tpe. reflexivity.
  - right. right. left. exists c. split; [exact N|reflexivity].
  - right. right. right. exists c, e. split; [exact N|reflexivity].
Qed.

(** A page or a document, then nothing. *)
Lemma once_bind_r {A B : Type} (m : M A) (k : A -> M B) :
  writes_page_or_document m -> (forall a, writes_nothing (k a)) ->
  writes_page_or_document (bind m k).
Proof.
  intros Hm Hk env st. unfold bind.
  pose proof (Hm env st) as E.
  destruct (m env st) as [[a| |p] st']; simpl in *; [|exact E|exact E].
  rewrite (Hk a env st'). exact E.
Qed.

Ltac one_output :=
  repeat first
    [ progress (intros)
    | apply once_page
    | apply once_of_nothing; solve [nothing]
    | apply once_bind_l; [solve [nothing]|]
    | apply once_bind_r; [|solve [nothing]]
    | match goal with
      | |- writes_page_or_document (match ?x with _ => _ end) => destruct x
      end ].

Lemma once_CheckTidepoolErrorResponse (name : string) :
  writes_page_or_document (CheckTidepoolErrorResponse name).
Proof. unfold CheckTidepoolErrorResponse. one_output. Qed.

(** [ShowPDF] hands over the file in one call, and prints the error of
    that call after it. *)
Lemma once_ShowPDF (name : string) : writes_page_or_document (ShowPDF name).
Proof.
  intros env st. destruct (map_get name (files st)) as [c|] eqn:F.
  - rewrite (ShowPDF_run name c env st F). cbn [snd written].
    unfold delivery. destruct (is_empty c).
    + left. apply app_nil_r.
    + destruct (Write_error env c) as [e|] eqn:W.
      * right. right. right. exists c, e. split; [exact W|reflexivity].
      * right. right. left. exists c. split; [exact W|reflexivity].
  - rewrite (ShowPDF_missing name env st F). left. reflexivity.
Qed.

Lemma once_send : writes_page_or_document send.
Proof.
  unfold send.
  repeat first
    [ progress (intros)
    | apply once_CheckTidepoolErrorResponse
    | apply once_ShowPDF
    | apply once_bind_l; [solve [nothing]|]
    | apply once_bind_r; [|solve [nothing]]
    | match goal with
      | |- writes_page_or_document (match ?x with _ => _ end) => destruct x
      end ].
Qed.

(** X8. Whatever the environment does, [send] hands to the response
    nothing, or one error page, or one document; only the failed write of
    a document is followed by a second output, the error of that write. *)
Theorem send_writes_page_or_document (env : Env) (st : State) :
  written (snd (send env st)) = written st
  \/ (exists tpe, written (snd (send env st)) = (written st ++ [ErrorPage tpe])%list)
  \/ (exists c,
         Write_error env c = None
         /\ written (snd (send env st)) = (written st ++ [Sent c])%list)
  \/ (exists c e,
         Write_error env c = Some e
         /\ written (snd (send env st)) = (written st ++ [Sent c; Printed e])%list).
Proof. apply once_send. Qed.

Lemma same_other_files_refl (st : State) : same_other_files st st.
Proof. intros name _ _. reflexivity. Qed.

Lemma others_ret {A : Type} (a : A) : keeps_other_files (ret a).
Proof. intros env st. apply same_other_files_refl. Qed.

Lemma others_bind {A B : Type} (m : M A) (k : A -> M B) :
  keeps_other_files m -> (forall a, keeps_other_files (k a)) ->
  keeps_other_files (bind m k).
Proof.
  intros Hm Hk env st. unfold bind.
  pose proof (Hm env st) as E.
  destruct (m env st) as [[a| |p] st']; simpl in *; [|exact E|exact E].
  intros name N1 N2. rewrite (Hk a env st' name N1 N2). apply E; assumption.
Qed.

Lemma others_ask {A : Type} (f : Env -> A) : keeps_other_files (ask f).
Proof. intros env st. apply same_other_files_refl. Qed.

Lemma others_throw {A : Type} (p : panic) : keeps_other_files (@throw A p).
Proof. intros env st. apply same_other_files_refl. Qed.

Lemma others_Fatal {A : Type} (msg : string) : keeps_other_files (@Fatal A msg).
Proof. intros env st name _ _. reflexivity. Qed.

Lemma others_Println (msg : string) : keeps_other_files (Println msg).
Proof. intros env st name _ _. reflexivity. Qed.

Lemma others_ReadFile (name : string) : keeps_other_files (ReadFile name).
Proof. intros env st. apply same_other_files_refl. Qed.

Lemma others_http_Do (req : Request) : keeps_other_files (http_Do req).
Proof. intros env st name _ _. reflexivity. Qed.

Lemma others_write (o : output) : keeps_other_files (write o).
Proof. intros env st name _ _. reflexivity. Qed.

Lemma others_set_content_type (v : string) : keeps_other_files (set_content_type v).
Proof. intros env st name _ _. reflexivity. Qed.

Lemma others_PostFormValue (key : string) : keeps_other_files (PostFormValue key).
Proof. intros env st. apply same_other_files_refl. Qed.

Lemma others_check (e : option error) (msg : string) : keeps_other_files (check e msg).
Proof. destruct e; [apply others_Fatal|apply others_ret]. Qed.

Lemma others_WriteFile_json (c : content) : keeps_other_files (WriteFile "tidepool.json" c).
Proof.
  intros env st name N1 N2. rewrite WriteFile_run. unfold stored. cbn [snd holding files].
  destruct (WriteFile_error env "tidepool.json");
    [destruct (WriteFile_kept env "tidepool.json"); [|reflexivity]|];
    apply map_get_set_other; congruence.
Qed.

Lemma others_WriteFile_pdf (c : content) : keeps_other_files (WriteFile "tidepool.pdf" c).
Proof.
  intros env st name N1 N2. rewrite WriteFile_run. unfold stored. cbn [snd holding files].
  destruct (WriteFile_error env "tidepool.pdf");
    [destruct (WriteFile_kept env "tidepool.pdf"); [|reflexivity]|];
    apply map_get_set_other; congruence.
Qed.

#[local] Hint Resolve others_ret others_ask others_throw others_Fatal others_Println
  others_ReadFile others_http_Do others_write others_set_content_type
  others_PostFormValue others_check others_WriteFile_json others_WriteFile_pdf : others.

Ltac others :=
  repeat first
    [ progress (intros)
    | solve [auto with others]
    | apply others_bind
    | match goal with
      | |- keeps_other_files (match ?x with _ => _ end) => destruct x
      end ].

Lemma others_checked_value {A : Type} (r : error + A) (msg : string) :
  keeps_other_files (checked_value r msg).
Proof. unfold checked_value. others. Qed.

#[local] Hint Resolve others_checked_value : others.

Lemma others_CreatePDF (smbgs : list Smbg) : keeps_other_files (CreatePDF smbgs).
Proof. rewrite CreatePDF_run. others. Qed.

#[local] Hint Resolve others_CreatePDF : others.

Lemma others_send : keeps_other_files send.
Proof.
  unfold send, decodeTidepoolData, CheckTidepoolErrorResponse, ShowPDF, WriteTo.
  others.
Qed.

(** X9. [send] works in two files only: whatever happens, every file
    other than tidepool.json and tidepool.pdf is after the run what it was
    before. *)
Theorem send_touches_two_files_only (env : Env) (st : State) (name : string) :
  name <> "tidepool.json" -> name <> "tidepool.pdf" ->
  map_get name (files (snd (send env st))) = map_get name (files st).
Proof. apply others_send. Qed.

Lemma send_touches_two_files_only_witness :
  map_get "templates/TidepoolMain.html"
    (files (snd (send Cases.no_pdf
                   {| files := [("templates/TidepoolMain.html", Bytes "<html>")];
                      sent := []; logged := []; written := []; content_type := None |})))
  = map_get "templates/TidepoolMain.html" [("templates/TidepoolMain.html", Bytes "<html>")].
Proof.
  apply (send_touches_two_files_only Cases.no_pdf
           {| files := [("templates/TidepoolMain.html", Bytes "<html>")];
              sent := []; logged := []; written := []; content_type := None |}).
  - intros E. discriminate E.
  - intros E. discriminate E.
Defined.

Lemma nonil_ret {A : Type} (a : A) : never_nil (ret a).
Proof. intros env st. discriminate. Qed.

Lemma nonil_bind {A B : Type} (m : M A) (k : A -> M B) :
  never_nil m -> (forall a, never_nil (k a)) -> never_nil (bind m k).
Proof.
  intros Hm Hk env st. unfold bind.
  pose proof (Hm env st) as E.
  destruct (m env st) as [[a| |p] st']; simpl in *.
  - apply Hk.
  - discriminate.
  - intros P. apply E. injection P as ->. reflexivity.
Qed.

Lemma nonil_ask {A : Type} (f : Env -> A) : never_nil (ask f).
Proof. intros env st. discriminate. Qed.

Lemma nonil_Fatal {A : Type} (msg : string) : never_nil (@Fatal A msg).
Proof. intros env st. discriminate. Qed.

Lemma nonil_Println (msg : string) : never_nil (Println msg).
Proof. intros env st. discriminate. Qed.

Lemma nonil_WriteFile (name : string) (c : content) : never_nil (WriteFile name c).
Proof.
  intros env st. rewrite WriteFile_run. discriminate.
Qed.

Lemma nonil_ReadFile (name : string) : never_nil (ReadFile name).
Proof. intros env st. discriminate. Qed.

Lemma nonil_http_Do (req : Request) : never_nil (http_Do req).
Proof. intros env st. discriminate. Qed.

Lemma nonil_write (o : output) : never_nil (write o).
Proof. intros env st. discriminate. Qed.

Lemma nonil_set_content_type (v : string) : never_nil (set_content_type v).
Proof. intros env st. discriminate. Qed.

Lemma nonil_PostFormValue (key : string) : never_nil (PostFormValue key).
Proof. intros env st. discriminate. Qed.

Lemma nonil_check (e : option error) (msg : string) : never_nil (check e msg).
Proof. destruct e; [apply nonil_Fatal|apply nonil_ret]. Qed.

(** [check] does not come back from an error: the nil result that goes
    with the error is never used. *)
Lemma nonil_checked_value {A : Type} (r : error + A) (msg : string) :
  never_nil (checked_value r msg).
Proof. destruct r as [e|x]; intros env st; discriminate. Qed.

Lemma nonil_decodeTidepoolData (name : string) : never_nil (decodeTidepoolData name).
Proof.
  intros env st E.
  destruct (map_get name (files st)) as [c|] eqn:F.
  - rewrite (decodeTidepoolData_run env st name c F) in E.
    destruct (unmarshal_tpMeasurement (bytes_of c)) as [ms|];
      [destruct (scan ms []) as [p|out] eqn:S|]; simpl in E; try discriminate.
    injection E as ->.
    destruct (scan_panic_is_slice_bounds ms [] _ S) as (hi & n & D). discriminate D.
  - unfold decodeTidepoolData, bind, ReadFile in E. rewrite F in E. discriminate.
Qed.

#[local] Hint Resolve nonil_ret nonil_ask nonil_Fatal nonil_Println nonil_WriteFile
  nonil_ReadFile nonil_http_Do nonil_write nonil_set_content_type nonil_PostFormValue
  nonil_check nonil_checked_value nonil_decodeTidepoolData : nonil.

Ltac nonil :=
  repeat first
    [ progress (intros)
    | solve [auto with nonil]
    | apply nonil_bind
    | match goal with
      | |- never_nil (match ?x with _ => _ end) => destruct x
      end ].

Lemma nonil_CreatePDF (smbgs : list Smbg) : never_nil (CreatePDF smbgs).
Proof. rewrite CreatePDF_run. nonil. Qed.

#[local] Hint Resolve nonil_CreatePDF : nonil.

Lemma nonil_send : never_nil send.
Proof.
  unfold send, CheckTidepoolErrorResponse, ShowPDF, WriteTo.
  nonil.
Qed.

(** X10. The only panic of [send] is a slice out of bounds in the loop
    over the measurements: [check] ends the process on every error, so
    that the nil result of a failed call is never used. *)
Theorem send_panics_on_slice_bounds_only (env : Env) (st : State) (p : panic) :
  fst (send env st) = Panicked p -> exists hi n, p = SliceBounds hi n.
Proof.
  intros E. destruct p as [hi n|]; [eauto|].
  exfalso. exact (nonil_send env st E).
Qed.

Lemma send_panics_on_slice_bounds_only_witness :
  exists hi n, SliceBounds 19 10 = SliceBounds hi n.
Proof.
  apply (send_panics_on_slice_bounds_only
           (Samples.service Samples.logged_in
              (Samples.response 200 "200 OK" []
                 (dq "[{'type':'smbg','deviceTime':'2021-03-17'}]")))
           initial).
  vm_compute. reflexivity.
Defined.

(** ** The document *)

(** X11. When both exchanges happen, the payload decodes as measurements
    that all convert, the PDF can be stored and the response takes it,
    [send] returns after it has stored the document that the calls of
    [CreatePDF] draw, whose rows are exactly the readings, in their order,
    and handed it to the response with the content type application/pdf;
    it logs that no results were returned exactly when there is no
    reading.  The PDF generator is taken as the start of the program
    leaves it. *)
Theorem send_delivers_the_readings :
  forall env lresp lbody dresp data st ms out,
    fetched env lresp lbody dresp data ->
    unmarshal_tpMeasurement data = Some ms ->
    scan ms [] = inr out ->
    WriteFile_error env "tidepool.pdf" = None ->
    Write_error env (PdfDocument out) = None ->
    send env st
    = (Returned tt,
       {| files := map_set "tidepool.pdf" (PdfDocument out)
                     (map_set "tidepool.json" (Bytes data) (files st));
          sent := (sent st ++ [login_request env]) ++ [data_request env lresp lbody];
          logged := match out with
                    | [] => logged st ++ ["No results were returned from Tidepool."]
                    | _ :: _ => logged st
                    end;
          written := written st ++ [Sent (PdfDocument out)];
          content_type := Some "application/pdf" |}).
Proof.
  intros env lresp lbody dresp data st ms out F U S W R.
  rewrite (send_fetched env lresp lbody dresp data st F).
  rewrite (respond_document env _ (Bytes data) ms out
             (after_fetch_file env lresp lbody data st) U S).
  unfold stored. rewrite W.
  rewrite (ShowPDF_run "tidepool.pdf" (PdfDocument out))
    by (cbn [files]; apply map_get_set_same).
  unfold delivery. cbn [is_empty]. rewrite R. reflexivity.
Qed.

Lemma send_delivers_the_readings_witness :
  send (Samples.service Samples.logged_in Cases.feed_response) initial
  = (Returned tt,
     {| files := map_set "tidepool.pdf" (PdfDocument Samples.feed_readings)
                   (map_set "tidepool.json" (Bytes Cases.feed_text) (files initial));
        sent := (sent initial
                   ++ [login_request (Samples.service Samples.logged_in Cases.feed_response)])
                  ++ [data_request (Samples.service Samples.logged_in Cases.feed_response)
                        Samples.logged_in (dq "{'userid':'5d7a8b'}")];
        logged := logged initial;
        written := written initial ++ [Sent (PdfDocument Samples.feed_readings)];
        content_type := Some "application/pdf" |}).
Proof.
  apply (send_delivers_the_readings
           (Samples.service Samples.logged_in Cases.feed_response)
           Samples.logged_in (dq "{'userid':'5d7a8b'}") Cases.feed_response
           Cases.feed_text initial Samples.feed Samples.feed_readings).
  - repeat split; reflexivity.
  - vm_compute. reflexivity.
  - vm_compute. reflexivity.
  - reflexivity.
  - reflexivity.
Defined.

(** X12. [CreatePDF] reports no error when the document cannot be
    stored, and nothing is logged about it.  [send] then hands over what
    tidepool.pdf holds: the first bytes of the new document when the
    failure came after the file was opened; else the document of an
    earlier request, when there is one, which goes out in place of the
    readings of this request; without such a file [ShowPDF] ends the
    process. *)
Theorem send_shows_the_stored_document :
  forall env lresp lbody dresp data st ms out e,
    fetched env lresp lbody dresp data ->
    unmarshal_tpMeasurement data = Some ms ->
    scan ms [] = inr out ->
    WriteFile_error env "tidepool.pdf" = Some e ->
    (forall n,
        WriteFile_kept env "tidepool.pdf" = Some n ->
        fst (send env st) = Returned tt
        /\ written (snd (send env st)) = (written st ++ delivery env (PdfPrefix n out))%list
        /\ map_get "tidepool.pdf" (files (snd (send env st))) = Some (PdfPrefix n out)
        /\ logged (snd (send env st))
           = match out with
             | [] => (logged st ++ ["No results were returned from Tidepool."])%list
             | _ :: _ => logged st
             end)
    /\ (WriteFile_kept env "tidepool.pdf" = None ->
        (forall old,
            map_get "tidepool.pdf" (files st) = Some old ->
            fst (send env st) = Returned tt
            /\ written (snd (send env st)) = (written st ++ delivery env old)%list
            /\ map_get "tidepool.pdf" (files (snd (send env st))) = Some old
            /\ logged (snd (send env st))
               = match out with
                 | [] => (logged st ++ ["No results were returned from Tidepool."])%list
                 | _ :: _ => logged st
                 end)
        /\ (map_get "tidepool.pdf" (files st) = None ->
            fst (send env st) = Exited
            /\ written (snd (send env st)) = written st)).
Proof.
  intros env lresp lbody dresp data st ms out e F U S W.
  rewrite (send_fetched env lresp lbody dresp data st F).
  rewrite (respond_document env _ (Bytes data) ms out
             (after_fetch_file env lresp lbody data st) U S).
  unfold stored. rewrite W.
  assert (P : map_get "tidepool.pdf" (files (after_fetch env lresp lbody data st))
              = map_get "tidepool.pdf" (files st)).
  { apply map_get_set_other. discriminate. }
  split.
  - intros n K. rewrite K. cbn [prefix].
    rewrite (ShowPDF_run "tidepool.pdf" (PdfPrefix n out))
      by (cbn [files]; apply map_get_set_same).
    cbn [fst snd files written logged].
    repeat split. apply map_get_set_same.
  - intros K. rewrite K. split.
    + intros old O.
      rewrite (ShowPDF_run "tidepool.pdf" old) by (cbn [files]; rewrite P; exact O).
      cbn [fst snd files written logged]. repeat split. rewrite P. exact O.
    + intros O.
      rewrite (ShowPDF_missing "tidepool.pdf") by (cbn [files]; rewrite P; exact O).
      split; reflexivity.
Qed.

Lemma send_shows_the_stored_document_witness :
  (fst (send Cases.pdf_cut initial) = Returned tt
   /\ written (snd (send Cases.pdf_cut initial))
      = [Sent (PdfPrefix 4096 Samples.feed_readings)]
   /\ map_get "tidepool.pdf" (files (snd (send Cases.pdf_cut initial)))
      = Some (PdfPrefix 4096 Samples.feed_readings)
   /\ logged (snd (send Cases.pdf_cut initial)) = [])
  /\ (fst (send Cases.no_pdf Cases.left_over) = Returned tt
      /\ written (snd (send Cases.no_pdf Cases.left_over))
         = [Sent (PdfDocument [ {| smbgDate := "2020-12-24"; smbgTime := "18:00:00";
                                   smbgValue := "120" |} ])]
      /\ map_get "tidepool.pdf" (files (snd (send Cases.no_pdf Cases.left_over)))
         = Some (PdfDocument [ {| smbgDate := "2020-12-24"; smbgTime := "18:00:00";
                                  smbgValue := "120" |} ])
      /\ logged (snd (send Cases.no_pdf Cases.left_over)) = []).
Proof.
  split.
  - refine (proj1 (send_shows_the_stored_document Cases.pdf_cut Samples.logged_in
                     (dq "{'userid':'5d7a8b'}") Cases.feed_response Cases.feed_text
                     initial Samples.feed Samples.feed_readings
                     "write tidepool.pdf: no space left on device" _ _ _ _)
              4096%nat _).
    + repeat split; reflexivity.
    + vm_compute. reflexivity.
    + vm_compute. reflexivity.
    + reflexivity.
    + reflexivity.
  - refine (proj1 (proj2 (send_shows_the_stored_document Cases.no_pdf Samples.logged_in
                            (dq "{'userid':'5d7a8b'}") Cases.feed_response Cases.feed_text
                            Cases.left_over Samples.feed Samples.feed_readings
                            "open tidepool.pdf: permission denied" _ _ _ _) _)
              (PdfDocument [ {| smbgDate := "2020-12-24"; smbgTime := "18:00:00";
                                smbgValue := "120" |} ]) _).
    + repeat split; reflexivity.
    + vm_compute. reflexivity.
    + vm_compute. reflexivity.
    + reflexivity.
    + reflexivity.
    + reflexivity.
Defined.

(** ** The account identifier and the query string *)

Lemma fold_members_keeps (key : string) (ms : list (string * value)) :
  forall m,
    existsb (fun kv => String.eqb (unquote (fst kv)) key) ms = false ->
    map_get key
      (List.fold_left
         (fun m kv => match kv with (k, x) => map_set (unquote k) (to_any x) m end)
         ms m)
    = map_get key m.
Proof.
  induction ms as [|[k x] ms IH]; intros m He; simpl in *.
  - reflexivity.
  - apply orb_false_iff in He. destruct He as [Hk He].
    rewrite IH by exact He.
    apply map_get_set_other. apply String.eqb_neq. exact Hk.
Qed.

(** X13. When the body of the login response is an object with several
    userid members, the last one counts; its value goes into the URL as
    [fmt] prints it, a string as it is, without quotes or escaping. *)
Theorem userid_is_the_last_member :
  forall env lbody pre k v post,
    parse lbody = Some (JObject (pre ++ (k, v) :: post)) ->
    unquote k = "userid" ->
    existsb (fun kv => String.eqb (unquote (fst kv)) "userid") post = false ->
    account_id lbody = Sprint (to_any v)
    /\ (forall raw,
          v = JString raw ->
          data_url env lbody
          = "https://int-api.tidepool.org/data/" ++ unquote raw ++ "?type="
              ++ form_value env "datatype"
              ++ checkDateRanges (form_value env "startdate") (form_value env "enddate")).
Proof.
  intros env lbody pre k v post P K L.
  assert (A : account_id lbody = Sprint (to_any v)).
  { unfold account_id, unmarshal_map. rewrite P. simpl index_map.
    rewrite fold_left_app. simpl fold_left.
    rewrite fold_members_keeps by exact L.
    rewrite K, map_get_set_same. reflexivity. }
  split; [exact A|].
  intros raw ->. rewrite data_url_shape, A. reflexivity.
Qed.

Lemma userid_is_the_last_member_witness :
  account_id (dq "{'userid':'old','userid':'5d7a8b','name':'n'}")
  = Sprint (to_any (JString "5d7a8b"))
  /\ (forall raw,
        JString "5d7a8b" = JString raw ->
        data_url (Samples.service Samples.logged_in Cases.feed_response)
          (dq "{'userid':'old','userid':'5d7a8b','name':'n'}")
        = "https://int-api.tidepool.org/data/" ++ unquote raw ++ "?type="
            ++ form_value (Samples.service Samples.logged_in Cases.feed_response) "datatype"
            ++ checkDateRanges
                 (form_value (Samples.service Samples.logged_in Cases.feed_response)
                    "startdate")
                 (form_value (Samples.service Samples.logged_in Cases.feed_response)
                    "enddate")).
Proof.
  apply (userid_is_the_last_member
           (Samples.service Samples.logged_in Cases.feed_response)
           (dq "{'userid':'old','userid':'5d7a8b','name':'n'}")
           [("userid", JString "old")] "userid" (JString "5d7a8b")
           [("name", JString "n")]).
  - vm_compute. reflexivity.
  - vm_compute. reflexivity.
  - vm_compute. reflexivity.
Defined.

(** X14. The query string is empty exactly when both dates are absent;
    otherwise it starts with an ampersand, so that it continues the query
    that the URL has begun with its type parameter. *)
Theorem checkDateRanges_empty_iff_no_bound (sdate edate : string) :
  (checkDateRanges sdate edate = EmptyString
   <-> sdate = EmptyString /\ edate = EmptyString)
  /\ (checkDateRanges sdate edate <> EmptyString ->
      String.get 0 (checkDateRanges sdate edate) = Some "&"%char).
Proof.
  unfold checkDateRanges.
  destruct (String.eqb sdate EmptyString) eqn:Es;
    destruct (String.eqb edate EmptyString) eqn:Ee; cbn [andb negb].
  - apply String.eqb_eq in Es. apply String.eqb_eq in Ee. subst.
    split; [split; auto|]. intros H. contradiction H. reflexivity.
  - apply String.eqb_neq in Ee. split; [|reflexivity].
    split; [discriminate|]. intros [_ E]. contradiction.
  - apply String.eqb_neq in Es. split; [|reflexivity].
    split; [discriminate|]. intros [E _]. contradiction.
  - apply String.eqb_neq in Es. split; [|reflexivity].
    split; [discriminate|]. intros [E _]. contradiction.
Qed.

Lemma checkDateRanges_empty_iff_no_bound_witness :
  String.get 0 (checkDateRanges "2021-01-01" EmptyString) = Some "&"%char.
Proof.
  apply (proj2 (checkDateRanges_empty_iff_no_bound "2021-01-01" EmptyString)).
  vm_compute. discriminate.
Defined.

(** ** The calls on the PDF generator *)

Import Pdf.

Lemma drawn_map_Draw (ds : list draw) (cs : list call) :
  drawn (List.map Draw ds ++ cs) = (ds ++ drawn cs)%list.
Proof.
  induction ds as [|d ds IH]; simpl; [reflexivity|]. rewrite IH. reflexivity.
Qed.

Lemma line_breaks_lines (smbgs : list Smbg) :
  line_breaks (lines smbgs) = List.length smbgs.
Proof.
  induction smbgs as [|r rest IH]; simpl; [reflexivity|]. rewrite IH. reflexivity.
Qed.

(** X15. The table that [CreatePDF] draws spells the readings: the
    bordered cells drawn on the document carry, in the order of the
    slice, the date, the time and the value of every reading, three cells
    and one line break a reading, and nothing else. *)
Theorem CreatePDF_draws_the_readings (smbgs : list Smbg) :
  table_texts (drawn (CreatePDF_calls smbgs))
  = flat_map (fun r => [smbgDate r; smbgTime r; smbgValue r]) smbgs
  /\ rows_of (table_texts (drawn (CreatePDF_calls smbgs))) = smbgs
  /\ line_breaks (drawn (CreatePDF_calls smbgs)) = List.length smbgs.
Proof.
  assert (D : drawn (CreatePDF_calls smbgs)
              = SetFont "Arial" EmptyString (f64 "12") :: lines smbgs).
  { unfold CreatePDF_calls. cbn [app drawn].
    rewrite drawn_map_Draw. cbn [drawn]. rewrite app_nil_r. reflexivity. }
  rewrite D. cbn [table_texts line_breaks].
  rewrite table_texts_lines, rows_of_flat_map, line_breaks_lines. auto.
Qed.

(** ** The page handlers *)

(** X16. [render] does not stop after a template that cannot be loaded:
    it prints the error, answers with the status 500, and then executes
    the nil template, which panics; it never returns from that case.  With
    the template loaded it returns, and a failing execution adds the error
    reply after the page. *)
Theorem render_goes_on_after_a_failed_parse :
  forall env st filename data,
    (forall e,
        ParseFiles_error env filename = Some e ->
        Pages.render filename data env st
        = (Panicked NilDereference,
           {| Pages.lines := Pages.lines st ++ [e];
              Pages.shown := Pages.shown st
                               ++ [Pages.HttpError "Sorry, something went wrong" 500] |}))
    /\ (ParseFiles_error env filename = None ->
        Pages.render filename data env st
        = (Returned tt,
           match Execute_error env with
           | None =>
               {| Pages.lines := Pages.lines st;
                  Pages.shown := Pages.shown st ++ [Pages.Page filename data] |}
           | Some e =>
               {| Pages.lines := Pages.lines st ++ [e];
                  Pages.shown := (Pages.shown st ++ [Pages.Page filename data])
                                   ++ [Pages.HttpError "Sorry, something went wrong" 500] |}
           end)).
Proof.
  intros env st filename data. split.
  - intros e H. unfold Pages.render, Pages.pbind, Pages.ParseFiles. rewrite H.
    reflexivity.
  - intros H. unfold Pages.render, Pages.pbind, Pages.ParseFiles. rewrite H.
    simpl. destruct (Execute_error env); reflexivity.
Qed.

Lemma render_goes_on_after_a_failed_parse_witness :
  Pages.render "templates/TidepoolMain.html" ANil Cases.no_templates Cases.blank
  = (Panicked NilDereference,
     {| Pages.lines := Pages.lines Cases.blank
                         ++ ["open templates/TidepoolMain.html: no such file or directory"];
        Pages.shown := Pages.shown Cases.blank
                         ++ [Pages.HttpError "Sorry, something went wrong" 500] |}).
Proof.
  apply (proj1 (render_goes_on_after_a_failed_parse Cases.no_templates Cases.blank
                  "templates/TidepoolMain.html" ANil)).
  reflexivity.
Defined.

(** X17. A template that cannot be loaded ends the whole process, in
    [home] as in [DisplayMessageScreen], before anything is written.  A
    failing execution ends the process in [DisplayMessageScreen], after
    the page has been started; [home] drops that error and returns. *)
Theorem missing_template_ends_the_process :
  forall env st,
    (forall e,
        ParseFiles_error env "templates/TidepoolMain.html" = Some e ->
        Pages.home env st
        = (Exited, {| Pages.lines := Pages.lines st ++ ["Can't parse main template." ++ e];
                      Pages.shown := Pages.shown st |}))
    /\ (ParseFiles_error env "templates/TidepoolMain.html" = None ->
        Pages.home env st
        = (Returned tt,
           {| Pages.lines := Pages.lines st;
              Pages.shown := Pages.shown st
                               ++ [Pages.Page "templates/TidepoolMain.html" ANil] |}))
    /\ (forall msg e,
          ParseFiles_error env "templates/ErrorMessageScreen.html" = Some e ->
          Pages.DisplayMessageScreen msg env st
          = (Exited,
             {| Pages.lines := Pages.lines st
                                 ++ ["Failed to parse the error message template." ++ e];
                Pages.shown := Pages.shown st |}))
    /\ (forall msg,
          ParseFiles_error env "templates/ErrorMessageScreen.html" = None ->
          Pages.DisplayMessageScreen msg env st
          = match Execute_error env with
            | Some e =>
                (Exited,
                 {| Pages.lines := Pages.lines st
                                     ++ ["Failed to execute the error  template" ++ e];
                    Pages.shown := Pages.shown st
                                     ++ [Pages.Page "templates/ErrorMessageScreen.html"
                                           (AString msg)] |})
            | None =>
                (Returned tt,
                 {| Pages.lines := Pages.lines st;
                    Pages.shown := Pages.shown st
                                     ++ [Pages.Page "templates/ErrorMessageScreen.html"
                                           (AString msg)] |})
            end).
Proof.
  intros env st. split; [|split; [|split]].
  - intros e H. unfold Pages.home, Pages.pbind, Pages.ParseFiles. rewrite H. reflexivity.
  - intros H. unfold Pages.home, Pages.pbind, Pages.ParseFiles. rewrite H. reflexivity.
  - intros msg e H. unfold Pages.DisplayMessageScreen, Pages.pbind, Pages.ParseFiles.
    rewrite H. reflexivity.
  - intros msg H. unfold Pages.DisplayMessageScreen, Pages.pbind, Pages.ParseFiles.
    rewrite H. simpl. destruct (Execute_error env); reflexivity.
Qed.

Lemma missing_template_ends_the_process_witness :
  Pages.home Cases.no_templates Cases.blank
  = (Exited,
     {| Pages.lines :=
          Pages.lines Cases.blank
            ++ ["Can't parse main template."
                  ++ "open templates/TidepoolMain.html: no such file or directory"];
        Pages.shown := Pages.shown Cases.blank |}).
Proof.
  apply (proj1 (missing_template_ends_the_process Cases.no_templates Cases.blank)).
  reflexivity.
Defined.
